(** * mindmap-bot: the mind-map document generation engine

    A shallow embedding of [app/services/mindmap]: the tree model
    ([models.py]), the generic JSON serializer, the generation facade
    ([mindmap_service.py]), the FreeMind XML serializer, the spreadsheet
    serializer and the radial layout of the image renderer, with the
    properties of the specification stated over them.

    Conventions.
    - A Python [str] is a [string]; its characters are the code points
      0..255.
    - A Python [dict] whose insertion order reaches the output (JSON
      objects, XML attributes, the node's [colors] and [font]) is an
      association list read with [dict_get]; the dictionaries that are only
      looked up ([positions], the worksheet cells) are [gmap]s.
    - A raised exception is the [Raise] branch of [result].
    - A Python [float] is a real number: the arithmetic of the layout is
      exact, rounding to binary64 is not modelled.
    - The text written by a library encoder ([json.dumps], [tostring],
      [Workbook.save]) is represented by the document it encodes. *)

From Stdlib Require Import Reals Lra ZArith Lia String Ascii List.
From Stdlib Require Import DecimalString.
From stdpp Require Import gmap strings list fin_maps.

Set Warnings "-register-all".
Local Open Scope string_scope.
Local Open Scope list_scope.

(* ===================================================================== *)
(** * The Python runtime the code relies on *)
(* ===================================================================== *)

Module Py.

Inductive exn : Type :=
| AttributeError
| TypeError
| ValueError
| IndexError
| ValidationError.

Inductive result (A : Type) : Type :=
| Ok (a : A)
| Raise (e : exn).
Arguments Ok {A} a.
Arguments Raise {A} e.

Definition is_ok {A} (r : result A) : Prop := ∃ a, r = Ok a.

(** Values of type [Any] that [json.loads] produces (numbers with a
    fraction are left out). *)
Inductive pyval : Type :=
| PNone
| PBool (b : bool)
| PInt (z : Z)
| PStr (s : string)
| PList (l : list pyval)
| PDict (d : list (string * pyval)).

(** The values a node's [font] dictionary holds. *)
Inductive scalar : Type :=
| SNone
| SBool (b : bool)
| SInt (z : Z)
| SStr (s : string).

Definition pyval_of_scalar (v : scalar) : pyval :=
  match v with
  | SNone => PNone
  | SBool b => PBool b
  | SInt z => PInt z
  | SStr s => PStr s
  end.

(** [d.get(key)] *)
Fixpoint dict_get {V} (d : list (string * V)) (key : string) : option V :=
  match d with
  | [] => None
  | (k, v) :: d' => if String.eqb k key then Some v else dict_get d' key
  end.

(** [d.get(key, dflt)] *)
Definition dict_get_default {V} (d : list (string * V)) (key : string) (dflt : V) : V :=
  match dict_get d key with
  | Some v => v
  | None => dflt
  end.

(** [d[key] = v] *)
Fixpoint dict_set {V} (d : list (string * V)) (key : string) (v : V) : list (string * V) :=
  match d with
  | [] => [(key, v)]
  | (k, w) :: d' => if String.eqb k key then (k, v) :: d' else (k, w) :: dict_set d' key v
  end.

(** [str(v)] on a scalar *)
Definition str (v : scalar) : string :=
  match v with
  | SNone => "None"
  | SBool true => "True"
  | SBool false => "False"
  | SInt z => NilZero.string_of_int (Z.to_int z)
  | SStr s => s
  end.

(** [c.lower()] on the letters A..Z; no other character can become one
    of the characters of an ASCII literal it is compared with. *)
Definition lower_ascii (c : ascii) : ascii :=
  let n := nat_of_ascii c in
  if (65 <=? n)%nat && (n <=? 90)%nat then ascii_of_nat (n + 32) else c.

Fixpoint lower (s : string) : string :=
  match s with
  | EmptyString => EmptyString
  | String c s' => String (lower_ascii c) (lower s')
  end.

(** [sep.join(parts)] *)
Definition join (sep : string) (parts : list string) : string := String.concat sep parts.

(** [enumerate(l)] *)
Definition enumerate {A} (l : list A) : list (nat * A) := combine (seq 0 (length l)) l.

End Py.
Import Py.

(* ===================================================================== *)
(** * models.py *)
(* ===================================================================== *)

Record MindMapTheme : Type := mkTheme {
  theme_colors : list string;
  theme_background : string;
  theme_text : string
}.

Inductive MindMapNode : Type := mkNode {
  id : string;
  name : string;
  note : option string;
  colors : list (string * string);
  font : list (string * scalar);
  children : list MindMapNode
}.

Definition default_colors : list (string * string) :=
  [("name", "#000000"); ("background", "#ffffff"); ("branch", "#1f77b4")].

Definition default_font : list (string * scalar) :=
  [("size", SInt 14); ("style", SStr "normal"); ("weight", SStr "normal")].

(** [MindMapNode(name=..., note=...)]: the identifier is the next one of the
    run, the other fields take their defaults. *)
Definition new_node (fresh_id nm : string) (nt : option string) : MindMapNode :=
  mkNode fresh_id nm nt default_colors default_font [].

(** [self.children.append(child)] *)
Definition add_child (self child : MindMapNode) : MindMapNode :=
  mkNode (id self) (name self) (note self) (colors self) (font self) (children self ++ [child]).

Definition py_optional_str (o : option string) : pyval :=
  match o with
  | None => PNone
  | Some s => PStr s
  end.

Fixpoint to_dict (self : MindMapNode) : pyval :=
  PDict [ ("id", PStr (id self));
          ("name", PStr (name self));
          ("note", py_optional_str (note self));
          ("colors", PDict (map (fun kv => (fst kv, PStr (snd kv))) (colors self)));
          ("font", PDict (map (fun kv => (fst kv, pyval_of_scalar (snd kv))) (font self)));
          ("children", PList (map to_dict (children self))) ].

(** What the specification calls the outline of a tree: names, notes and
    the order of the children, nothing else. *)
Inductive outline : Type :=
| Outline (nm : string) (nt : option string) (subs : list outline).

Fixpoint outline_of (t : MindMapNode) : outline :=
  Outline (name t) (note t) (map outline_of (children t)).

(** The node reached from [t] by the child indices [p]. *)
Fixpoint node_at (t : MindMapNode) (p : list nat) : option MindMapNode :=
  match p with
  | [] => Some t
  | i :: p' =>
      match children t !! i with
      | Some c => node_at c p'
      | None => None
      end
  end.

(* ===================================================================== *)
(** * The documents the library encoders write *)
(* ===================================================================== *)

(** [xml.etree.ElementTree.Element] *)
Module ElementTree.

Inductive Element : Type := mkElement {
  tag : string;
  attrib : list (string * string);
  text : option string;
  subelements : list Element
}.


End ElementTree.

(** The part of [openpyxl] the spreadsheet serializer uses. *)
Module openpyxl.

Record PatternFill : Type := mkPatternFill {
  start_color : string;
  end_color : string;
  fill_type : string
}.

Record Font : Type := mkFont {
  bold : bool;
  size : option Z;
  color : option string
}.

Record Alignment : Type := mkAlignment {
  horizontal : option string;
  vertical : option string;
  wrap_text : bool
}.

Record Cell : Type := mkCell {
  value : scalar;
  fill : option PatternFill;
  font : option Font;
  alignment : option Alignment;
  border_bottom : option (string * string)
}.

Definition empty_cell : Cell := mkCell SNone None None None None.

Record Worksheet : Type := mkWorksheet {
  title : string;
  cells : gmap (nat * nat) Cell;
  column_width : gmap nat nat;
  freeze_panes : option string
}.

Definition new_sheet (t : string) : Worksheet := mkWorksheet t ∅ ∅ None.

(** [ws.cell(row=r, column=c)]: the cell, created empty when it is new. *)
Definition cell (ws : Worksheet) (r c : nat) : Cell :=
  default empty_cell (cells ws !! (r, c)).

(** An assignment to attributes of [ws.cell(row=r, column=c)]. *)
Definition update_cell (ws : Worksheet) (r c : nat) (f : Cell → Cell) : Worksheet :=
  mkWorksheet (title ws) (<[(r, c) := f (cell ws r c)]> (cells ws))
              (column_width ws) (freeze_panes ws).

Definition set_value (v : scalar) (x : Cell) : Cell :=
  mkCell v (fill x) (font x) (alignment x) (border_bottom x).
Definition set_fill (p : PatternFill) (x : Cell) : Cell :=
  mkCell (value x) (Some p) (font x) (alignment x) (border_bottom x).
Definition set_font (f : Font) (x : Cell) : Cell :=
  mkCell (value x) (fill x) (Some f) (alignment x) (border_bottom x).
Definition set_alignment (a : Alignment) (x : Cell) : Cell :=
  mkCell (value x) (fill x) (font x) (Some a) (border_bottom x).
Definition set_border_bottom (b : string * string) (x : Cell) : Cell :=
  mkCell (value x) (fill x) (font x) (alignment x) (Some b).

Definition set_column_width (ws : Worksheet) (col w : nat) : Worksheet :=
  mkWorksheet (title ws) (cells ws) (<[col := w]> (column_width ws)) (freeze_panes ws).

Definition set_freeze_panes (ws : Worksheet) (at_cell : string) : Worksheet :=
  mkWorksheet (title ws) (cells ws) (column_width ws) (Some at_cell).

End openpyxl.

(** A [BytesIO] buffer, by the document whose encoding it holds. *)
Inductive BytesIO : Type :=
| json_bytes (data : pyval)
| xml_bytes (doc : ElementTree.Element)
| xlsx_bytes (sheets : list openpyxl.Worksheet)
| text_bytes (s : string).

(** [json.loads(buffer.getvalue())] *)
Definition json_loads (b : BytesIO) : result pyval :=
  match b with
  | json_bytes data => Ok data
  | _ => Raise ValueError
  end.

(* ===================================================================== *)
(** * generators/json_generator.py *)
(* ===================================================================== *)

Module JSONMindMapGenerator.

(** [theme.colors], [theme.background], [theme.text]: reading an attribute
    of [None] raises. *)
Definition getattr {A} (theme : option MindMapTheme) (field : MindMapTheme → A) : result A :=
  match theme with
  | Some th => Ok (field th)
  | None => Raise AttributeError
  end.

(** [generate(root, title, theme)]; [created] is what
    [get_vietnam_time().isoformat()] reads from the clock. The dictionary
    literal is evaluated entry by entry, in order. *)
Definition generate (created : string) (root : MindMapNode) (title : string)
    (theme : option MindMapTheme) : result BytesIO :=
  let meta := PDict [ ("name", PStr title); ("author", PStr "Mindmap Bot");
                      ("created", PStr created); ("version", PStr "1.0") ] in
  match getattr theme theme_colors with
  | Raise e => Raise e
  | Ok colorScheme =>
  match getattr theme theme_background with
  | Raise e => Raise e
  | Ok background =>
  match getattr theme theme_text with
  | Raise e => Raise e
  | Ok text =>
      let mindmap_data :=
        PDict [ ("meta", meta);
                ("theme", PDict [ ("name", PStr "custom");
                                  ("colorScheme", PList (map PStr colorScheme));
                                  ("background", PStr background);
                                  ("text", PStr text) ]);
                ("root", to_dict root) ] in
      Ok (json_bytes mindmap_data)
  end end end.

End JSONMindMapGenerator.

(* ===================================================================== *)
(** * mindmap_service.py *)
(* ===================================================================== *)

Module MindMapService.

(** The serializers the facade holds in its fields. *)
Inductive generator : Type := json_generator | markdown_generator.

(** A call [await self.<g>.generate(root, title, theme)]. *)
Record invocation : Type := Invoke {
  inv_generator : generator;
  inv_root : MindMapNode;
  inv_title : string;
  inv_theme : option MindMapTheme
}.

Section Service.

(** The identifiers [uuid.uuid4()] returns, in the order they are drawn. *)
Variable uuid4 : nat → string.
(** The reading of the clock. *)
Variable created : string.
(** [MarkdownGenerator.generate], whose module is not part of the sources. *)
Variable markdown_generate : MindMapNode → string → option MindMapTheme → result BytesIO.

(** Validation of the arguments of [MindMapNode(name=..., note=...)]:
    [name] is a [str], [note] a [str] or [None]. *)
Definition validate (nm nt : pyval) : result (string * option string) :=
  match nm, nt with
  | PStr s, PNone => Ok (s, None)
  | PStr s, PStr t => Ok (s, Some t)
  | _, _ => Raise ValidationError
  end.

(** [_build_simple_node_tree(structure)]; the state is the number of
    identifiers drawn so far.  [structure.get] exists on a dictionary only.
    The loop [for child_data in children_data] runs over the items of a
    list; over a dictionary or a string it runs over keys or characters,
    strings, on which the recursive call raises at once; nothing else is
    iterable. *)
Fixpoint _build_simple_node_tree (structure : pyval) (drawn : nat)
    {struct structure} : result (MindMapNode * nat) :=
  match structure with
  | PDict d =>
      match validate (dict_get_default d "name" (PStr "")) (dict_get_default d "note" PNone) with
      | Raise e => Raise e
      | Ok (nm, nt) =>
          let node := new_node (uuid4 drawn) nm nt in
          (fix lookup_children (d : list (string * pyval)) : result (MindMapNode * nat) :=
             match d with
             | [] => Ok (node, S drawn)
             | (k, children_data) :: d' =>
                 if String.eqb k "children" then
                   match children_data with
                   | PList items =>
                       (fix for_loop (items : list pyval) (node : MindMapNode) (drawn : nat)
                          : result (MindMapNode * nat) :=
                          match items with
                          | [] => Ok (node, drawn)
                          | child_data :: items' =>
                              match _build_simple_node_tree child_data drawn with
                              | Raise e => Raise e
                              | Ok (child_node, drawn') =>
                                  for_loop items' (add_child node child_node) drawn'
                              end
                          end) items node (S drawn)
                   | PDict [] | PStr EmptyString => Ok (node, S drawn)
                   | PDict (_ :: _) | PStr (String _ _) => Raise AttributeError
                   | PNone | PBool _ | PInt _ => Raise TypeError
                   end
                 else lookup_children d'
             end) d
      end
  | _ => Raise AttributeError
  end.

(** The loop [for child_data in children_data] over a list, by itself. *)
Fixpoint build_children (items : list pyval) (node : MindMapNode) (drawn : nat)
    : result (MindMapNode * nat) :=
  match items with
  | [] => Ok (node, drawn)
  | child_data :: items' =>
      match _build_simple_node_tree child_data drawn with
      | Raise e => Raise e
      | Ok (child_node, drawn') => build_children items' (add_child node child_node) drawn'
      end
  end.

(** [generate_from_structure(structure, title, format)], with the calls it
    makes to its serializers. *)
Definition generate_from_structure (structure : pyval) (title format : string)
    : list invocation * result BytesIO :=
  match _build_simple_node_tree structure 0 with
  | Raise e => ([], Raise e)
  | Ok (root_node, _) =>
      if String.eqb format "markdown" then
        ([Invoke markdown_generator root_node title None],
         markdown_generate root_node title None)
      else
        ([Invoke json_generator root_node title None],
         JSONMindMapGenerator.generate created root_node title None)
  end.

End Service.

(** The formats the facade documents: ["markdown"] (default) or ["json"]. *)
Definition supported_formats : list string := ["markdown"; "json"].

End MindMapService.

(* ===================================================================== *)
(** * generators/freemind_generator.py *)
(* ===================================================================== *)

Module FreeMindGenerator.
Import ElementTree.

(** [SubElement(parent, tag, **attribs)] creates this element (and appends
    it to [parent], which the callers below do by listing it among the
    parent's subelements). *)
Definition SubElement (t : string) (attribs : list (string * string))
    (subs : list Element) : Element :=
  mkElement t attribs None subs.

(** The rich-text note: [richcontent > html > body > p]. *)
Definition richcontent (note_text : string) : Element :=
  SubElement "richcontent" [("TYPE", "NOTE")]
    [SubElement "html" []
       [SubElement "body" [] [mkElement "p" [] (Some note_text) []]]].

(** [_build_xml_node(parent_elem, node, is_root, position)]: the [node]
    element it adds under [parent_elem]. *)
Fixpoint _build_xml_node (node : MindMapNode) (is_root : bool) (position : string)
    {struct node} : Element :=
  let node_attribs :=
    [("TEXT", name node); ("COLOR", dict_get_default (colors node) "name" "#000000")] in
  let bg_color := dict_get_default (colors node) "background" "#ffffff" in
  let node_attribs :=
    if negb (String.eqb bg_color "") && negb (String.eqb (lower bg_color) "#ffffff")
    then dict_set node_attribs "BACKGROUND_COLOR" bg_color
    else node_attribs in
  let node_attribs :=
    if negb is_root then dict_set node_attribs "POSITION" position
    else dict_set node_attribs "STYLE" "bubble" in
  let edge_attribs := [("COLOR", dict_get_default (colors node) "branch" "#1f77b4")] in
  let edge_attribs :=
    if is_root then dict_set edge_attribs "WIDTH" "2" else edge_attribs in
  let font_attribs :=
    [("NAME", "Arial"); ("SIZE", str (dict_get_default (font node) "size" (SInt 14)))] in
  let font_attribs :=
    match dict_get (font node) "weight" with
    | Some (SStr "bold") => dict_set font_attribs "BOLD" "true"
    | _ => font_attribs
    end in
  let font_attribs :=
    match dict_get (font node) "style" with
    | Some (SStr "italic") => dict_set font_attribs "ITALIC" "true"
    | _ => font_attribs
    end in
  let note_elems :=
    match note node with
    | Some (String c s) => [richcontent (String c s)]
    | _ => []
    end in
  let child_elems :=
    (fix for_loop (idx : nat) (cs : list MindMapNode) : list Element :=
       match cs with
       | [] => []
       | child :: cs' =>
           let child_position :=
             if is_root then (if (idx mod 2 =? 0)%nat then "right" else "left")
             else position in
           _build_xml_node child false child_position :: for_loop (S idx) cs'
       end) 0%nat (children node) in
  SubElement "node" node_attribs
    ([SubElement "edge" edge_attribs []; SubElement "font" font_attribs []]
       ++ note_elems ++ child_elems).

(** The loop of [_build_xml_node] over the children, by itself. *)
Section ChildElems.
Variable is_root : bool.
Variable position : string.
Fixpoint child_elems (idx : nat) (cs : list MindMapNode) : list Element :=
  match cs with
  | [] => []
  | child :: cs' =>
      let child_position :=
        if is_root then (if (idx mod 2 =? 0)%nat then "right" else "left") else position in
      _build_xml_node child false child_position :: child_elems (S idx) cs'
  end.
End ChildElems.

(** [generate(root, title, theme)]: the [map] document that is pretty
    printed into the buffer. *)
Definition generate (root : MindMapNode) (title : string) (theme : option MindMapTheme)
    : result BytesIO :=
  let map_elem :=
    mkElement "map" [("version", "0.9.0")] None [_build_xml_node root true "right"] in
  Ok (xml_bytes map_elem).

End FreeMindGenerator.

(* ===================================================================== *)
(** * generators/excel_generator.py *)
(* ===================================================================== *)

Module ExcelGenerator.
Import openpyxl.

Definition LEVEL_COLORS : gmap nat string :=
  <[0%nat := "4472C4"]> (<[1%nat := "70AD47"]> (<[2%nat := "FFC000"]>
  (<[3%nat := "5B9BD5"]> (<[4%nat := "A5A5A5"]> ∅)))).

(** The generator object and the worksheet it writes to. *)
Record state : Type := mkState {
  ws : Worksheet;
  row_num : nat
}.

Definition solid (c : string) : PatternFill := mkPatternFill c c "solid".

(** [_setup_headers(ws)] *)
Definition _setup_headers (w : Worksheet) : Worksheet :=
  let headers := ["Level"; "Node Name"; "Note"; "Path"] in
  let header_fill := solid "366092" in
  let header_font := mkFont true (Some 12%Z) (Some "FFFFFF") in
  fold_left
    (fun w ch =>
       update_cell w 1 (S (fst ch))
         (fun x => set_border_bottom ("medium", "000000")
                     (set_alignment (mkAlignment (Some "center") (Some "center") false)
                        (set_font header_font
                           (set_fill header_fill (set_value (SStr (snd ch)) x))))))
    (enumerate headers) w.

(** The body of [_build_excel_tree] up to [self.row_num += 1]: one row of
    four cells. *)
Definition write_row (node : MindMapNode) (level : nat) (path : string) (s : state) : state :=
  let color := default "FFFFFF" (LEVEL_COLORS !! level) in
  let r := row_num s in
  let w := ws s in
  let w := update_cell w r 1
             (fun x => set_fill (solid color)
                         (set_alignment (mkAlignment (Some "center") None false)
                            (set_value (SInt (Z.of_nat level)) x))) in
  let indent := String.concat "" (repeat "  " level) in
  let w := update_cell w r 2
             (fun x => set_font (mkFont (level =? 0)%nat
                                        (Some (if (level =? 0)%nat then 11%Z else 10%Z)) None)
                         (set_value (SStr (indent ++ name node)%string) x)) in
  let w := update_cell w r 3
             (fun x => set_alignment (mkAlignment None None true)
                         (set_value (SStr (match note node with
                                           | Some (String c t) => String c t
                                           | _ => ""
                                           end)) x)) in
  let w := update_cell w r 4
             (fun x => set_font (mkFont false (Some 9%Z) (Some "666666"))
                         (set_value (SStr path) x)) in
  mkState w (S r).

(** [_build_excel_tree(ws, node, level, path)] *)
Fixpoint _build_excel_tree (node : MindMapNode) (level : nat) (path : string)
    (s : state) {struct node} : state :=
  let s := write_row node level path s in
  fold_left
    (fun s child =>
       let child_path := (path ++ " > " ++ name child)%string in
       _build_excel_tree child (S level) child_path s)
    (children node) s.

(** The loop of [_build_excel_tree] over the children, by itself. *)
Definition build_children (level : nat) (path : string) (cs : list MindMapNode) (s : state)
    : state :=
  fold_left
    (fun s child => _build_excel_tree child (S level) (path ++ " > " ++ name child)%string s)
    cs s.

(** [_adjust_column_widths(ws)] *)
Definition _adjust_column_widths (w : Worksheet) : Worksheet :=
  fold_left (fun w cw => set_column_width w (fst cw) (snd cw))
            [(1, 8); (2, 40); (3, 50); (4, 60)]%nat w.

(** [_add_metadata_sheet(wb, title)]: the sheet ["Info"]; [generated_at] is
    the formatted reading of the clock. *)
Definition _add_metadata_sheet (generated_at title : string) : Worksheet :=
  let metadata :=
    [ ("Mind Map Title", title);
      ("Generated By", "Mindmap Bot");
      ("Generated At", generated_at);
      ("Format", "Excel (.xlsx)");
      ("", "");
      ("How to use:", "");
      ("1. Edit 'Node Name' and 'Note' columns directly", "");
      ("2. Add new rows to add nodes (maintain Level structure)", "");
      ("3. Delete rows to remove nodes", "");
      ("4. Keep Level column consistent (0=Root, 1=Branch, 2=Sub-branch, etc.)", "");
      ("5. Save and use for reference or import back to EdrawMind", "") ] in
  let meta_ws :=
    fold_left
      (fun w row =>
         let r := S (fst row) in
         let w := update_cell w r 1 (set_value (SStr (fst (snd row)))) in
         if String.eqb (snd (snd row)) "" then w
         else update_cell w r 2 (set_value (SStr (snd (snd row)))))
      (enumerate metadata) (new_sheet "Info") in
  let meta_ws := set_column_width (set_column_width meta_ws 1 20) 2 60 in
  fold_left (fun w r => update_cell w r 1 (set_font (mkFont true None None)))
            (seq 1 4) meta_ws.

(** [generate(root, title, theme)]: the workbook saved into the buffer and
    the generator's row counter. *)
Definition generate (generated_at : string) (root : MindMapNode) (title : string)
    (theme : option MindMapTheme) : result BytesIO * nat :=
  let info := _add_metadata_sheet generated_at title in
  let w := _setup_headers (new_sheet "Mind Map") in
  let s := mkState w 2 in
  let s := _build_excel_tree root 0 (name root) s in
  let w := _adjust_column_widths (ws s) in
  let w := set_freeze_panes w "A2" in
  (Ok (xlsx_bytes [info; w]), row_num s).

(** The data sheet of a generated workbook. *)
Definition mind_map_sheet (b : result BytesIO) : option Worksheet :=
  match b with
  | Ok (xlsx_bytes [_; w]) => Some w
  | _ => None
  end.

End ExcelGenerator.

(* ===================================================================== *)
(** * image_generator.py: layout, canvas size and colour parsing *)
(* ===================================================================== *)

Module ImageMindMapGenerator.

Definition MIN_WIDTH : Z := 1200.
Definition MIN_HEIGHT : Z := 800.
Definition PADDING : Z := 100.
Definition NODE_PADDING : Z := 20.
Definition LEVEL_SPACING : Z := 180.

(** ** [int(s, 16)] *)

Definition hex_digit (c : ascii) : option Z :=
  let n := nat_of_ascii c in
  if (48 <=? n)%nat && (n <=? 57)%nat then Some (Z.of_nat (n - 48))
  else if (65 <=? n)%nat && (n <=? 70)%nat then Some (Z.of_nat (n - 55))
  else if (97 <=? n)%nat && (n <=? 102)%nat then Some (Z.of_nat (n - 87))
  else None.

(** The characters [int] skips around the literal: tab to carriage
    return, the space, and the two spaces U+0085 and U+00A0. *)
Definition int_space (c : ascii) : bool :=
  let n := nat_of_ascii c in
  ((9 <=? n)%nat && (n <=? 13)%nat) || (n =? 32)%nat || (n =? 133)%nat || (n =? 160)%nat.

Fixpoint skip_spaces (s : string) : string :=
  match s with
  | String c s' => if int_space c then skip_spaces s' else s
  | EmptyString => s
  end.

(** The digits after the first one: single underscores between digits,
    then only spaces up to the end. *)
Fixpoint scan_digits (s : string) (acc : Z) (after_underscore : bool) : result Z :=
  match s with
  | EmptyString => if after_underscore then Raise ValueError else Ok acc
  | String c s' =>
      match hex_digit c with
      | Some d => scan_digits s' (16 * acc + d) false
      | None =>
          if after_underscore then Raise ValueError
          else if Ascii.eqb c "_" then scan_digits s' acc true
          else match skip_spaces s with
               | EmptyString => Ok acc
               | _ => Raise ValueError
               end
      end
  end.

Definition skip_prefix (s : string) : string :=
  match s with
  | String "0" (String x s') =>
      if Ascii.eqb x "x" || Ascii.eqb x "X" then
        match s' with
        | String "_" s'' => s''
        | _ => s'
        end
      else s
  | _ => s
  end.

Definition int16 (s : string) : result Z :=
  let s := skip_spaces s in
  let (sign, s) :=
    match s with
    | String "+" s' => (1%Z, s')
    | String "-" s' => ((-1)%Z, s')
    | _ => (1%Z, s)
    end in
  match skip_prefix s with
  | String c s' =>
      match hex_digit c with
      | Some d =>
          match scan_digits s' d false with
          | Ok v => Ok (sign * v)%Z
          | Raise e => Raise e
          end
      | None => Raise ValueError
      end
  | EmptyString => Raise ValueError
  end.

(** ** [_parse_color] *)

(** [s.lstrip('#')] *)
Fixpoint lstrip_hash (s : string) : string :=
  match s with
  | String "#" s' => lstrip_hash s'
  | _ => s
  end.

(** [''.join(c * 2 for c in s)] *)
Fixpoint double_chars (s : string) : string :=
  match s with
  | EmptyString => EmptyString
  | String c s' => String c (String c (double_chars s'))
  end.

Definition white : Z * Z * Z := (255, 255, 255)%Z.

Definition _parse_color (hex_color : string) : result (Z * Z * Z) :=
  if String.eqb hex_color "" then Ok white
  else
    let hex_color := lstrip_hash hex_color in
    let hex_color :=
      if (String.length hex_color =? 3)%nat then double_chars hex_color
      else if (String.length hex_color =? 8)%nat then substring 0 6 hex_color
      else hex_color in
    let attempt :=
      match int16 (substring 0 2 hex_color) with
      | Raise e => Raise e
      | Ok r =>
      match int16 (substring 2 2 hex_color) with
      | Raise e => Raise e
      | Ok g =>
      match int16 (substring 4 2 hex_color) with
      | Raise e => Raise e
      | Ok b => Ok (r, g, b)
      end end end in
    match attempt with
    | Ok rgb => Ok rgb
    | Raise ValueError | Raise IndexError => Ok white
    | Raise e => Raise e
    end.

(** ** The radial layout *)

Local Open Scope R_scope.

(** [positions] is keyed by [id(node)], the identity of the node object.
    The nodes of a tree are distinct objects, one per place in the tree, so
    the identity of a node is the list of child indices that leads to it
    from the root. *)
Abbreviation positions_dict := (gmap (list nat) (R * R)).

(** The body of [_layout_children], with the recursive call as [self]. *)
Definition layout_children_body
    (self : MindMapNode → list nat → R → R → R → R → nat → positions_dict → positions_dict)
    (here : list nat) (children_ : list MindMapNode)
    (parent_x parent_y start_angle end_angle : R) (level : nat)
    (positions : positions_dict) : positions_dict :=
  match children_ with
  | [] => positions
  | _ =>
      let n := length children_ in
      let angle_range := end_angle - start_angle in
      let angle_step := angle_range / INR (Nat.max n 1) in
      let radius := IZR LEVEL_SPACING * INR level in
      (fix for_loop (i : nat) (rest : list MindMapNode) (positions : positions_dict)
         : positions_dict :=
         match rest with
         | [] => positions
         | child :: rest' =>
             let angle := start_angle + angle_step * (INR i + 0.5) in
             let x := parent_x + radius * cos angle in
             let y := parent_y + radius * sin angle in
             let positions := <[here ++ [i] := (x, y)]> positions in
             let positions :=
               match children child with
               | [] => positions
               | _ =>
                   let child_angle_range := Rmin (angle_step * 0.8) (PI / 2) in
                   let child_start := angle - child_angle_range / 2 in
                   let child_end := angle + child_angle_range / 2 in
                   self child (here ++ [i]) x y child_start child_end (S level) positions
               end in
             for_loop (S i) rest' positions
         end) 0%nat children_ positions
  end.

(** [_layout_children(node.children, ...)] for the node [node], whose
    identity is [here]. *)
Fixpoint layout_children_of (node : MindMapNode) (here : list nat)
    (parent_x parent_y start_angle end_angle : R) (level : nat)
    (positions : positions_dict) {struct node} : positions_dict :=
  layout_children_body layout_children_of here (children node)
    parent_x parent_y start_angle end_angle level positions.

(** [_layout_children(children, parent_x, parent_y, start_angle, end_angle,
    level, positions)]; [here] is the identity of the node whose children
    these are. *)
Definition _layout_children (here : list nat) (children_ : list MindMapNode)
    (parent_x parent_y start_angle end_angle : R) (level : nat)
    (positions : positions_dict) : positions_dict :=
  layout_children_body layout_children_of here children_
    parent_x parent_y start_angle end_angle level positions.

(** [_calculate_layout(root)] *)
Definition _calculate_layout (root : MindMapNode) : positions_dict :=
  let center_x := (MIN_WIDTH / 2)%Z in
  let center_y := (MIN_HEIGHT / 2)%Z in
  let positions : positions_dict := <[ [] := (IZR center_x, IZR center_y) ]> ∅ in
  match children root with
  | [] => positions
  | _ =>
      _layout_children [] (children root) (IZR center_x) (IZR center_y)
        0 (2 * PI) 1 positions
  end.

(** [int(x)]: truncation towards zero. *)
Definition py_int (x : R) : Z :=
  if Rle_dec 0 x then Int_part x else (- Int_part (- x))%Z.

(** [min(l)] and [max(l)] of a list with first item [x]. *)
Definition py_min (x : R) (l : list R) : R := fold_left Rmin l x.
Definition py_max (x : R) (l : list R) : R := fold_left Rmax l x.

(** [_calculate_size(positions)] *)
Definition _calculate_size (positions : positions_dict) : Z * Z :=
  match (map_to_list positions).*2 with
  | [] => (MIN_WIDTH, MIN_HEIGHT)
  | p :: ps =>
      let min_x := py_min p.1 (ps.*1) in
      let max_x := py_max p.1 (ps.*1) in
      let min_y := py_min p.2 (ps.*2) in
      let max_y := py_max p.2 (ps.*2) in
      let width := py_int (max_x - min_x + IZR (PADDING * 2)) in
      let height := py_int (max_y - min_y + IZR (PADDING * 2)) in
      (Z.max width MIN_WIDTH, Z.max height MIN_HEIGHT)
  end.

End ImageMindMapGenerator.

(* ===================================================================== *)
(** * The properties of the specification, as definitions *)
(* ===================================================================== *)

(** The outcome the specification asks of the facade on an unsupported
    format: an error, and no serializer called. *)
Definition rejected (outcome : list MindMapService.invocation * result BytesIO) : Prop :=
  outcome.1 = [] ∧ ∃ e, outcome.2 = Raise e.

(** The facade rejects every format outside the supported enumeration. *)
Definition rejects_unsupported_formats
    (facade : pyval → string → string → list MindMapService.invocation * result BytesIO)
    : Prop :=
  ∀ structure title format,
    ¬ In format MindMapService.supported_formats →
    rejected (facade structure title format).



(** The rows of the spreadsheet as the specification lists them: the nodes
    in pre-order, depth first, each with its depth and the names from the
    root down to it. *)
Fixpoint preorder (level : nat) (ancestors : list string) (node : MindMapNode)
    : list (nat * list string * MindMapNode) :=
  let names := ancestors ++ [name node] in
  (level, names, node) :: flat_map (preorder (S level) names) (children node).

(** What row [r] of the data sheet shows of a node at depth [level] whose
    breadcrumb is [names]. *)
Definition row_shows (w : openpyxl.Worksheet) (r level : nat) (names : list string)
    (node : MindMapNode) : Prop :=
  openpyxl.value (openpyxl.cell w r 1) = SInt (Z.of_nat level)
  ∧ openpyxl.fill (openpyxl.cell w r 1)
      = Some (ExcelGenerator.solid (default "FFFFFF" (ExcelGenerator.LEVEL_COLORS !! level)))
  ∧ openpyxl.value (openpyxl.cell w r 2)
      = SStr (String.concat "" (repeat "  " level) ++ name node)%string
  ∧ openpyxl.value (openpyxl.cell w r 3) = SStr (default "" (note node))
  ∧ openpyxl.value (openpyxl.cell w r 4) = SStr (join " > " names).

(** What [_build_excel_tree] does to the sheet: it writes the rows of the
    pre-order listing from its current row on, and leaves the rows above
    as they are. *)
Definition writes_rows (rows : list (nat * list string * MindMapNode))
    (s s' : ExcelGenerator.state) : Prop :=
  ExcelGenerator.row_num s' = ExcelGenerator.row_num s + length rows
  ∧ (∀ r c, r < ExcelGenerator.row_num s →
            openpyxl.cell (ExcelGenerator.ws s') r c = openpyxl.cell (ExcelGenerator.ws s) r c)
  ∧ (∀ k level names node,
       rows !! k = Some (level, names, node) →
       row_shows (ExcelGenerator.ws s') (ExcelGenerator.row_num s + k) level names node).

(** The palette entry the specification names for a level: the one at
    [min(level, max defined level)]. *)
Definition max_defined_level : nat := 4.

Definition clamped_level_fill (level : nat) : option openpyxl.PatternFill :=
  ExcelGenerator.solid <$> (ExcelGenerator.LEVEL_COLORS !! Nat.min level max_defined_level).

(** Every data row of the sheet generated for [root] is filled with the
    clamped palette entry of its level. *)
Definition level_fill_clamped (root : MindMapNode) : Prop :=
  ∀ generated_at title theme w k level names node,
    ExcelGenerator.mind_map_sheet (ExcelGenerator.generate generated_at root title theme).1
      = Some w →
    preorder 0 [] root !! k = Some (level, names, node) →
    openpyxl.fill (openpyxl.cell w (2 + k) 1) = clamped_level_fill level.

(** A chain of [S depth] nodes, one under the other. *)
Fixpoint chain (depth : nat) : MindMapNode :=
  match depth with
  | O => mkNode "n" "leaf" None default_colors default_font []
  | S d => mkNode "n" "node" None default_colors default_font [chain d]
  end.


(** The data sheet generated for the chain of six nodes. *)
Definition chain5_sheet : openpyxl.Worksheet :=
  openpyxl.set_freeze_panes
    (ExcelGenerator._adjust_column_widths
       (ExcelGenerator.ws
          (ExcelGenerator._build_excel_tree (chain 5) 0 (name (chain 5))
             (ExcelGenerator.mkState
                (ExcelGenerator._setup_headers (openpyxl.new_sheet "Mind Map")) 2))))
    "A2".

(** The digits [_parse_color] reads its three components from: the
    argument without its leading [#], a 3-character string doubled, an
    8-character string cut to its first six characters. *)
Definition color_digits (hex_color : string) : string :=
  let h := ImageMindMapGenerator.lstrip_hash hex_color in
  if (String.length h =? 3)%nat then ImageMindMapGenerator.double_chars h
  else if (String.length h =? 8)%nat then substring 0 6 h
  else h.



(** ** The radial layout as the specification describes it *)

Module RadialLayout.
Import ImageMindMapGenerator.
Local Open Scope R_scope.

(** Where a node stands: its position, the angle it was given, and the
    sector [[sector_start, sector_end)] over which its children are
    spread. *)
Record geometry : Type := mkGeometry {
  gx : R;
  gy : R;
  gangle : R;
  sector_start : R;
  sector_end : R
}.

Definition position (g : geometry) : R * R := (gx g, gy g).

(** The root sits at the centre and gives the full circle to its
    children. *)
Definition root_geometry : geometry :=
  mkGeometry (IZR (MIN_WIDTH / 2)) (IZR (MIN_HEIGHT / 2)) 0 0 (2 * PI).

(** The angle of the [i]-th of [n] children of a node with sector
    [[start, end)]: [start + (i + 0.5) * (end - start) / n]. *)
Definition sibling_angle (parent : geometry) (n i : nat) : R :=
  sector_start parent + (INR i + 0.5) * (sector_end parent - sector_start parent) / INR n.

(** The [i]-th of the [n] children, at depth [level], of a node standing at
    [parent]: at distance [LEVEL_SPACING * level] from its parent in the
    direction of its angle; its own sector is centred on its angle and has
    width [min(angle_step * 0.8, pi / 2)], [angle_step] being the width of
    the parent's sector divided by [n]. *)
Definition child_geometry (parent : geometry) (n level i : nat) : geometry :=
  let angle := sibling_angle parent n i in
  let r := IZR LEVEL_SPACING * INR level in
  let angle_step := (sector_end parent - sector_start parent) / INR n in
  let width := Rmin (angle_step * 0.8) (PI / 2) in
  mkGeometry (gx parent + r * cos angle) (gy parent + r * sin angle)
             angle (angle - width / 2) (angle + width / 2).

(** The geometry of the node reached from [t] by the child indices [p],
    when [t] stands at [g] and its children are at depth [level]. *)
Fixpoint geometry_at (t : MindMapNode) (g : geometry) (level : nat) (p : list nat)
    : option geometry :=
  match p with
  | [] => Some g
  | i :: p' =>
      match children t !! i with
      | Some c => geometry_at c (child_geometry g (length (children t)) level i) (S level) p'
      | None => None
      end
  end.

(** Every position of the layout of [root] is at least [PADDING] away from
    the four edges of the canvas computed for it. *)
Definition respects_padding (root : MindMapNode) : Prop :=
  let positions := _calculate_layout root in
  let size := _calculate_size positions in
  ∀ (key : list nat) (x y : R),
    positions !! key = Some (x, y) →
    IZR PADDING <= x <= IZR size.1 - IZR PADDING
    ∧ IZR PADDING <= y <= IZR size.2 - IZR PADDING.

(** The loop of [_layout_children] over the children, from index [i] on. *)
Section Loop.
Variable here : list nat.
Variables parent_x parent_y start_angle angle_step radius : R.
Variable level : nat.

Fixpoint layout_loop (i : nat) (rest : list MindMapNode) (positions : positions_dict)
    : positions_dict :=
  match rest with
  | [] => positions
  | child :: rest' =>
      let angle := start_angle + angle_step * (INR i + 0.5) in
      let x := parent_x + radius * cos angle in
      let y := parent_y + radius * sin angle in
      let positions := <[here ++ [i] := (x, y)]> positions in
      let positions :=
        match children child with
        | [] => positions
        | _ =>
            let child_angle_range := Rmin (angle_step * 0.8) (PI / 2) in
            let child_start := angle - child_angle_range / 2 in
            let child_end := angle + child_angle_range / 2 in
            layout_children_of child (here ++ [i]) x y child_start child_end (S level)
              positions
        end in
      layout_loop (S i) rest' positions
  end.

End Loop.

(** What [_layout_children] does for the children of [node]: it records
    the position of every node below [node], under its identity, and
    leaves the other entries of [positions] as they are. *)
Definition lays_out (node : MindMapNode) : Prop :=
  ∀ (here : list nat) (g : geometry) (level : nat) (positions : positions_dict),
    let result :=
      layout_children_of node here (gx g) (gy g) (sector_start g) (sector_end g)
        level positions in
    (∀ p g', p ≠ [] → geometry_at node g level p = Some g' →
             result !! (here ++ p) = Some (position g'))
    ∧ (∀ q, (∀ p, p ≠ [] → q = here ++ p → geometry_at node g level p = None) →
            result !! q = positions !! q).

End RadialLayout.

(** The tree of the specification's example scenario: ["Topic"] with the
    children ["A"] and ["B"], ["B"] having the child ["B1"]. *)
Definition example_record : pyval :=
  PDict [ ("name", PStr "Topic");
          ("children", PList [ PDict [("name", PStr "A")];
                               PDict [ ("name", PStr "B");
                                       ("children", PList [PDict [("name", PStr "B1")]]) ] ]) ].

Definition example_tree : MindMapNode :=
  mkNode "n0" "Topic" None default_colors default_font
    [ mkNode "n1" "A" None default_colors default_font [];
      mkNode "n2" "B" None default_colors default_font
        [ mkNode "n3" "B1" None default_colors default_font [] ] ].

(** The [POSITION] attributes of the [node] elements under [e], in document
    order, each with its [TEXT]. *)
Fixpoint positions_under (e : ElementTree.Element) : list (option string * option string) :=
  flat_map
    (fun c =>
       if String.eqb (ElementTree.tag c) "node" then
         (dict_get (ElementTree.attrib c) "TEXT", dict_get (ElementTree.attrib c) "POSITION")
           :: positions_under c
       else [])
    (ElementTree.subelements e).

(* ===================================================================== *)
(** * Further code and what it is checked against *)
(* ===================================================================== *)

(** ** Records and trees *)

(** A record that describes an outline: a dictionary whose [name], when
    present, is a string (the label is empty otherwise), whose [note], when
    present, is a string or [None], and whose [children], when present, is
    a list of records describing the sub-outlines in order. *)
Inductive describes : pyval → outline → Prop :=
| describes_intro (d : list (string * pyval)) (nm : string) (nt : option string)
    (items : list pyval) (subs : list outline) :
    dict_get_default d "name" (PStr "") = PStr nm →
    dict_get_default d "note" PNone = py_optional_str nt →
    dict_get_default d "children" (PList []) = PList items →
    Forall2 describes items subs →
    describes (PDict d) (Outline nm nt subs).

(** The identifiers of the nodes of a tree, in pre-order. *)
Fixpoint ids_preorder (t : MindMapNode) : list string :=
  id t :: flat_map ids_preorder (children t).

(** Every node of the tree carries the default colours and font. *)
Fixpoint unstyled (t : MindMapNode) : Prop :=
  colors t = default_colors ∧ font t = default_font
  ∧ (fix all (cs : list MindMapNode) : Prop :=
       match cs with
       | [] => True
       | c :: cs' => unstyled c ∧ all cs'
       end) (children t).

(** What a successful run of the tree builder from [drawn] identifiers on
    guarantees: the identifiers of the tree are the next ones of the run,
    in pre-order, and no node is styled. *)
Definition fresh_build (uuid4 : nat → string) (v : pyval) : Prop :=
  ∀ drawn t drawn',
    MindMapService._build_simple_node_tree uuid4 v drawn = Ok (t, drawn') →
    drawn' = drawn + length (ids_preorder t)
    ∧ ids_preorder t = map uuid4 (seq drawn (length (ids_preorder t)))
    ∧ unstyled t.

(** ** generators/opml_generator.py *)

Module OPMLGenerator.
Import ElementTree.

(** [_build_outline(parent_elem, node)]: the [outline] element it adds
    under [parent_elem]. *)
Fixpoint _build_outline (node : MindMapNode) : Element :=
  let outline_attribs := [("text", name node)] in
  let outline_attribs :=
    match note node with
    | Some (String c s) => dict_set outline_attribs "_note" (String c s)
    | _ => outline_attribs
    end in
  mkElement "outline" outline_attribs None (map _build_outline (children node)).

(** [generate(root, title, theme)]: the [opml] document that is pretty
    printed into the buffer; [date_created] is the formatted reading of the
    clock. *)
Definition generate (date_created : string) (root : MindMapNode) (title : string)
    (theme : option MindMapTheme) : result BytesIO :=
  let head :=
    mkElement "head" [] None
      [ mkElement "title" [] (Some title) [];
        mkElement "dateCreated" [] (Some date_created) [];
        mkElement "ownerName" [] (Some "MILO Chatbot") [] ] in
  let body := mkElement "body" [] None [_build_outline root] in
  Ok (xml_bytes (mkElement "opml" [("version", "2.0")] None [head; body])).

End OPMLGenerator.

(** ** Reading the XML documents back *)

Module XmlReader.
Import ElementTree.






End XmlReader.

(** ** The blank-line filter that ends [_prettify_xml] *)

Module PrettyXml.

(** [s.split('\n')] *)
Fixpoint split_lines (s : string) : list string :=
  match s with
  | EmptyString => [EmptyString]
  | String c s' =>
      if Ascii.eqb c "010" then EmptyString :: split_lines s'
      else match split_lines s' with
           | line :: lines => String c line :: lines
           | [] => [String c EmptyString]
           end
  end.

(** [c.isspace()] *)
Definition isspace (c : ascii) : bool :=
  let n := nat_of_ascii c in
  ((9 <=? n)%nat && (n <=? 13)%nat) || ((28 <=? n)%nat && (n <=? 32)%nat)
  || (n =? 133)%nat || (n =? 160)%nat.

(** The truth value of [line.strip()]: the line has a character that is
    not white space. *)
Fixpoint has_text (line : string) : bool :=
  match line with
  | EmptyString => false
  | String c line' => negb (isspace c) || has_text line'
  end.

(** [lines = [line for line in pretty_xml.split('\n') if line.strip()];
    return '\n'.join(lines)] *)
Definition remove_blank_lines (pretty_xml : string) : string :=
  let lines := List.filter has_text (split_lines pretty_xml) in
  join (String "010" EmptyString) lines.

End PrettyXml.

(** The string has no line break. *)
Fixpoint one_line (s : string) : bool :=
  match s with
  | EmptyString => true
  | String c s' => negb (Ascii.eqb c "010") && one_line s'
  end.


(** ** image_generator.py: fonts and drawing *)

(** PIL's fonts: a face read from a file at a size, or the built-in one. *)
Module ImageFont.

Inductive Font : Type :=
| FreeTypeFont (path : string) (size : Z)
| load_default.

End ImageFont.

(** PIL's drawing object, represented by the calls made on it, in the
    order they are made.  The calls are recorded as they are made, and are
    taken to go through. *)
Module ImageDraw.

Inductive call : Type :=
| line (start stop : R * R) (fill : Z * Z * Z) (width : Z)
| rectangle (box : R * R * R * R) (fill : Z * Z * Z)
| pieslice (box : R * R * R * R) (start stop : Z) (fill : Z * Z * Z)
| arc (box : R * R * R * R) (start stop : Z) (fill : Z * Z * Z) (width : Z)
| text (xy : R * R) (s : string) (fill : Z * Z * Z) (font : ImageFont.Font).

End ImageDraw.

Module ImageMindMapDrawing.
Import ImageMindMapGenerator ImageFont ImageDraw.
Local Open Scope R_scope.

Definition FONT_PATHS : list string :=
  [ "f:/MILO_CHATBOT/app/data/fonts/DejaVuSans.ttf";
    "f:/MILO_CHATBOT/app/data/fonts/DejaVuSans-Bold.ttf";
    "C:/Windows/Fonts/arial.ttf";
    "C:/Windows/Fonts/segoeui.ttf";
    "/usr/share/fonts/truetype/dejavu/DejaVuSans.ttf" ].

(** [points[i]] *)
Definition index {A} (l : list A) (i : nat) : result A :=
  match l !! i with
  | Some x => Ok x
  | None => Raise IndexError
  end.

(** A [for] loop whose body makes calls on the drawing object and may
    raise. *)
Fixpoint for_each {A} (body : A → result (list call)) (l : list A) : result (list call) :=
  match l with
  | [] => Ok []
  | x :: l' =>
      match body x with
      | Raise e => Raise e
      | Ok drawn =>
          match for_each body l' with
          | Raise e => Raise e
          | Ok rest => Ok (drawn ++ rest)
          end
      end
  end.

(** The [points] of [_draw_curved_line]. *)
Definition curve_points (start stop : R * R) : list (R * R) :=
  let '(x1, y1) := start in
  let '(x2, y2) := stop in
  let mid_x := (x1 + x2) / 2 in
  let mid_y := (y1 + y2) / 2 in
  (λ i : nat,
     let t := INR i / 20 in
     ((1 - t) ^ 2 * x1 + 2 * (1 - t) * t * mid_x + t ^ 2 * x2,
      (1 - t) ^ 2 * y1 + 2 * (1 - t) * t * mid_y + t ^ 2 * y2))
  <$> seq 0 21.

(** [_draw_curved_line(draw, start, end, color, width)] *)
Definition _draw_curved_line (start stop : R * R) (color : Z * Z * Z) (width : Z)
    : result (list call) :=
  let points := curve_points start stop in
  for_each (λ i : nat,
              match index points i with
              | Raise e => Raise e
              | Ok p =>
                  match index points (i + 1) with
                  | Raise e => Raise e
                  | Ok q => Ok [line p q color width]
                  end
              end)
           (seq 0 (length points - 1)).

(** The loop of [_draw_connections] over the children of the node of
    identity [here], from the child of index [i] on; [self] is the
    function itself. *)
Section ConnectionsLoop.

Variable self : MindMapNode → list nat → result (list call).
Variable positions : positions_dict.
Variable here : list nat.
Variable node_pos : R * R.

Fixpoint connections_loop (i : nat) (cs : list MindMapNode) : result (list call) :=
  match cs with
  | [] => Ok []
  | child :: cs' =>
      match positions !! (here ++ [i]) with
      | None => connections_loop (S i) cs'
      | Some child_pos =>
          let branch_color := dict_get_default (colors child) "branch" "#666666" in
          match _parse_color branch_color with
          | Raise e => Raise e
          | Ok color =>
              match _draw_curved_line node_pos child_pos color 2 with
              | Raise e => Raise e
              | Ok curve =>
                  match self child (here ++ [i]) with
                  | Raise e => Raise e
                  | Ok below =>
                      match connections_loop (S i) cs' with
                      | Raise e => Raise e
                      | Ok rest => Ok (curve ++ below ++ rest)
                      end
                  end
              end
          end
      end
  end.

End ConnectionsLoop.

(** [_draw_connections(draw, node, positions)]; [here] is the identity of
    [node]. *)
Fixpoint _draw_connections (positions : positions_dict) (node : MindMapNode)
    (here : list nat) {struct node} : result (list call) :=
  match positions !! here with
  | None => Ok []
  | Some node_pos =>
      connections_loop (_draw_connections positions) positions here node_pos
        0%nat (children node)
  end.

(** The point [i] twentieths of the way from [start] to [stop] on the
    straight line. *)
Definition twentieth (start stop : R * R) (i : nat) : R * R :=
  (start.1 + INR i / 20 * (stop.1 - start.1), start.2 + INR i / 20 * (stop.2 - start.2)).

(** The call [c] belongs to the curve drawn for an edge of the tree under
    [node]: from the position of a node to the position of one of its
    children, in the branch colour of the child. *)
Definition drawn_for_edge (positions : positions_dict) (node : MindMapNode)
    (here : list nat) (c : call) : Prop :=
  ∃ (p : list nat) (i : nat) (child : MindMapNode) (parent_pos child_pos : R * R)
    (color : Z * Z * Z) (curve : list call),
    node_at node (p ++ [i]) = Some child
    ∧ positions !! (here ++ p) = Some parent_pos
    ∧ positions !! (here ++ p ++ [i]) = Some child_pos
    ∧ _parse_color (dict_get_default (colors child) "branch" "#666666") = Ok color
    ∧ _draw_curved_line parent_pos child_pos color 2 = Ok curve
    ∧ c ∈ curve.

(** [_draw_rounded_rect(draw, x1, y1, x2, y2, radius, fill, outline)] *)
Definition _draw_rounded_rect (x1 y1 x2 y2 : R) (radius : Z) (fill outline : Z * Z * Z)
    : list call :=
  let r := IZR radius in
  [ rectangle (x1 + r, y1, x2 - r, y2) fill;
    rectangle (x1, y1 + r, x2, y2 - r) fill;
    pieslice (x1, y1, x1 + r * 2, y1 + r * 2) 180 270 fill;
    pieslice (x2 - r * 2, y1, x2, y1 + r * 2) 270 360 fill;
    pieslice (x1, y2 - r * 2, x1 + r * 2, y2) 90 180 fill;
    pieslice (x2 - r * 2, y2 - r * 2, x2, y2) 0 90 fill;
    arc (x1, y1, x1 + r * 2, y1 + r * 2) 180 270 outline 2;
    arc (x2 - r * 2, y1, x2, y1 + r * 2) 270 360 outline 2;
    arc (x1, y2 - r * 2, x1 + r * 2, y2) 90 180 outline 2;
    arc (x2 - r * 2, y2 - r * 2, x2, y2) 0 90 outline 2;
    line (x1 + r, y1) (x2 - r, y1) outline 2;
    line (x1 + r, y2) (x2 - r, y2) outline 2;
    line (x1, y1 + r) (x1, y2 - r) outline 2;
    line (x2, y1 + r) (x2, y2 - r) outline 2 ].

(** [max(min(font_size, 24), 10)]: an integer is clamped, a boolean
    counts as 0 or 1 and gives 10, and [None] or a string cannot be
    compared with a number. *)
Definition clamp_font_size (font_size : scalar) : result Z :=
  match font_size with
  | SInt z => Ok (Z.max (Z.min z 24) 10)
  | SBool _ => Ok 10%Z
  | SNone | SStr _ => Raise TypeError
  end.

(** The image made by [Image.new('RGB', (width, height), bg_color)] and
    the calls drawn on it; the PNG buffer is represented by the image it
    encodes. *)
Record Image : Type := mkImage {
  image_size : Z * Z;
  image_color : Z * Z * Z;
  image_calls : list call
}.

Section Rendering.

(** The font files that can be read, and the box
    [draw.textbbox((0, 0), text, font=font)] of a text set in a font. *)
Variable font_file : string → bool.
Variable textbbox : string → Font → R * R * R * R.

(** [ImageFont.truetype(path, size)]; [None] stands for the [IOError] or
    [OSError] of a file that cannot be read. *)
Definition truetype (path : string) (size : Z) : option Font :=
  if font_file path then Some (FreeTypeFont path size) else None.

(** The loop of [_get_font] over the paths: the first font that loads. *)
Fixpoint try_paths (paths : list string) (size : Z) : option Font :=
  match paths with
  | [] => None
  | path :: paths' =>
      match truetype path size with
      | Some font => Some font
      | None => try_paths paths' size
      end
  end.

(** [_get_font(size, bold)] on the cache [self.font_cache]: the cache
    afterwards, and the font returned. *)
Definition _get_font (font_cache : gmap (Z * bool) Font) (size : Z) (bold : bool)
    : gmap (Z * bool) Font * Font :=
  let key := (size, bold) in
  match font_cache !! key with
  | Some font => (font_cache, font)
  | None =>
      let font := try_paths FONT_PATHS size in
      let font :=
        match font with
        | Some font => font
        | None => load_default
        end in
      (<[ key := font ]> font_cache, font)
  end.

(** The loop of [_draw_nodes] over the children of the node of identity
    [here], from the child of index [i] on; [self] is the function
    itself. *)
Section NodesLoop.

Variable self : MindMapNode → list nat → nat → gmap (Z * bool) Font
                → gmap (Z * bool) Font * result (list call).
Variable here : list nat.
Variable level : nat.

Fixpoint nodes_loop (i : nat) (cs : list MindMapNode) (font_cache : gmap (Z * bool) Font)
    : gmap (Z * bool) Font * result (list call) :=
  match cs with
  | [] => (font_cache, Ok [])
  | child :: cs' =>
      match self child (here ++ [i]) (level + 1)%nat font_cache with
      | (font_cache, Raise e) => (font_cache, Raise e)
      | (font_cache, Ok drawn) =>
          match nodes_loop (S i) cs' font_cache with
          | (font_cache, Raise e) => (font_cache, Raise e)
          | (font_cache, Ok rest) => (font_cache, Ok (drawn ++ rest))
          end
      end
  end.

End NodesLoop.

(** [_draw_nodes(draw, node, positions, level)]; [here] is the identity
    of [node]. *)
Fixpoint _draw_nodes (positions : positions_dict) (node : MindMapNode) (here : list nat)
    (level : nat) (font_cache : gmap (Z * bool) Font) {struct node}
    : gmap (Z * bool) Font * result (list call) :=
  match positions !! here with
  | None => (font_cache, Ok [])
  | Some (x, y) =>
      match _parse_color (dict_get_default (colors node) "background" "#ffffff") with
      | Raise e => (font_cache, Raise e)
      | Ok bg_color =>
      match _parse_color (dict_get_default (colors node) "name" "#000000") with
      | Raise e => (font_cache, Raise e)
      | Ok text_color =>
      match _parse_color (dict_get_default (colors node) "branch" "#666666") with
      | Raise e => (font_cache, Raise e)
      | Ok border_color =>
      let font_size := dict_get_default (font node) "size" (SInt 14) in
      match clamp_font_size font_size with
      | Raise e => (font_cache, Raise e)
      | Ok font_size =>
      let '(font_cache, font) := _get_font font_cache font_size false in
      let text_ := substring 0 50 (name node) in
      let '(b0, b1, b2, b3) := textbbox text_ font in
      let text_width := b2 - b0 in
      let text_height := b3 - b1 in
      let box_width := text_width + IZR (NODE_PADDING * 2) in
      let box_height := text_height + IZR NODE_PADDING in
      let left := x - box_width / 2 in
      let top := y - box_height / 2 in
      let right := x + box_width / 2 in
      let bottom := y + box_height / 2 in
      let radius := 8%Z in
      let box := _draw_rounded_rect left top right bottom radius bg_color border_color in
      let text_x := x - text_width / 2 in
      let text_y := y - text_height / 2 in
      let label := text (text_x, text_y) text_ text_color font in
      match nodes_loop (_draw_nodes positions) here level 0%nat (children node) font_cache with
      | (font_cache, Raise e) => (font_cache, Raise e)
      | (font_cache, Ok below) => (font_cache, Ok (box ++ label :: below))
      end
      end end end end
  end.

(** [_draw_title(draw, title, width, theme)] *)
Definition _draw_title (title : string) (width : Z) (theme : MindMapTheme)
    (font_cache : gmap (Z * bool) Font) : gmap (Z * bool) Font * result (list call) :=
  let '(font_cache, font) := _get_font font_cache 20 true in
  match _parse_color "#333333" with
  | Raise e => (font_cache, Raise e)
  | Ok text_color =>
      let '(b0, b1, b2, b3) := textbbox title font in
      let text_width := b2 - b0 in
      let x := (IZR width - text_width) / 2 in
      let y := 20 in
      (font_cache, Ok [text (x, y) title text_color font])
  end.

(** [_draw_watermark(draw, width, height)] *)
Definition _draw_watermark (width height : Z) (font_cache : gmap (Z * bool) Font)
    : gmap (Z * bool) Font * result (list call) :=
  let '(font_cache, font) := _get_font font_cache 12 false in
  let text_ := "Generated by MILO" in
  let text_color := (180, 180, 180)%Z in
  let '(b0, b1, b2, b3) := textbbox text_ font in
  let text_width := b2 - b0 in
  let x := IZR width - text_width - 20 in
  let y := IZR height - 30 in
  (font_cache, Ok [text (x, y) text_ text_color font]).

(** [generate(root_node, title, theme)] *)
Definition generate (root_node : MindMapNode) (title : string) (theme : MindMapTheme)
    (font_cache : gmap (Z * bool) Font) : gmap (Z * bool) Font * result Image :=
  let positions := _calculate_layout root_node in
  let '(width, height) := _calculate_size positions in
  match _parse_color (theme_background theme) with
  | Raise e => (font_cache, Raise e)
  | Ok bg_color =>
  match _draw_connections positions root_node [] with
  | Raise e => (font_cache, Raise e)
  | Ok connections =>
  match _draw_nodes positions root_node [] 0%nat font_cache with
  | (font_cache, Raise e) => (font_cache, Raise e)
  | (font_cache, Ok nodes) =>
  match _draw_title title width theme font_cache with
  | (font_cache, Raise e) => (font_cache, Raise e)
  | (font_cache, Ok title_) =>
  match _draw_watermark width height font_cache with
  | (font_cache, Raise e) => (font_cache, Raise e)
  | (font_cache, Ok watermark) =>
      (font_cache,
       Ok (mkImage (width, height) bg_color (connections ++ nodes ++ title_ ++ watermark)))
  end end end end end.

(** Every font of the cache is the one a new generator returns for the
    size, in the regular face. *)
Definition cache_sound (font_cache : gmap (Z * bool) Font) : Prop :=
  ∀ (size : Z) (bold : bool) (font : Font),
    font_cache !! (size, bold) = Some font → font = (_get_font ∅ size false).2.

End Rendering.

(** A machine on which only the last of the font paths can be read. *)
Definition linux_fonts : string → bool :=
  String.eqb "/usr/share/fonts/truetype/dejavu/DejaVuSans.ttf".

(** A call that writes a text in a face read from a file does so at a
    size between [lo] and [hi]. *)
Definition text_size_within (lo hi : Z) (c : call) : Prop :=
  match c with
  | text _ _ _ (FreeTypeFont _ size) => (lo ≤ size ≤ hi)%Z
  | _ => True
  end.

(** The nodes of a tree, in pre-order. *)
Fixpoint nodes_preorder (t : MindMapNode) : list MindMapNode :=
  t :: flat_map nodes_preorder (children t).

(** The font size of the node can be compared with a number (sizes with
    a fraction are not among the values of [scalar]). *)
Definition font_size_ok (node : MindMapNode) : bool :=
  match dict_get_default (font node) "size" (SInt 14) with
  | SInt _ | SBool _ => true
  | SNone | SStr _ => false
  end.

(** The string a call writes, if it writes one. *)
Definition written (c : call) : option string :=
  match c with
  | text _ s _ _ => Some s
  | _ => None
  end.

(** What is asked of [_draw_nodes] on a node, and of its loop on a list of
    siblings: [answer] is what was returned, for the cache [font_cache],
    on the nodes [nodes] in pre-order. *)
Definition nodes_drawn (font_file : string → bool) (font_cache : gmap (Z * bool) Font)
    (answer : gmap (Z * bool) Font * result (list call)) (nodes : list MindMapNode) : Prop :=
  (cache_sound font_file font_cache → cache_sound font_file answer.1)
  ∧ if forallb font_size_ok nodes
    then ∃ calls, answer.2 = Ok calls
           ∧ omap written calls = (λ n : MindMapNode, substring 0 50 (name n)) <$> nodes
           ∧ length calls = (15 * length nodes)%nat
           ∧ (cache_sound font_file font_cache → Forall (text_size_within 10 24) calls)
    else answer.2 = Raise TypeError.

End ImageMindMapDrawing.

(** ** bot.py *)

Module bot.

(** The calls the handler makes on Telegram, in the order it makes them;
    a message is named by its text.  They are taken to go through. *)
Inductive action : Type :=
| reply_text (text : string)
| reply_document (document : BytesIO) (filename caption parse_mode : string)
| delete (text : string).

(** The dictionaries [gemini_client.generate_mindmap] returns: a mind map
    to make ([success] true), a plain answer, or a failure with its
    message. *)
Inductive generated : Type :=
| mindmap (title : string) (structure : pyval) (format : string)
| text_response (text : string)
| failure (error : option string).

Definition thinking : string := "🤔 Đang tạo mindmap...".

Definition format_extensions : list (string * string) :=
  [("markdown", ".md"); ("json", ".json"); ("excel", ".xlsx")].

Definition newline : string := String "010" "".

Section Handler.

Variable uuid4 : nat → string.
Variable created : string.
Variable markdown_generate : MindMapNode → string → option MindMapTheme → result BytesIO.
(** [s.upper()] and [str(e)] *)
Variable upper : string → string.
Variable exception_text : exn → string.

(** [handle_message(update, context)], once the answer [result] of
    [gemini_client.generate_mindmap] is there. *)
Definition handle_message (result : generated) : list action :=
  reply_text thinking ::
  match result with
  | mindmap title structure format =>
      match (MindMapService.generate_from_structure uuid4 created markdown_generate
               structure title format).2 with
      | Ok buffer =>
          let file_ext := dict_get_default format_extensions format ".md" in
          let filename := (title ++ file_ext)%string in
          [ reply_document buffer filename
              ("✅ Mind map **" ++ title ++ "** đã được tạo thành công!"
               ++ newline ++ newline ++ "📄 Format: " ++ upper format)%string
              "Markdown";
            delete thinking ]
      | Raise e =>
          [ delete thinking; reply_text ("❌ Đã xảy ra lỗi: " ++ exception_text e)%string ]
      end
  | text_response text => [ reply_text text; delete thinking ]
  | failure error =>
      let error_msg :=
        match error with
        | Some msg => msg
        | None => "Không thể tạo mindmap"
        end in
      [ reply_text ("❌ " ++ error_msg)%string; delete thinking ]
  end.

End Handler.

End bot.
(* ===================================================================== *)
(** * Properties *)
(* ===================================================================== *)

(** ** Trees *)

(** Induction on trees: the property holds of a node when it holds of all
    its children. *)
Lemma MindMapNode_tree_ind (P : MindMapNode → Prop) :
  (∀ t, Forall P (children t) → P t) →
  ∀ t, P t.
Proof.
  intros step. fix IH 1. intros t. apply step.
  destruct t as [i n o c f cs]. simpl.
  induction cs as [|c' cs' IHcs]; constructor; [apply IH | exact IHcs].
Qed.

(** ** The facade and the generic JSON serializer *)

Section ServiceProperties.

Variable uuid4 : nat → string.
Variable created : string.
Variable markdown_generate : MindMapNode → string → option MindMapTheme → result BytesIO.

Abbreviation build := (MindMapService._build_simple_node_tree uuid4).
Abbreviation build_children := (MindMapService.build_children uuid4).
Abbreviation facade := (MindMapService.generate_from_structure uuid4 created markdown_generate).
Abbreviation validate := MindMapService.validate.

(** [_build_simple_node_tree] on a dictionary, with [structure.get]
    written as [dict_get]. *)
Lemma build_dict_unfold (d : list (string * pyval)) (drawn : nat) :
  build (PDict d) drawn =
  match validate (dict_get_default d "name" (PStr "")) (dict_get_default d "note" PNone) with
  | Raise e => Raise e
  | Ok (nm, nt) =>
      let node := new_node (uuid4 drawn) nm nt in
      match dict_get d "children" with
      | None => Ok (node, S drawn)
      | Some (PList items) => build_children items node (S drawn)
      | Some (PDict []) | Some (PStr EmptyString) => Ok (node, S drawn)
      | Some (PDict (_ :: _)) | Some (PStr (String _ _)) => Raise AttributeError
      | Some (PNone | PBool _ | PInt _) => Raise TypeError
      end
  end.
Proof.
  cbn [MindMapService._build_simple_node_tree].
  destruct (MindMapService.validate _ _) as [[nm nt]|e]; [|reflexivity].
  cbv zeta. generalize (new_node (uuid4 drawn) nm nt). intros node.
  induction d as [|[k v] d IH]; [reflexivity|].
  cbn [dict_get]. destruct (String.eqb k "children"); [|exact IH].
  destruct v as [| | | [|c t] | items | [|kv d']]; reflexivity.
Qed.

(** Rebuilding the dump of a node. *)
Lemma build_to_dict_unfold (t : MindMapNode) (drawn : nat) :
  build (to_dict t) drawn =
  build_children (map to_dict (children t)) (new_node (uuid4 drawn) (name t) (note t)) (S drawn).
Proof.
  destruct t as [i n o c f cs]. simpl.
  destruct o as [s|]; reflexivity.
Qed.

Lemma build_children_outline (cs : list MindMapNode) :
  Forall (fun c => ∀ drawn, ∃ c' drawn',
            build (to_dict c) drawn = Ok (c', drawn') ∧ outline_of c' = outline_of c) cs →
  ∀ node drawn, ∃ cs' drawn',
    build_children (map to_dict cs) node drawn
      = Ok (mkNode (id node) (name node) (note node) (colors node) (font node)
                   (children node ++ cs'), drawn')
    ∧ map outline_of cs' = map outline_of cs.
Proof.
  induction 1 as [|c cs Hc _ IH]; intros node drawn; simpl.
  - exists [], drawn. rewrite app_nil_r. destruct node; auto.
  - destruct (Hc drawn) as (c' & drawn1 & -> & Hout).
    destruct (IH (add_child node c') drawn1) as (cs' & drawn2 & -> & Hmap).
    exists (c' :: cs'), drawn2. simpl. rewrite <- app_assoc. simpl.
    split; [reflexivity | congruence].
Qed.

Lemma build_to_dict_outline (t : MindMapNode) :
  ∀ drawn, ∃ t' drawn',
    build (to_dict t) drawn = Ok (t', drawn') ∧ outline_of t' = outline_of t.
Proof.
  induction t as [t IH] using MindMapNode_tree_ind. intros drawn.
  rewrite build_to_dict_unfold.
  destruct (build_children_outline _ IH (new_node (uuid4 drawn) (name t) (note t)) (S drawn))
    as (cs' & drawn' & -> & Hmap).
  eexists _, _. split; [reflexivity|].
  destruct t; simpl in *. congruence.
Qed.

(** C1. The generic JSON serializer called without a theme does not return
    a buffer: reading [theme.colors] raises [AttributeError], for every
    tree; and so does the facade on its JSON path, whatever the record it
    is given. *)
Theorem json_generate_without_theme_raises :
  (∀ root title, JSONMindMapGenerator.generate created root title None = Raise AttributeError)
  ∧ (∀ structure title, ¬ is_ok (facade structure title "json").2).
Proof.
  split; [reflexivity|].
  intros structure title [b Hb]. revert Hb.
  unfold MindMapService.generate_from_structure.
  destruct (MindMapService._build_simple_node_tree uuid4 structure 0) as [[root drawn]|e];
    simpl; discriminate.
Qed.

(** What the facade does for a format other than ["markdown"]. *)
Lemma facade_not_markdown (structure : pyval) (title format : string) :
  format ≠ "markdown" →
  facade structure title format =
    match build structure 0 with
    | Raise e => ([], Raise e)
    | Ok (root_node, _) =>
        ([MindMapService.Invoke MindMapService.json_generator root_node title None],
         JSONMindMapGenerator.generate created root_node title None)
    end.
Proof.
  intros Hne. unfold MindMapService.generate_from_structure.
  destruct (String.eqb_spec format "markdown") as [->|_]; [congruence | reflexivity].
Qed.

End ServiceProperties.

(** C2, as stated, fails: asked for ["excel"], which is not among the
    supported formats, the facade calls the JSON serializer on the tree it
    built. *)
Lemma facade_excel_not_rejected :
  ¬ rejects_unsupported_formats
      (MindMapService.generate_from_structure (fun _ => "n0") "2026-01-01T00:00:00+07:00"
         (fun _ _ _ => Ok (text_bytes ""))).
Proof.
  intros H.
  destruct (H (PDict [("name", PStr "Topic")]) "Topic" "excel") as [Hcalls _].
  - cbn. intros [E|[E|[]]]; discriminate E.
  - discriminate Hcalls.
Qed.

(** C2, amended. For every format other than ["markdown"], supported or
    not, the facade builds the tree and calls the generic JSON serializer on
    it without a theme; what the caller gets is what that call gives. *)
Theorem facade_dispatches_to_json uuid4 created markdown_generate
    (structure : pyval) (title format : string) :
  format ≠ "markdown" →
  MindMapService.generate_from_structure uuid4 created markdown_generate structure title format =
    match MindMapService._build_simple_node_tree uuid4 structure 0 with
    | Raise e => ([], Raise e)
    | Ok (root_node, _) =>
        ([MindMapService.Invoke MindMapService.json_generator root_node title None],
         JSONMindMapGenerator.generate created root_node title None)
    end.
Proof. apply facade_not_markdown. Qed.

Lemma facade_dispatches_to_json_witness :
  "excel" ≠ "markdown" ∧
  MindMapService.generate_from_structure (fun _ => "n0") "now" (fun _ _ _ => Ok (text_bytes ""))
    (PDict [("name", PStr "Topic")]) "Topic" "excel" =
    ([MindMapService.Invoke MindMapService.json_generator (new_node "n0" "Topic" None) "Topic" None],
     JSONMindMapGenerator.generate "now" (new_node "n0" "Topic" None) "Topic" None).
Proof.
  split; [discriminate|].
  apply (facade_dispatches_to_json (fun _ => "n0") "now" (fun _ _ _ => Ok (text_bytes ""))
           (PDict [("name", PStr "Topic")]) "Topic" "excel").
  discriminate.
Defined.

(** C3. For every tree and theme, the generic JSON serializer returns a
    buffer; reading it back and rebuilding a tree from its [root] field
    gives a tree with the names, the notes and the order of children of the
    original. *)
Theorem json_round_trip uuid4 created (root : MindMapNode) (title : string)
    (theme : MindMapTheme) (drawn : nat) :
  ∃ buffer data r rebuilt drawn',
    JSONMindMapGenerator.generate created root title (Some theme) = Ok buffer
    ∧ json_loads buffer = Ok (PDict data)
    ∧ dict_get data "root" = Some r
    ∧ MindMapService._build_simple_node_tree uuid4 r drawn = Ok (rebuilt, drawn')
    ∧ outline_of rebuilt = outline_of root.
Proof.
  destruct (build_to_dict_outline uuid4 root drawn) as (rebuilt & drawn' & Hb & Hout).
  eexists _, _, (to_dict root), rebuilt, drawn'.
  split; [reflexivity|]. split; [reflexivity|]. split; [reflexivity|].
  split; assumption.
Qed.

(** ** Association lists *)


Lemma dict_get_set_ne {V} (d : list (string * V)) (k k' : string) (v : V) :
  k ≠ k' → dict_get (dict_set d k v) k' = dict_get d k'.
Proof.
  intros Hne. induction d as [|[k0 w] d IH]; simpl.
  - destruct (String.eqb_spec k k'); [contradiction | reflexivity].
  - destruct (String.eqb_spec k0 k) as [->|Hne0]; simpl.
    + destruct (String.eqb_spec k k'); [contradiction | reflexivity].
    + destruct (String.eqb_spec k0 k'); [reflexivity | exact IH].
Qed.

(** ** The FreeMind XML serializer *)

Module FreeMindProperties.
Import ElementTree FreeMindGenerator.












End FreeMindProperties.


(** ** The spreadsheet serializer *)

Module ExcelProperties.
Import openpyxl ExcelGenerator.

Lemma append_assoc (a b c : string) : ((a ++ b) ++ c = a ++ (b ++ c))%string.
Proof.
  induction a as [|x a IH]; [reflexivity|].
  change (String x ((a ++ b) ++ c) = String x (a ++ (b ++ c)))%string.
  now rewrite IH.
Qed.

(** Appending a name to a breadcrumb that is not empty. *)
Lemma join_snoc (sep : string) (names : list string) (x : string) :
  names ≠ [] →
  join sep (names ++ [x]) = (join sep names ++ sep ++ x)%string.
Proof.
  unfold join. induction names as [|a [|b names] IH]; intros Hne.
  - contradiction.
  - reflexivity.
  - change (String.concat sep ((a :: b :: names) ++ [x]))
      with (a ++ sep ++ String.concat sep ((b :: names) ++ [x]))%string.
    rewrite IH by discriminate.
    change (String.concat sep (a :: b :: names))
      with (a ++ sep ++ String.concat sep (b :: names))%string.
    now rewrite !append_assoc.
Qed.

Lemma cell_update_cell w r c f r' c' :
  cell (update_cell w r c f) r' c'
  = if decide ((r, c) = (r', c')) then f (cell w r c) else cell w r' c'.
Proof.
  unfold cell at 1. unfold update_cell. simpl.
  rewrite lookup_insert. destruct (decide ((r, c) = (r', c'))); reflexivity.
Qed.

Ltac cells :=
  repeat (rewrite cell_update_cell;
          match goal with
          | |- context [decide (?a = ?b)] => destruct (decide (a = b)); try congruence
          end).

Lemma write_row_num node level path s :
  row_num (write_row node level path s) = S (row_num s).
Proof. reflexivity. Qed.

Lemma write_row_frame node level path s r c :
  r ≠ row_num s →
  cell (ws (write_row node level path s)) r c = cell (ws s) r c.
Proof. intros Hr. unfold write_row. simpl. now cells. Qed.

Lemma write_row_shows node level names s :
  row_shows (ws (write_row node level (join " > " names) s)) (row_num s) level names node.
Proof.
  unfold row_shows, write_row. simpl.
  repeat split; cells; try reflexivity.
  simpl. destruct (note node) as [[|ch t]|]; reflexivity.
Qed.

Lemma build_excel_tree_unfold node level path s :
  _build_excel_tree node level path s
  = build_children level path (children node) (write_row node level path s).
Proof. destruct node; reflexivity. Qed.

Lemma row_shows_frame w w' r level names node :
  (∀ c, cell w' r c = cell w r c) →
  row_shows w r level names node → row_shows w' r level names node.
Proof. unfold row_shows. intros H. now rewrite !H. Qed.

Lemma writes_rows_nil s : writes_rows [] s s.
Proof.
  split; [simpl; lia|]. split; [reflexivity|]. intros k ? ? ? H. discriminate H.
Qed.

Lemma writes_rows_app rows1 rows2 s1 s2 s3 :
  writes_rows rows1 s1 s2 → writes_rows rows2 s2 s3 →
  writes_rows (rows1 ++ rows2) s1 s3.
Proof.
  intros (Hn1 & Hf1 & Hr1) (Hn2 & Hf2 & Hr2). split; [|split].
  - rewrite length_app. lia.
  - intros r c Hr. rewrite Hf2 by lia. now apply Hf1.
  - intros k level names node Hk.
    destruct (decide (k < length rows1)) as [Hlt|Hge].
    + rewrite lookup_app_l in Hk by exact Hlt.
      apply row_shows_frame with (w := ws s2); [|now apply Hr1].
      intros c. apply Hf2. lia.
    + rewrite lookup_app_r in Hk by lia.
      apply Hr2 in Hk. replace (row_num s1 + k) with (row_num s2 + (k - length rows1)) by lia.
      exact Hk.
Qed.

Lemma preorder_unfold level ancestors node :
  preorder level ancestors node
  = (level, ancestors ++ [name node], node)
      :: flat_map (preorder (S level) (ancestors ++ [name node])) (children node).
Proof. destruct node; reflexivity. Qed.

Lemma build_excel_tree_rows node :
  ∀ level ancestors s,
    writes_rows (preorder level ancestors node) s
      (_build_excel_tree node level (join " > " (ancestors ++ [name node])) s).
Proof.
  induction node as [node IH] using MindMapNode_tree_ind.
  intros level ancestors s. rewrite build_excel_tree_unfold.
  rewrite preorder_unfold.
  set (names := ancestors ++ [name node]).
  change ((level, names, node) :: ?l) with ([(level, names, node)] ++ l).
  apply writes_rows_app with (s2 := write_row node level (join " > " names) s).
  - split; [rewrite write_row_num; simpl; lia|]. split.
    + intros r c Hr. apply write_row_frame. lia.
    + intros [|k] lvl nms n Hk; [|discriminate Hk].
      injection Hk as <- <- <-. rewrite Nat.add_0_r. apply write_row_shows.
  - assert (Hne : names ≠ []) by (unfold names; destruct ancestors; discriminate).
    generalize (write_row node level (join " > " names) s).
    induction IH as [|c cs Hc _ IHcs]; intros s0; simpl.
    + apply writes_rows_nil.
    + eapply writes_rows_app; [|apply IHcs].
      rewrite <- join_snoc by exact Hne. apply Hc.
Qed.


(** The data sheet of a generated workbook holds the cells the tree walk
    wrote. *)
Lemma generate_sheet generated_at root title theme :
  ∃ w, mind_map_sheet (generate generated_at root title theme).1 = Some w
       ∧ ∀ r c, cell w r c
                = cell (ws (_build_excel_tree root 0 (name root)
                              (mkState (_setup_headers (new_sheet "Mind Map")) 2))) r c.
Proof. eexists. split; reflexivity. Qed.

Lemma generate_rows generated_at root title theme w k level names node :
  mind_map_sheet (generate generated_at root title theme).1 = Some w →
  preorder 0 [] root !! k = Some (level, names, node) →
  row_shows w (2 + k) level names node.
Proof.
  intros Hw Hk.
  destruct (generate_sheet generated_at root title theme) as (w' & Hw' & Hcells).
  rewrite Hw in Hw'. injection Hw' as <-.
  eapply row_shows_frame; [intros c; apply Hcells|].
  pose proof (build_excel_tree_rows root 0 []
                (mkState (_setup_headers (new_sheet "Mind Map")) 2)) as (_ & _ & Hrows).
  apply (Hrows k level names node Hk).
Qed.

Lemma level_colors_defined (level : nat) :
  (level ≤ 4)%nat → ∃ c, LEVEL_COLORS !! level = Some c.
Proof.
  intros H. do 5 (destruct level as [|level]; [eexists; reflexivity|]). lia.
Qed.

Lemma level_colors_undefined (level : nat) :
  (4 < level)%nat → LEVEL_COLORS !! level = None.
Proof.
  intros H. unfold LEVEL_COLORS.
  rewrite !lookup_insert_ne by lia. apply lookup_empty.
Qed.

End ExcelProperties.




(** C9, as stated, fails: in the sheet of a chain of six nodes the row of
    the node at level 5 is filled with [FFFFFF], not with the last palette
    entry [A5A5A5]. *)
Lemma chain5_level_fill_not_clamped : ¬ level_fill_clamped (chain 5).
Proof.
  intros H.
  specialize (H "" "" None chain5_sheet 5 5
                ["node"; "node"; "node"; "node"; "node"; "leaf"] (chain 0)
                eq_refl eq_refl).
  pose proof (ExcelProperties.generate_rows "" (chain 5) "" None chain5_sheet 5 5
                ["node"; "node"; "node"; "node"; "node"; "leaf"] (chain 0)
                eq_refl eq_refl) as (_ & Hfill & _).
  rewrite Hfill in H.
  rewrite ExcelProperties.level_colors_undefined in H by lia.
  vm_compute in H. discriminate H.
Qed.

(** C9, amended. In every data row, the Level cell is filled with the
    palette entry of the row's level when the level is one of the defined
    keys 0..4, and with the fixed default [FFFFFF] at every deeper level. *)
Theorem excel_level_fill (generated_at : string) (root : MindMapNode) (title : string)
    (theme : option MindMapTheme) (w : openpyxl.Worksheet) (k level : nat)
    (names : list string) (node : MindMapNode) :
  ExcelGenerator.mind_map_sheet (ExcelGenerator.generate generated_at root title theme).1
    = Some w →
  preorder 0 [] root !! k = Some (level, names, node) →
  ((level ≤ 4)%nat →
     ∃ c, ExcelGenerator.LEVEL_COLORS !! level = Some c
          ∧ openpyxl.fill (openpyxl.cell w (2 + k) 1) = Some (ExcelGenerator.solid c))
  ∧ ((4 < level)%nat →
       openpyxl.fill (openpyxl.cell w (2 + k) 1) = Some (ExcelGenerator.solid "FFFFFF")).
Proof.
  intros Hw Hk.
  destruct (ExcelProperties.generate_rows _ _ _ _ _ _ _ _ _ Hw Hk) as (_ & Hfill & _).
  split; intros Hlevel.
  - destruct (ExcelProperties.level_colors_defined level Hlevel) as (c & Hc).
    exists c. split; [exact Hc|]. now rewrite Hfill, Hc.
  - now rewrite Hfill, ExcelProperties.level_colors_undefined.
Qed.

Lemma excel_level_fill_witness :
  ExcelGenerator.mind_map_sheet (ExcelGenerator.generate "" (chain 5) "" None).1
    = Some chain5_sheet
  ∧ preorder 0 [] (chain 5) !! 5
    = Some (5, ["node"; "node"; "node"; "node"; "node"; "leaf"], chain 0)
  ∧ (((5 ≤ 4)%nat →
       ∃ c, ExcelGenerator.LEVEL_COLORS !! 5 = Some c
            ∧ openpyxl.fill (openpyxl.cell chain5_sheet (2 + 5) 1)
              = Some (ExcelGenerator.solid c))
     ∧ ((4 < 5)%nat →
          openpyxl.fill (openpyxl.cell chain5_sheet (2 + 5) 1)
          = Some (ExcelGenerator.solid "FFFFFF"))).
Proof.
  split; [reflexivity|]. split; [reflexivity|].
  apply (excel_level_fill "" (chain 5) "" None chain5_sheet 5 5
           ["node"; "node"; "node"; "node"; "node"; "leaf"] (chain 0));
    reflexivity.
Defined.

(** ** The colour parser of the renderer *)

Module ParseColorProperties.
Import ImageMindMapGenerator.






(** [int] raises nothing but [ValueError]. *)
Lemma scan_digits_raises (s : string) : ∀ acc u e,
  scan_digits s acc u = Raise e → e = ValueError.
Proof.
  induction s as [|c s IH]; intros acc u e; cbn [scan_digits].
  - destruct u; [now intros [= <-] | discriminate].
  - destruct (hex_digit c); [apply IH|].
    destruct u; [now intros [= <-]|].
    destruct (Ascii.eqb c "_"); [apply IH|].
    destruct (skip_spaces (String c s)); [discriminate | now intros [= <-]].
Qed.

Lemma int16_raises (s : string) (e : exn) : int16 s = Raise e → e = ValueError.
Proof.
  unfold int16.
  destruct (match skip_spaces s with
            | String "+" s' => (1%Z, s')
            | String "-" s' => ((-1)%Z, s')
            | _ => (1%Z, skip_spaces s)
            end) as [sign rest].
  destruct (skip_prefix rest) as [|c t]; [now intros [= <-]|].
  destruct (hex_digit c); [|now intros [= <-]].
  destruct (scan_digits t z false) eqn:E; [discriminate|].
  intros [= <-]. eapply scan_digits_raises, E.
Qed.

(** [_parse_color] in terms of the digits it reads. *)
Lemma parse_color_unfold (s : string) :
  _parse_color s =
  if String.eqb s "" then Ok white
  else
    match int16 (substring 0 2 (color_digits s)),
          int16 (substring 2 2 (color_digits s)),
          int16 (substring 4 2 (color_digits s)) with
    | Ok r, Ok g, Ok b => Ok (r, g, b)
    | _, _, _ => Ok white
    end.
Proof.
  unfold _parse_color, color_digits.
  destruct (String.eqb s ""); [reflexivity|].
  destruct (int16 (substring 0 2 _)) as [r|e1] eqn:E1.
  - destruct (int16 (substring 2 2 _)) as [g|e2] eqn:E2.
    + destruct (int16 (substring 4 2 _)) as [b|e3] eqn:E3; [reflexivity|].
      now rewrite (int16_raises _ _ E3).
    + now rewrite (int16_raises _ _ E2).
  - now rewrite (int16_raises _ _ E1).
Qed.

Lemma substring_0_0 (s : string) : substring 0 0 s = "".
Proof. destruct s; reflexivity. Qed.









End ParseColorProperties.


Example parse_color_examples :
  ImageMindMapGenerator._parse_color "#1f77b4" = Ok (31, 119, 180)%Z
  ∧ ImageMindMapGenerator._parse_color "#abc" = Ok (170, 187, 204)%Z
  ∧ ImageMindMapGenerator._parse_color "#11223344" = Ok (17, 34, 51)%Z
  ∧ ImageMindMapGenerator._parse_color "red" = Ok (255, 255, 255)%Z
  ∧ ImageMindMapGenerator._parse_color "#12345" = Ok (18, 52, 5)%Z.
Proof. repeat split. Qed.

(** ** The radial layout *)

Module LayoutProperties.
Import ImageMindMapGenerator RadialLayout.
Local Open Scope R_scope.

Lemma layout_children_of_unfold node here px py s e level positions :
  layout_children_of node here px py s e level positions
  = match children node with
    | [] => positions
    | _ =>
        layout_loop here px py s ((e - s) / INR (Nat.max (length (children node)) 1))
          (IZR LEVEL_SPACING * INR level) level 0 (children node) positions
    end.
Proof. destruct node as [i n o c f cs]. destruct cs; reflexivity. Qed.

Lemma layout_children_of_leaf node here px py s e level positions :
  children node = [] →
  layout_children_of node here px py s e level positions = positions.
Proof. intros H. now rewrite layout_children_of_unfold, H. Qed.

Lemma layout_loop_cons here px py s step radius level i child rest positions :
  layout_loop here px py s step radius level i (child :: rest) positions
  = let angle := s + step * (INR i + 0.5) in
    let x := px + radius * cos angle in
    let y := py + radius * sin angle in
    let width := Rmin (step * 0.8) (PI / 2) in
    layout_loop here px py s step radius level (S i) rest
      (layout_children_of child (here ++ [i]) x y (angle - width / 2) (angle + width / 2)
         (S level) (<[here ++ [i] := (x, y)]> positions)).
Proof.
  cbn [layout_loop]. destruct (children child) eqn:E; [|reflexivity].
  now rewrite layout_children_of_leaf.
Qed.

(** The geometry of a child, with the angle written as the code computes
    it. *)
Lemma child_geometry_code g n level i :
  (1 ≤ n)%nat →
  child_geometry g n level i
  = let step := (sector_end g - sector_start g) / INR (Nat.max n 1) in
    let angle := sector_start g + step * (INR i + 0.5) in
    let radius := IZR LEVEL_SPACING * INR level in
    let width := Rmin (step * 0.8) (PI / 2) in
    mkGeometry (gx g + radius * cos angle) (gy g + radius * sin angle) angle
               (angle - width / 2) (angle + width / 2).
Proof.
  intros Hn. unfold child_geometry, sibling_angle. rewrite Nat.max_l by exact Hn.
  assert (Hn0 : INR n <> 0) by (apply not_0_INR; lia).
  replace (sector_start g + (INR i + 0.5) * (sector_end g - sector_start g) / INR n)
    with (sector_start g + (sector_end g - sector_start g) / INR n * (INR i + 0.5))
    by (field; exact Hn0).
  reflexivity.
Qed.

Lemma cons_path (here : list nat) (i : nat) (p : list nat) :
  here ++ i :: p = (here ++ [i]) ++ p.
Proof. now rewrite <- app_assoc. Qed.

Lemma layout_loop_spec here g n level :
  (1 ≤ n)%nat →
  ∀ rest, Forall lays_out rest →
  ∀ i positions,
    let result :=
      layout_loop here (gx g) (gy g) (sector_start g)
        ((sector_end g - sector_start g) / INR (Nat.max n 1))
        (IZR LEVEL_SPACING * INR level) level i rest positions in
    (∀ k c p g',
       rest !! k = Some c →
       geometry_at c (child_geometry g n level (i + k)) (S level) p = Some g' →
       result !! (here ++ (i + k)%nat :: p) = Some (position g'))
    ∧ (∀ q,
         (∀ k c p, rest !! k = Some c → q = here ++ (i + k)%nat :: p →
                   geometry_at c (child_geometry g n level (i + k)) (S level) p = None) →
         result !! q = positions !! q).
Proof.
  intros Hn rest Hrest. induction Hrest as [|c rest Hc _ IH]; intros i positions.
  { split; [intros k c p g' Hk; discriminate Hk | reflexivity]. }
  cbv zeta. rewrite layout_loop_cons. cbv zeta.
  pose proof (child_geometry_code g n level i Hn) as Hgc. cbv zeta in Hgc.
  set (step := (sector_end g - sector_start g) / INR (Nat.max n 1)) in *.
  set (angle := sector_start g + step * (INR i + 0.5)) in *.
  set (x := gx g + IZR LEVEL_SPACING * INR level * cos angle) in *.
  set (y := gy g + IZR LEVEL_SPACING * INR level * sin angle) in *.
  set (width := Rmin (step * 0.8) (PI / 2)) in *.
  set (positions1 := <[here ++ [i] := (x, y)]> positions).
  destruct (Hc (here ++ [i]) (child_geometry g n level i) (S level) positions1)
    as [Hc_in Hc_frame].
  rewrite Hgc in Hc_in, Hc_frame. cbn [gx gy sector_start sector_end] in Hc_in, Hc_frame.
  set (positions2 := layout_children_of c (here ++ [i]) x y (angle - width / 2)
                       (angle + width / 2) (S level) positions1) in *.
  destruct (IH (S i) positions2) as [IH_in IH_frame].
  split.
  - intros k c' p g' Hk Hg.
    destruct k as [|k]; cbn in Hk.
    + injection Hk as <-. rewrite Nat.add_0_r in *.
      rewrite IH_frame.
      2:{ intros k c' p' _ Heq. apply app_inv_head in Heq. injection Heq. lia. }
      rewrite Hgc in Hg.
      destruct p as [|j p].
      * cbn in Hg. injection Hg as <-.
        rewrite Hc_frame.
        2:{ intros p' Hp' Heq. rewrite <- (app_nil_r (here ++ [i])) in Heq at 1.
            apply app_inv_head in Heq. congruence. }
        unfold positions1. rewrite lookup_insert_eq. reflexivity.
      * rewrite cons_path. apply Hc_in; [discriminate | exact Hg].
    + replace (i + S k)%nat with (S i + k)%nat in * by lia.
      now apply (IH_in k c' p g').
  - intros q Hq.
    rewrite IH_frame.
    2:{ intros k c' p Hk Heq. replace (S i + k)%nat with (i + S k)%nat in * by lia.
        now apply (Hq (S k) c' p). }
    rewrite Hc_frame.
    2:{ intros p Hp Heq. rewrite <- cons_path in Heq.
        specialize (Hq 0%nat c p eq_refl). rewrite Nat.add_0_r, Hgc in Hq.
        now apply Hq. }
    unfold positions1. apply lookup_insert_ne.
    intros <-. specialize (Hq 0%nat c [] eq_refl). rewrite Nat.add_0_r in Hq.
    specialize (Hq eq_refl). discriminate Hq.
Qed.

(** [_layout_children] lays out every tree. *)
Lemma layout_children_lays_out node : lays_out node.
Proof.
  induction node as [node IH] using MindMapNode_tree_ind.
  intros here g level positions. cbv zeta. rewrite layout_children_of_unfold.
  destruct (children node) as [|c cs] eqn:E.
  - split; [|reflexivity].
    intros [|i p] g' Hp; [contradiction|]. cbn. rewrite E. discriminate.
  - rewrite <- E in *.
    assert (Hn : (1 ≤ length (children node))%nat) by (rewrite E; simpl; lia).
    destruct (layout_loop_spec here g (length (children node)) level Hn
                (children node) IH 0%nat positions) as [Hin Hframe].
    split.
    + intros [|i p] g' Hp Hg; [contradiction|].
      cbn in Hg. destruct (children node !! i) as [ci|] eqn:Ei; [|discriminate].
      now apply (Hin i ci p g').
    + intros q Hq. apply Hframe.
      intros k ck p Hk ->. specialize (Hq (k :: p)). cbn in Hq. rewrite Hk in Hq.
      apply Hq; [discriminate | reflexivity].
Qed.

(** The layout is the geometry of the specification: the dictionary holds,
    under the identity of each node of the tree, the position the
    specification gives it, and nothing else. *)
Lemma calculate_layout_geometry root (p : list nat) :
  _calculate_layout root !! p = position <$> geometry_at root root_geometry 1 p.
Proof.
  unfold _calculate_layout.
  set (positions := <[ [] := _ ]> ∅).
  assert (Hroot : (match children root with
                   | [] => positions
                   | _ => _layout_children [] (children root) (IZR (MIN_WIDTH / 2))
                            (IZR (MIN_HEIGHT / 2)) 0 (2 * PI) 1 positions
                   end)
                  = layout_children_of root [] (gx root_geometry) (gy root_geometry)
                      (sector_start root_geometry) (sector_end root_geometry) 1 positions).
  { destruct root as [i n o c f cs]. destruct cs; reflexivity. }
  rewrite Hroot.
  destruct (layout_children_lays_out root [] root_geometry 1%nat positions) as [Hin Hframe].
  destruct (geometry_at root root_geometry 1 p) as [g'|] eqn:Hg.
  - destruct p as [|i p].
    + cbn in Hg. injection Hg as <-. rewrite Hframe.
      * unfold positions. now rewrite lookup_insert_eq.
      * intros p Hp Heq. cbn in Heq. congruence.
    + now apply (Hin (i :: p) g').
  - rewrite Hframe.
    + unfold positions. rewrite lookup_insert_ne; [apply lookup_empty|].
      intros <-. discriminate Hg.
    + intros p' _ Heq. cbn in Heq. now subst.
Qed.

(** The node and the geometry reached by a path exist together. *)
Lemma geometry_at_node t : ∀ p g level node,
  node_at t p = Some node → ∃ g', geometry_at t g level p = Some g'.
Proof.
  intros p. revert t. induction p as [|i p IH]; intros t g level node; cbn.
  - eauto.
  - destruct (children t !! i) as [c|]; [apply IH | discriminate].
Qed.

(** One step further down a path. *)
Lemma geometry_at_snoc t : ∀ p g level parent gp i c,
  node_at t p = Some parent →
  geometry_at t g level p = Some gp →
  children parent !! i = Some c →
  node_at t (p ++ [i]) = Some c
  ∧ geometry_at t g level (p ++ [i])
    = Some (child_geometry gp (length (children parent)) (level + length p) i).
Proof.
  intros p. revert t. induction p as [|j p IH]; intros t g level parent gp i c; cbn.
  - intros [= <-] [= <-] ->. now rewrite Nat.add_0_r.
  - destruct (children t !! j) as [cj|]; [|discriminate].
    intros Hn Hg Hc. replace (level + S (length p))%nat with (S level + length p)%nat by lia.
    now apply (IH cj _ (S level) parent gp i c).
Qed.

(** The sector a node passes to its children is not empty. *)
Lemma child_sector_positive g n level i :
  (1 ≤ n)%nat → sector_start g < sector_end g →
  sector_start (child_geometry g n level i) < sector_end (child_geometry g n level i).
Proof.
  intros Hn Hg. cbn.
  assert (0 < INR n) by (apply lt_0_INR; lia).
  assert (0 < (sector_end g - sector_start g) / INR n)
    by (apply Rdiv_lt_0_compat; lra).
  assert (0 < Rmin ((sector_end g - sector_start g) / INR n * 0.8) (PI / 2)).
  { pose proof PI_RGT_0. apply Rmin_glb_lt; lra. }
  lra.
Qed.

Lemma geometry_at_sector t : ∀ p g level g',
  sector_start g < sector_end g →
  geometry_at t g level p = Some g' →
  sector_start g' < sector_end g'.
Proof.
  intros p. revert t. induction p as [|i p IH]; intros t g level g' Hg; cbn.
  - now intros [= <-].
  - destruct (children t !! i) as [c|] eqn:Hc; [|discriminate].
    apply IH, child_sector_positive; [|exact Hg].
    apply lookup_lt_Some in Hc. lia.
Qed.

Lemma root_sector_positive : sector_start root_geometry < sector_end root_geometry.
Proof. cbn. pose proof PI_RGT_0. lra. Qed.



Lemma sibling_angle_only_child g :
  sibling_angle g 1 0 = (sector_start g + sector_end g) / 2.
Proof. unfold sibling_angle. cbn [INR]. lra. Qed.

(** The canvas is never smaller than the floor. *)
Lemma calculate_size_floor (positions : positions_dict) :
  (MIN_WIDTH ≤ (_calculate_size positions).1)%Z
  ∧ (MIN_HEIGHT ≤ (_calculate_size positions).2)%Z.
Proof.
  unfold _calculate_size. destruct ((map_to_list positions).*2) as [|p ps]; cbn [fst snd].
  - split; reflexivity.
  - split; apply Z.le_max_r.
Qed.

End LayoutProperties.



(** C6. In the layout of any tree, a node that is the [i]-th of the [n]
    children of its parent, at depth [level], is at
    [(parent_x + r * cos angle, parent_y + r * sin angle)] with
    [r = LEVEL_SPACING * level]; the sector over which its own children are
    spread is centred on [angle] and has width [min(angle_step * 0.8, pi / 2)],
    [angle_step] being the width of the parent's sector divided by [n]. *)
Theorem layout_child_position_and_sector (root : MindMapNode) (p : list nat) (i : nat)
    (parent node : MindMapNode) :
  node_at root p = Some parent →
  children parent !! i = Some node →
  ∃ g gnode : RadialLayout.geometry,
    RadialLayout.geometry_at root RadialLayout.root_geometry 1 p = Some g
    ∧ ImageMindMapGenerator._calculate_layout root !! p
      = Some (RadialLayout.gx g, RadialLayout.gy g)
    ∧ let n := length (children parent) in
      let level := S (length p) in
      let r := (IZR ImageMindMapGenerator.LEVEL_SPACING * INR level)%R in
      let angle_step := ((RadialLayout.sector_end g - RadialLayout.sector_start g) / INR n)%R in
      let angle := (RadialLayout.sector_start g + angle_step * (INR i + 0.5))%R in
      let width := Rmin (angle_step * 0.8) (PI / 2) in
      ImageMindMapGenerator._calculate_layout root !! (p ++ [i])
      = Some (RadialLayout.gx g + r * cos angle, RadialLayout.gy g + r * sin angle)%R
      ∧ RadialLayout.gx gnode = (RadialLayout.gx g + r * cos angle)%R
      ∧ RadialLayout.gy gnode = (RadialLayout.gy g + r * sin angle)%R
      ∧ RadialLayout.sector_start gnode = (angle - width / 2)%R
      ∧ RadialLayout.sector_end gnode = (angle + width / 2)%R
      ∧ ∀ j child,
          children node !! j = Some child →
          let m := length (children node) in
          let r' := (IZR ImageMindMapGenerator.LEVEL_SPACING * INR (S level))%R in
          let angle' :=
            (RadialLayout.sector_start gnode
             + (INR j + 0.5) * (RadialLayout.sector_end gnode - RadialLayout.sector_start gnode)
               / INR m)%R in
          ImageMindMapGenerator._calculate_layout root !! (p ++ [i; j])
          = Some (RadialLayout.gx gnode + r' * cos angle',
                  RadialLayout.gy gnode + r' * sin angle')%R.
Proof.
  intros Hparent Hnode.
  destruct (LayoutProperties.geometry_at_node root p RadialLayout.root_geometry 1 parent Hparent)
    as [g Hg].
  destruct (LayoutProperties.geometry_at_snoc root p RadialLayout.root_geometry 1
              parent g i node Hparent Hg Hnode) as [Hnode' Hgnode].
  assert (Hn : (1 ≤ length (children parent))%nat)
    by (apply lookup_lt_Some in Hnode; lia).
  pose proof (LayoutProperties.child_geometry_code g (length (children parent))
                (1 + length p) i Hn) as Hcode.
  rewrite Nat.max_l in Hcode by exact Hn. cbv zeta in Hcode.
  exists g, (RadialLayout.child_geometry g (length (children parent)) (1 + length p) i).
  split; [exact Hg|].
  split; [now rewrite LayoutProperties.calculate_layout_geometry, Hg|].
  cbv zeta. split; [|split; [|split; [|split; [|split]]]].
  - rewrite LayoutProperties.calculate_layout_geometry, Hgnode, Hcode. reflexivity.
  - now rewrite Hcode.
  - now rewrite Hcode.
  - now rewrite Hcode.
  - now rewrite Hcode.
  - intros j child Hchild.
    destruct (LayoutProperties.geometry_at_snoc root (p ++ [i]) RadialLayout.root_geometry 1
                node _ j child Hnode' Hgnode Hchild) as [_ Hgchild].
    rewrite <- app_assoc in Hgchild. cbn [app] in Hgchild.
    rewrite LayoutProperties.calculate_layout_geometry, Hgchild.
    rewrite length_app. cbn [length]. replace (1 + (length p + 1))%nat with (S (S (length p))) by lia.
    reflexivity.
Qed.

Lemma layout_child_position_and_sector_witness :
  node_at (chain 2) [] = Some (chain 2)
  ∧ children (chain 2) !! 0%nat = Some (chain 1)
  ∧ (∃ g gnode : RadialLayout.geometry,
    RadialLayout.geometry_at (chain 2) RadialLayout.root_geometry 1 (@nil nat) = Some g
    ∧ ImageMindMapGenerator._calculate_layout (chain 2) !! (@nil nat)
      = Some (RadialLayout.gx g, RadialLayout.gy g)
    ∧ let n := length (children (chain 2)) in
      let level := S (length (@nil nat)) in
      let r := (IZR ImageMindMapGenerator.LEVEL_SPACING * INR level)%R in
      let angle_step := ((RadialLayout.sector_end g - RadialLayout.sector_start g) / INR n)%R in
      let angle := (RadialLayout.sector_start g + angle_step * (INR 0%nat + 0.5))%R in
      let width := Rmin (angle_step * 0.8) (PI / 2) in
      ImageMindMapGenerator._calculate_layout (chain 2) !! ((@nil nat) ++ [0%nat])
      = Some (RadialLayout.gx g + r * cos angle, RadialLayout.gy g + r * sin angle)%R
      ∧ RadialLayout.gx gnode = (RadialLayout.gx g + r * cos angle)%R
      ∧ RadialLayout.gy gnode = (RadialLayout.gy g + r * sin angle)%R
      ∧ RadialLayout.sector_start gnode = (angle - width / 2)%R
      ∧ RadialLayout.sector_end gnode = (angle + width / 2)%R
      ∧ ∀ j child,
          children (chain 1) !! j = Some child →
          let m := length (children (chain 1)) in
          let r' := (IZR ImageMindMapGenerator.LEVEL_SPACING * INR (S level))%R in
          let angle' :=
            (RadialLayout.sector_start gnode
             + (INR j + 0.5) * (RadialLayout.sector_end gnode - RadialLayout.sector_start gnode)
               / INR m)%R in
          ImageMindMapGenerator._calculate_layout (chain 2) !! ((@nil nat) ++ [0%nat; j])
          = Some (RadialLayout.gx gnode + r' * cos angle',
                  RadialLayout.gy gnode + r' * sin angle')%R).
Proof.
  split; [reflexivity|]. split; [reflexivity|].
  apply (layout_child_position_and_sector (chain 2) [] 0 (chain 2) (chain 1)); reflexivity.
Defined.

(** The layout of the chain of three nodes: the root at the centre, its
    child straight to the left of it and its grandchild further left, less
    than [PADDING] from the left edge. *)
Example chain2_grandchild_position :
  ImageMindMapGenerator._calculate_layout (chain 2) !! [0; 0]%nat = Some (60, 400)%R.
Proof.
  rewrite LayoutProperties.calculate_layout_geometry. cbn [chain RadialLayout.geometry_at
    children lookup list_lookup length fmap option_fmap option_map].
  unfold RadialLayout.position. f_equal.
  pose proof PI_RGT_0 as Hpi.
  assert (H1 : RadialLayout.sibling_angle RadialLayout.root_geometry 1 0 = PI).
  { rewrite LayoutProperties.sibling_angle_only_child. cbn. lra. }
  assert (Hw : Rmin ((2 * PI - 0) / INR 1 * 0.8) (PI / 2) = (PI / 2)%R).
  { apply Rmin_right. cbn [INR]. lra. }
  set (g1 := RadialLayout.child_geometry RadialLayout.root_geometry 1 1 0).
  assert (Hg1 : g1 = RadialLayout.mkGeometry 420 400 PI (PI - PI / 2 / 2) (PI + PI / 2 / 2)).
  { unfold g1, RadialLayout.child_geometry.
    cbn [RadialLayout.gx RadialLayout.gy RadialLayout.sector_start RadialLayout.sector_end
         RadialLayout.root_geometry].
    rewrite H1, Hw, cos_PI, sin_PI.
    change (ImageMindMapGenerator.MIN_WIDTH / 2)%Z with 600%Z.
    change (ImageMindMapGenerator.MIN_HEIGHT / 2)%Z with 400%Z.
    change ImageMindMapGenerator.LEVEL_SPACING with 180%Z.
    cbn [INR]. f_equal; lra. }
  rewrite Hg1.
  assert (H2 : RadialLayout.sibling_angle
                 (RadialLayout.mkGeometry 420 400 PI (PI - PI / 2 / 2) (PI + PI / 2 / 2)) 1 0
               = PI).
  { rewrite LayoutProperties.sibling_angle_only_child. cbn. lra. }
  unfold RadialLayout.child_geometry.
  cbn [RadialLayout.gx RadialLayout.gy].
  rewrite H2, cos_PI, sin_PI.
  change ImageMindMapGenerator.LEVEL_SPACING with 180%Z.
  cbn [INR]. f_equal; lra.
Qed.

(** ** The example scenario of the specification *)

Example example_tree_built :
  MindMapService._build_simple_node_tree
    (fun n => match n with 0 => "n0" | 1 => "n1" | 2 => "n2" | _ => "n3" end)%nat
    example_record 0
  = Ok (example_tree, 4%nat).
Proof. reflexivity. Qed.

Example example_freemind_positions :
  positions_under (FreeMindGenerator._build_xml_node example_tree true "right")
  = [ (Some "A", Some "right"); (Some "B", Some "left"); (Some "B1", Some "left") ].
Proof. reflexivity. Qed.

Example example_excel_rows :
  map (fun row => (row.1.1, join " > " row.1.2)) (preorder 0 [] example_tree)
  = [ (0%nat, "Topic"); (1%nat, "Topic > A"); (1%nat, "Topic > B"); (2%nat, "Topic > B > B1") ].
Proof. reflexivity. Qed.

Example example_excel_cells :
  let w := ExcelGenerator.ws
             (ExcelGenerator._build_excel_tree example_tree 0 "Topic"
                (ExcelGenerator.mkState (openpyxl.new_sheet "Mind Map") 2)) in
  openpyxl.value (openpyxl.cell w 5 1) = SInt 2
  ∧ openpyxl.value (openpyxl.cell w 5 2) = SStr "    B1"
  ∧ openpyxl.value (openpyxl.cell w 5 4) = SStr "Topic > B > B1".
Proof. vm_compute. repeat split. Qed.

(** ** The layout and the canvas of the example scenario *)

Module ExampleLayout.
Import ImageMindMapGenerator RadialLayout.
Local Open Scope R_scope.

(** The second child ["B"] of the root: straight below the centre on the
    canvas axis, with a quarter circle for its children. *)
Lemma geometry_B :
  child_geometry root_geometry 2 1 1
  = mkGeometry 600 220 (3 * (PI / 2)) (3 * (PI / 2) - PI / 2 / 2) (3 * (PI / 2) + PI / 2 / 2).
Proof.
  pose proof PI_RGT_0 as Hpi.
  assert (Ha : sibling_angle root_geometry 2 1 = 3 * (PI / 2)).
  { unfold sibling_angle. cbn. lra. }
  assert (Hw : Rmin ((2 * PI - 0) / INR 2 * 0.8) (PI / 2) = PI / 2).
  { apply Rmin_right. cbn [INR]. lra. }
  unfold child_geometry.
  cbn [gx gy sector_start sector_end root_geometry].
  rewrite Ha, Hw, cos_3PI2, sin_3PI2.
  change (MIN_WIDTH / 2)%Z with 600%Z. change (MIN_HEIGHT / 2)%Z with 400%Z.
  change LEVEL_SPACING with 180%Z. cbn [INR]. f_equal; lra.
Qed.

Lemma position_A : position (child_geometry root_geometry 2 1 0) = (600, 580).
Proof.
  assert (Ha : sibling_angle root_geometry 2 0 = PI / 2).
  { unfold sibling_angle. cbn. lra. }
  unfold position, child_geometry. cbn [gx gy root_geometry].
  rewrite Ha, cos_PI2, sin_PI2.
  change (MIN_WIDTH / 2)%Z with 600%Z. change (MIN_HEIGHT / 2)%Z with 400%Z.
  change LEVEL_SPACING with 180%Z. cbn [INR]. f_equal; lra.
Qed.

Lemma position_B1 :
  position (child_geometry (child_geometry root_geometry 2 1 1) 1 2 0) = (600, -140).
Proof.
  rewrite geometry_B.
  unfold position, child_geometry. cbn [gx gy].
  rewrite LayoutProperties.sibling_angle_only_child. cbn [sector_start sector_end].
  replace ((3 * (PI / 2) - PI / 2 / 2 + (3 * (PI / 2) + PI / 2 / 2)) / 2)
    with (3 * (PI / 2)) by lra.
  rewrite cos_3PI2, sin_3PI2. change LEVEL_SPACING with 180%Z. cbn [INR]. f_equal; lra.
Qed.

(** The four entries of the layout. *)
Lemma example_layout (key : list nat) :
  _calculate_layout example_tree !! key
  = match key with
    | [] => Some (600, 400)
    | [0%nat] => Some (600, 580)
    | [1%nat] => Some (600, 220)
    | [1%nat; 0%nat] => Some (600, -140)
    | _ => None
    end.
Proof.
  rewrite LayoutProperties.calculate_layout_geometry.
  destruct key as [|[|[|i]] [|[|j] [|k key]]]; try reflexivity.
  - cbn -[child_geometry]. now rewrite position_A.
  - cbn -[child_geometry]. now rewrite geometry_B.
  - cbn -[child_geometry]. now rewrite position_B1.
Qed.

Ltac listed := repeat first [now left | right].

Lemma fold_min_spec (l : list R) : ∀ x,
  (fold_left Rmin l x = x ∨ fold_left Rmin l x ∈ l)
  ∧ ∀ y, y ∈ x :: l → fold_left Rmin l x <= y.
Proof.
  induction l as [|a l IH]; intros x; cbn [fold_left].
  - split; [now left|]. intros y Hy. apply list_elem_of_singleton in Hy. subst. lra.
  - destruct (IH (Rmin x a)) as [Hin Hle]. split.
    + destruct Hin as [->|Hin]; [|right; now right].
      apply (Rmin_case x a (fun m => m = x ∨ m ∈ a :: l)); [now left | right; now left].
    + intros y Hy. apply elem_of_cons in Hy as [->|Hy].
      * etransitivity; [apply Hle; now left | apply Rmin_l].
      * apply elem_of_cons in Hy as [->|Hy].
        -- etransitivity; [apply Hle; now left | apply Rmin_r].
        -- apply Hle. now right.
Qed.

Lemma fold_max_spec (l : list R) : ∀ x,
  (fold_left Rmax l x = x ∨ fold_left Rmax l x ∈ l)
  ∧ ∀ y, y ∈ x :: l → y <= fold_left Rmax l x.
Proof.
  induction l as [|a l IH]; intros x; cbn [fold_left].
  - split; [now left|]. intros y Hy. apply list_elem_of_singleton in Hy. subst. lra.
  - destruct (IH (Rmax x a)) as [Hin Hle]. split.
    + destruct Hin as [->|Hin]; [|right; now right].
      apply (Rmax_case x a (fun m => m = x ∨ m ∈ a :: l)); [now left | right; now left].
    + intros y Hy. apply elem_of_cons in Hy as [->|Hy].
      * etransitivity; [apply Rmax_l | apply Hle; now left].
      * apply elem_of_cons in Hy as [->|Hy].
        -- etransitivity; [apply Rmax_r | apply Hle; now left].
        -- apply Hle. now right.
Qed.

Lemma py_int_IZR (z : Z) : (0 ≤ z)%Z → py_int (IZR z) = z.
Proof.
  intros Hz. unfold py_int. destruct (Rle_dec 0 (IZR z)) as [_|Hn].
  - symmetry. apply Int_part_spec. lra.
  - exfalso. apply Hn. now apply IZR_le.
Qed.

(** The values of the layout, in whatever order the dictionary lists
    them. *)
Lemma example_values (v : R * R) :
  v ∈ (map_to_list (_calculate_layout example_tree)).*2
  ↔ v ∈ [(600, 400); (600, 580); (600, 220); (600, -140)].
Proof.
  rewrite list_elem_of_fmap. split.
  - intros ([key pos] & -> & Hin). apply elem_of_map_to_list in Hin.
    rewrite example_layout in Hin. cbn [snd].
    destruct key as [|[|[|i]] [|[|j] [|k key]]]; try discriminate Hin;
      injection Hin as <-; listed.
  - intros Hv.
    assert (∃ key, _calculate_layout example_tree !! key = Some v) as [key Hkey].
    { repeat (apply elem_of_cons in Hv as [->|Hv]).
      - now exists [].
      - exists [0%nat]. apply example_layout.
      - exists [1%nat]. apply example_layout.
      - exists [1%nat; 0%nat]. apply example_layout.
      - now apply elem_of_nil in Hv. }
    exists (key, v). split; [reflexivity|]. now apply elem_of_map_to_list.
Qed.

(** The canvas of the example scenario is 1200 by 920. *)
Lemma example_size :
  _calculate_size (_calculate_layout example_tree) = (1200, 920)%Z.
Proof.
  unfold _calculate_size, py_min, py_max.
  pose proof example_values as Hvals.
  destruct ((map_to_list (_calculate_layout example_tree)).*2) as [|p ps] eqn:E.
  { exfalso. destruct (Hvals (600, 400)) as [_ H]. eapply elem_of_nil, H. now left. }
  assert (Hxs : ∀ x, x ∈ p.1 :: ps.*1 → x = 600).
  { intros x Hx. change (p.1 :: ps.*1) with ((p :: ps).*1) in Hx.
    apply list_elem_of_fmap in Hx as (v & -> & Hv). apply Hvals in Hv.
    repeat (apply elem_of_cons in Hv as [->|Hv]); try reflexivity.
    now apply elem_of_nil in Hv. }
  assert (Hys : ∀ y, y ∈ p.2 :: ps.*2 ↔ y ∈ [400; 580; 220; -140]).
  { intros y. change (p.2 :: ps.*2) with ((p :: ps).*2). rewrite list_elem_of_fmap. split.
    - intros (v & -> & Hv). apply Hvals in Hv.
      repeat (apply elem_of_cons in Hv as [->|Hv]); [listed..|].
      now apply elem_of_nil in Hv.
    - intros Hy.
      assert (Hv : (600, y) ∈ p :: ps).
      { apply Hvals. repeat (apply elem_of_cons in Hy as [->|Hy]); [listed..|].
        now apply elem_of_nil in Hy. }
      now exists (600, y). }
  assert (Hmin_x : fold_left Rmin ps.*1 p.1 = 600).
  { apply Hxs. destruct (fold_min_spec ps.*1 p.1) as [[->| H] _]; [now left | now right]. }
  assert (Hmax_x : fold_left Rmax ps.*1 p.1 = 600).
  { apply Hxs. destruct (fold_max_spec ps.*1 p.1) as [[->| H] _]; [now left | now right]. }
  assert (Hmin_y : fold_left Rmin ps.*2 p.2 = -140).
  { destruct (fold_min_spec ps.*2 p.2) as [Hin Hle].
    assert (Hm : fold_left Rmin ps.*2 p.2 ∈ p.2 :: ps.*2)
      by (destruct Hin as [->|H]; [now left | now right]).
    apply Hys in Hm.
    assert (fold_left Rmin ps.*2 p.2 <= -140) by (apply Hle, Hys; listed).
    repeat (apply elem_of_cons in Hm as [Hm|Hm]); try lra.
    now apply elem_of_nil in Hm. }
  assert (Hmax_y : fold_left Rmax ps.*2 p.2 = 580).
  { destruct (fold_max_spec ps.*2 p.2) as [Hin Hle].
    assert (Hm : fold_left Rmax ps.*2 p.2 ∈ p.2 :: ps.*2)
      by (destruct Hin as [->|H]; [now left | now right]).
    apply Hys in Hm.
    assert (580 <= fold_left Rmax ps.*2 p.2) by (apply Hle, Hys; listed).
    repeat (apply elem_of_cons in Hm as [Hm|Hm]); try lra.
    now apply elem_of_nil in Hm. }
  rewrite Hmin_x, Hmax_x, Hmin_y, Hmax_y.
  change (PADDING * 2)%Z with 200%Z.
  replace (600 - 600 + 200) with (IZR 200) by lra.
  replace (580 - -140 + 200) with (IZR 920) by lra.
  rewrite !py_int_IZR by lia. reflexivity.
Qed.

End ExampleLayout.

(** C7. The canvas computed for any positions is at least [MIN_WIDTH] by
    [MIN_HEIGHT]; but the positions are not moved into it.  For the tree of
    the example scenario the canvas is 1200 by 920 and the node ["B1"] is
    placed at [(600, -140)], above the top edge: the layout does not keep
    the padding. *)
Theorem layout_breaks_padding :
  (∀ positions : gmap (list nat) (R * R),
     (ImageMindMapGenerator.MIN_WIDTH ≤ (ImageMindMapGenerator._calculate_size positions).1)%Z
     ∧ (ImageMindMapGenerator.MIN_HEIGHT ≤ (ImageMindMapGenerator._calculate_size positions).2)%Z)
  ∧ ImageMindMapGenerator._calculate_layout example_tree !! [1; 0]%nat = Some (600, -140)%R
  ∧ ImageMindMapGenerator._calculate_size (ImageMindMapGenerator._calculate_layout example_tree)
    = (1200, 920)%Z
  ∧ ¬ RadialLayout.respects_padding example_tree.
Proof.
  split; [apply LayoutProperties.calculate_size_floor|].
  split; [apply ExampleLayout.example_layout|].
  split; [apply ExampleLayout.example_size|].
  intros H.
  destruct (H [1; 0]%nat 600%R (-140)%R (ExampleLayout.example_layout [1; 0]%nat))
    as [_ [Hy _]].
  change (IZR ImageMindMapGenerator.PADDING) with 100%R in Hy. lra.
Qed.

(* ===================================================================== *)
(** * Further properties of the code *)
(* ===================================================================== *)

(** ** The tree builder *)

Lemma outline_tree_ind (P : outline → Prop) :
  (∀ nm nt subs, Forall P subs → P (Outline nm nt subs)) →
  ∀ o, P o.
Proof.
  intros step. fix IH 1. intros [nm nt subs]. apply step.
  induction subs as [|s subs IHsubs]; constructor; [apply IH | exact IHsubs].
Qed.

Lemma pyval_deep_ind (P : pyval → Prop) :
  P PNone → (∀ b, P (PBool b)) → (∀ z, P (PInt z)) → (∀ s, P (PStr s)) →
  (∀ l, Forall P l → P (PList l)) →
  (∀ d, Forall (fun kv => P kv.2) d → P (PDict d)) →
  ∀ v, P v.
Proof.
  intros HN HB HI HS HL HD. fix IH 1.
  intros [| b | z | s | l | d]; [exact HN | apply HB | apply HI | apply HS | |].
  - apply HL. induction l as [|v l IHl]; constructor; [apply IH | exact IHl].
  - apply HD. induction d as [|[k v] d IHd]; constructor; [apply IH | exact IHd].
Qed.

Lemma dict_get_Forall {V} (P : V → Prop) (d : list (string * V)) (k : string) (v : V) :
  Forall (fun kv => P kv.2) d → dict_get d k = Some v → P v.
Proof.
  induction 1 as [|[k' w] d Hw _ IH]; cbn; [discriminate|].
  destruct (String.eqb k' k); [now intros [= <-] | exact IH].
Qed.

Section BuilderProperties.

Variable uuid4 : nat → string.

Abbreviation build := (MindMapService._build_simple_node_tree uuid4).
Abbreviation build_children := (MindMapService.build_children uuid4).

Lemma build_children_describes (subs : list outline) :
  Forall (fun o => ∀ r drawn, describes r o →
            ∃ t drawn', build r drawn = Ok (t, drawn') ∧ outline_of t = o) subs →
  ∀ items node drawn,
    Forall2 describes items subs →
    ∃ cs drawn',
      build_children items node drawn
      = Ok (mkNode (id node) (name node) (note node) (colors node) (font node)
                   (children node ++ cs), drawn')
      ∧ map outline_of cs = subs.
Proof.
  induction 1 as [|o subs Ho _ IH]; intros items node drawn Hitems.
  - apply Forall2_nil_inv_r in Hitems as ->. exists [], drawn. cbn.
    rewrite app_nil_r. now destruct node.
  - apply Forall2_cons_inv_r in Hitems as (r & items' & Hr & Hitems' & ->).
    destruct (Ho r drawn Hr) as (c & drawn1 & Hc & Hout). cbn. rewrite Hc.
    destruct (IH items' (add_child node c) drawn1 Hitems') as (cs & drawn2 & -> & Hmap).
    exists (c :: cs), drawn2. cbn. rewrite <- app_assoc. cbn.
    split; [reflexivity | congruence].
Qed.

Lemma build_describes (o : outline) :
  ∀ r drawn, describes r o →
    ∃ t drawn', build r drawn = Ok (t, drawn') ∧ outline_of t = o.
Proof.
  induction o as [nm nt subs IH] using outline_tree_ind.
  intros r drawn Hr. inversion Hr as [d nm' nt' items subs' Hname Hnote Hchildren Hitems];
    subst.
  rewrite build_dict_unfold, Hname, Hnote.
  assert (Hv : MindMapService.validate (PStr nm) (py_optional_str nt) = Ok (nm, nt))
    by (destruct nt; reflexivity).
  rewrite Hv. cbv zeta.
  destruct (build_children_describes subs IH items (new_node (uuid4 drawn) nm nt) (S drawn)
              Hitems) as (cs & drawn' & Hcs & Hmap).
  unfold dict_get_default in Hchildren.
  destruct (dict_get d "children") as [v|].
  - subst v. rewrite Hcs. eexists _, _. split; [reflexivity|]. cbn. now rewrite Hmap.
  - injection Hchildren as <-. apply Forall2_nil_inv_l in Hitems as ->.
    eexists _, _. split; [reflexivity|]. reflexivity.
Qed.

End BuilderProperties.

(** X1. On a record that describes an outline, the tree builder succeeds and
    the tree it returns has that outline: a missing [name] gives the empty
    label, a missing [note] no note, missing [children] a leaf, and the
    children come in the order of the record. *)
Theorem build_well_formed_record (uuid4 : nat → string) (r : pyval) (o : outline)
    (drawn : nat) :
  describes r o →
  ∃ t drawn',
    MindMapService._build_simple_node_tree uuid4 r drawn = Ok (t, drawn')
    ∧ outline_of t = o.
Proof. apply build_describes. Qed.

Lemma build_well_formed_record_witness :
  describes (PDict [("note", PStr "n"); ("children", PList [PDict []])])
            (Outline "" (Some "n") [Outline "" None []])
  ∧ ∃ t drawn',
      MindMapService._build_simple_node_tree (fun _ => "u")
        (PDict [("note", PStr "n"); ("children", PList [PDict []])]) 0
      = Ok (t, drawn')
      ∧ outline_of t = Outline "" (Some "n") [Outline "" None []].
Proof.
  assert (H : describes (PDict [("note", PStr "n"); ("children", PList [PDict []])])
                        (Outline "" (Some "n") [Outline "" None []])).
  { apply (describes_intro _ "" (Some "n") [PDict []] [Outline "" None []]);
      try reflexivity.
    constructor; [|constructor].
    apply (describes_intro [] "" None [] []); try reflexivity. constructor. }
  split; [exact H|].
  apply (build_well_formed_record (fun _ => "u") _ _ 0 H).
Defined.

Lemma unstyled_unfold (t : MindMapNode) :
  unstyled t ↔ colors t = default_colors ∧ font t = default_font ∧ Forall unstyled (children t).
Proof.
  destruct t as [i n o c f cs]. cbn.
  assert (H : (fix all (cs : list MindMapNode) : Prop :=
                 match cs with
                 | [] => True
                 | c :: cs' => unstyled c ∧ all cs'
                 end) cs ↔ Forall unstyled cs).
  { induction cs as [|c' cs IH]; [split; constructor|].
    rewrite Forall_cons. now rewrite IH. }
  now rewrite H.
Qed.

Section BuilderIdentifiers.

Variable uuid4 : nat → string.

Abbreviation build := (MindMapService._build_simple_node_tree uuid4).
Abbreviation build_children := (MindMapService.build_children uuid4).

Lemma build_children_fresh (items : list pyval) :
  Forall (fresh_build uuid4) items →
  ∀ node drawn node' drawn',
    build_children items node drawn = Ok (node', drawn') →
    ∃ cs,
      node' = mkNode (id node) (name node) (note node) (colors node) (font node)
                     (children node ++ cs)
      ∧ drawn' = drawn + length (flat_map ids_preorder cs)
      ∧ flat_map ids_preorder cs = map uuid4 (seq drawn (length (flat_map ids_preorder cs)))
      ∧ Forall unstyled cs.
Proof.
  induction 1 as [|r items Hr _ IH]; intros node drawn node' drawn'; cbn.
  - intros [= <- <-]. exists []. cbn. rewrite app_nil_r, Nat.add_0_r.
    destruct node; repeat split; constructor.
  - destruct (build r drawn) as [[c drawn1]|e] eqn:Hc; [|discriminate].
    intros Hrest. destruct (Hr _ _ _ Hc) as (Hd1 & Hids1 & Hun1).
    destruct (IH _ _ _ _ Hrest) as (cs & -> & Hd2 & Hids2 & Hun2).
    exists (c :: cs). cbn. rewrite <- app_assoc. cbn.
    rewrite length_app. split; [reflexivity|]. split; [lia|]. split.
    + rewrite seq_app, map_app. f_equal; [exact Hids1|].
      rewrite <- Hd1. exact Hids2.
    + now constructor.
Qed.

Lemma build_fresh (v : pyval) : fresh_build uuid4 v.
Proof.
  enough (H : fresh_build uuid4 v
              ∧ match v with PList items => Forall (fresh_build uuid4) items | _ => True end)
    by apply H.
  induction v as [| b | z | s | l IH | d IH] using pyval_deep_ind;
    try (split; [intros drawn t drawn' H; discriminate H | exact I]).
  - split; [intros drawn t drawn' H; discriminate H|].
    eapply Forall_impl; [exact IH|]. intros v H. apply H.
  - split; [|exact I]. intros drawn t drawn'. rewrite build_dict_unfold.
    destruct (MindMapService.validate _ _) as [[nm nt]|e]; [|discriminate].
    cbv zeta.
    assert (Hleaf : ∀ t0 d0, Ok (new_node (uuid4 drawn) nm nt, S drawn) = Ok (t0, d0) →
                    d0 = drawn + length (ids_preorder t0)
                    ∧ ids_preorder t0 = map uuid4 (seq drawn (length (ids_preorder t0)))
                    ∧ unstyled t0).
    { intros t0 d0 [= <- <-]. cbn. repeat split; lia. }
    destruct (dict_get d "children") as [v|] eqn:Hv; [|apply Hleaf].
    pose proof (dict_get_Forall
                  (fun v => fresh_build uuid4 v
                            ∧ match v with
                              | PList items => Forall (fresh_build uuid4) items
                              | _ => True
                              end)
                  d "children" v IH Hv) as Hv'.
    cbv beta in Hv'.
    destruct Hv' as [_ Hitems].
    destruct v as [| b | z | [|c s] | items | [|kv d']]; try discriminate; try apply Hleaf.
    intros Hb.
    destruct (build_children_fresh items Hitems _ _ _ _ Hb) as (cs & -> & Hd & Hids & Hun).
    split; [cbn; lia|]. split.
    + cbn. f_equal. exact Hids.
    + apply unstyled_unfold. cbn. repeat split. exact Hun.
Qed.

End BuilderIdentifiers.

(** X2. A tree built from a record draws one identifier per node, in
    pre-order, starting from the next one of the run, and every node carries
    the default colours and font; so the identifiers of the tree are pairwise
    distinct whenever the identifiers drawn are. *)
Theorem build_identifiers (uuid4 : nat → string) (r : pyval) (drawn : nat)
    (t : MindMapNode) (drawn' : nat) :
  MindMapService._build_simple_node_tree uuid4 r drawn = Ok (t, drawn') →
  drawn' = drawn + length (ids_preorder t)
  ∧ ids_preorder t = map uuid4 (seq drawn (length (ids_preorder t)))
  ∧ unstyled t
  ∧ ((∀ i j, uuid4 i = uuid4 j → i = j) → NoDup (ids_preorder t)).
Proof.
  intros H. destruct (build_fresh uuid4 r drawn t drawn' H) as (Hd & Hids & Hun).
  repeat split; try assumption.
  intros Hinj. rewrite Hids. apply NoDup_fmap_2; [exact Hinj | apply NoDup_seq].
Qed.

Lemma build_identifiers_witness :
  MindMapService._build_simple_node_tree
    (fun n => match n with 0 => "n0" | 1 => "n1" | 2 => "n2" | _ => "n3" end)%nat
    example_record 0 = Ok (example_tree, 4%nat)
  ∧ (4 = 0 + length (ids_preorder example_tree)
     ∧ ids_preorder example_tree
       = map (fun n => match n with 0 => "n0" | 1 => "n1" | 2 => "n2" | _ => "n3" end)%nat
             (seq 0 (length (ids_preorder example_tree)))
     ∧ unstyled example_tree
     ∧ ((∀ i j,
           (fun n => match n with 0 => "n0" | 1 => "n1" | 2 => "n2" | _ => "n3" end)%nat i
           = (fun n => match n with 0 => "n0" | 1 => "n1" | 2 => "n2" | _ => "n3" end)%nat j
           → i = j) →
        NoDup (ids_preorder example_tree))).
Proof.
  split; [reflexivity|].
  apply (build_identifiers _ example_record 0 example_tree 4). reflexivity.
Defined.

(** X3. A malformed record stops the facade before any serializer is
    called, whatever the format asked for: a record that is not a
    dictionary raises [AttributeError]; a [name] that is present and not a
    string, or a [note] that is present and neither [None] nor a string,
    raises [ValidationError]; with these right, [children] being [None], a
    Boolean or a number raises [TypeError]. *)
Theorem facade_malformed_record (uuid4 : nat → string) (created : string)
    (markdown_generate : MindMapNode → string → option MindMapTheme → result BytesIO)
    (title format : string) :
  (∀ structure,
     (∀ d, structure ≠ PDict d) →
     MindMapService.generate_from_structure uuid4 created markdown_generate
       structure title format = ([], Raise AttributeError))
  ∧ (∀ d v,
       dict_get d "name" = Some v → (∀ s, v ≠ PStr s) →
       MindMapService.generate_from_structure uuid4 created markdown_generate
         (PDict d) title format = ([], Raise ValidationError))
  ∧ (∀ d v,
       dict_get d "note" = Some v → v ≠ PNone → (∀ s, v ≠ PStr s) →
       MindMapService.generate_from_structure uuid4 created markdown_generate
         (PDict d) title format = ([], Raise ValidationError))
  ∧ (∀ d nm nt v,
       dict_get_default d "name" (PStr "") = PStr nm →
       dict_get_default d "note" PNone = py_optional_str nt →
       dict_get d "children" = Some v →
       (v = PNone ∨ (∃ b, v = PBool b) ∨ (∃ z, v = PInt z)) →
       MindMapService.generate_from_structure uuid4 created markdown_generate
         (PDict d) title format = ([], Raise TypeError)).
Proof.
  unfold MindMapService.generate_from_structure. repeat split.
  - intros structure Hs. destruct structure; try reflexivity. now contradiction (Hs d).
  - intros d v Hv Hstr. rewrite build_dict_unfold. unfold dict_get_default at 1. rewrite Hv.
    destruct v; try reflexivity. now contradiction (Hstr s).
  - intros d v Hv Hnone Hstr. rewrite build_dict_unfold.
    unfold dict_get_default at 2. rewrite Hv.
    destruct (dict_get_default d "name" (PStr "")); destruct v; try reflexivity;
      try contradiction; now contradiction (Hstr s0).
  - intros d nm nt v Hname Hnote Hv Hkind. rewrite build_dict_unfold, Hname, Hnote, Hv.
    assert (Hval : MindMapService.validate (PStr nm) (py_optional_str nt) = Ok (nm, nt))
      by (destruct nt; reflexivity).
    rewrite Hval. destruct Hkind as [->|[[b ->]|[z ->]]]; reflexivity.
Qed.

(** ** The dump of a tree *)

Lemma map_inj_Forall {A B} (f : A → B) (l1 : list A) :
  Forall (fun a => ∀ a', f a = f a' → a = a') l1 →
  ∀ l2, map f l1 = map f l2 → l1 = l2.
Proof.
  induction 1 as [|a l1 Ha _ IH]; intros [|a' l2]; cbn; try discriminate; [reflexivity|].
  intros [= Hf Hm]. f_equal; [now apply Ha | now apply IH].
Qed.

(** X4. The dump of a tree loses nothing: two trees with the same dump are
    the same tree, identifiers, colours, fonts and all. *)
Theorem to_dict_injective (t1 t2 : MindMapNode) :
  to_dict t1 = to_dict t2 → t1 = t2.
Proof.
  revert t2. induction t1 as [t1 IH] using MindMapNode_tree_ind. intros t2.
  destruct t1 as [i1 n1 o1 c1 f1 cs1], t2 as [i2 n2 o2 c2 f2 cs2]. cbn in *.
  intros [= Hi Hn Ho Hc Hf Hcs]. subst.
  assert (o1 = o2) as -> by (destruct o1, o2; cbn in Ho; congruence).
  assert (c1 = c2) as ->.
  { revert Hc. apply map_inj_Forall. apply Forall_forall.
    intros [k v] _ [k' v']. cbn. congruence. }
  assert (f1 = f2) as ->.
  { revert Hf. apply map_inj_Forall. apply Forall_forall.
    intros [k v] _ [k' v']. cbn. intros [= -> Hv]. f_equal.
    destruct v, v'; cbn in Hv; congruence. }
  f_equal. revert Hcs. apply map_inj_Forall. exact IH.
Qed.

Lemma to_dict_injective_witness :
  to_dict example_tree = to_dict example_tree ∧ example_tree = example_tree.
Proof.
  split; [reflexivity|]. apply (to_dict_injective example_tree example_tree). reflexivity.
Defined.

(** ** Reading the XML documents back *)

Module XmlProperties.
Import ElementTree XmlReader.







End XmlProperties.



(** ** The blank-line filter of the XML serializers *)

Module PrettyXmlProperties.
Import PrettyXml.

Abbreviation nl := (String "010" EmptyString).

Lemma split_lines_cons (s : string) : ∃ line lines, split_lines s = line :: lines.
Proof.
  induction s as [|c s (line & lines & IH)]; cbn; [eauto|].
  destruct (Ascii.eqb c "010"); [eauto|]. rewrite IH. eauto.
Qed.

Lemma split_lines_one_line (s : string) : Forall (fun l => one_line l = true) (split_lines s).
Proof.
  induction s as [|c s IH]; cbn; [repeat constructor|].
  destruct (Ascii.eqb c "010") eqn:E; [constructor; [reflexivity | exact IH]|].
  destruct (split_lines s) as [|line lines]; [repeat constructor; cbn; now rewrite E|].
  apply Forall_cons in IH as [Hl Hls]. constructor; [|exact Hls]. cbn. now rewrite E, Hl.
Qed.

Lemma split_one_line (x : string) : one_line x = true → split_lines x = [x].
Proof.
  induction x as [|c x IH]; cbn; [reflexivity|].
  destruct (Ascii.eqb c "010"); [discriminate|]. cbn. intros H. now rewrite IH.
Qed.

Lemma split_line_app (x rest : string) :
  one_line x = true → split_lines (x ++ String "010" rest) = x :: split_lines rest.
Proof.
  induction x as [|c x IH]; [reflexivity|].
  change (String c x ++ String "010" rest)%string with (String c (x ++ String "010" rest)).
  cbn. destruct (Ascii.eqb c "010"); [discriminate|]. cbn. intros H. now rewrite IH.
Qed.

(** Splitting what was joined gives the lines back. *)
Lemma split_join (lines : list string) :
  lines ≠ [] → Forall (fun l => one_line l = true) lines →
  split_lines (join nl lines) = lines.
Proof.
  unfold join. induction lines as [|x [|y lines] IH]; intros Hne Hall.
  - contradiction.
  - apply Forall_cons in Hall as [Hx _]. now apply split_one_line.
  - apply Forall_cons in Hall as [Hx Hrest].
    change (String.concat nl (x :: y :: lines))
      with (x ++ String "010" (String.concat nl (y :: lines)))%string.
    rewrite split_line_app by exact Hx. f_equal. now apply IH.
Qed.

(** Joining what was split gives the string back. *)
Lemma join_split (s : string) : join nl (split_lines s) = s.
Proof.
  unfold join. induction s as [|c s IH]; [reflexivity|]. cbn [split_lines].
  destruct (Ascii.eqb_spec c "010") as [->|Hc].
  - destruct (split_lines_cons s) as (line & lines & E). rewrite E in *.
    change (String.concat nl ("" :: line :: lines))
      with (String "010" (String.concat nl (line :: lines))).
    now rewrite IH.
  - destruct (split_lines_cons s) as (line & lines & E). rewrite E in *.
    destruct lines as [|l2 lines].
    + cbn in *. now rewrite IH.
    + change (String.concat nl (String c line :: l2 :: lines))
        with (String c (line ++ String "010" (String.concat nl (l2 :: lines))))%string.
      change (String.concat nl (line :: l2 :: lines))
        with (line ++ String "010" (String.concat nl (l2 :: lines)))%string in IH.
      now rewrite IH.
Qed.

Lemma filter_all {A} (f : A → bool) (l : list A) :
  Forall (fun a => f a = true) l → List.filter f l = l.
Proof. induction 1 as [|a l Ha _ IH]; cbn; [reflexivity|]. now rewrite Ha, IH. Qed.

Lemma filter_Forall {A} (f : A → bool) (l : list A) :
  Forall (fun a => f a = true) (List.filter f l).
Proof.
  induction l as [|a l IH]; cbn; [constructor|].
  destruct (f a) eqn:E; [constructor; assumption | exact IH].
Qed.

Lemma filter_keeps {A} (f : A → bool) (P : A → Prop) (l : list A) :
  Forall P l → Forall P (List.filter f l).
Proof.
  induction 1 as [|a l Ha _ IH]; cbn; [constructor|].
  destruct (f a); [constructor; assumption | exact IH].
Qed.

End PrettyXmlProperties.

(** X7. The filter that ends [_prettify_xml] keeps the lines that have a
    character other than white space, in their order, and nothing else: if
    there is such a line, the lines of the result are exactly these (so the
    result has no blank line); if there is none the result is the empty
    string.  A text without blank lines comes out unchanged, and filtering
    twice changes nothing more. *)
Theorem remove_blank_lines_spec (pretty_xml : string) :
  let kept := List.filter PrettyXml.has_text (PrettyXml.split_lines pretty_xml) in
  let out := PrettyXml.remove_blank_lines pretty_xml in
  (kept ≠ [] → PrettyXml.split_lines out = kept)
  ∧ (kept = [] → out = "")
  ∧ (Forall (fun l => PrettyXml.has_text l = true) (PrettyXml.split_lines pretty_xml) →
     out = pretty_xml)
  ∧ PrettyXml.remove_blank_lines out = out.
Proof.
  cbv zeta. unfold PrettyXml.remove_blank_lines.
  set (kept := List.filter PrettyXml.has_text (PrettyXml.split_lines pretty_xml)).
  assert (Hsplit : kept ≠ [] → PrettyXml.split_lines (join (String "010" "") kept) = kept).
  { intros Hne. apply PrettyXmlProperties.split_join; [exact Hne|].
    apply PrettyXmlProperties.filter_keeps, PrettyXmlProperties.split_lines_one_line. }
  split; [exact Hsplit|]. split; [now intros ->|]. split.
  - intros Hall. unfold kept. rewrite PrettyXmlProperties.filter_all by exact Hall.
    apply PrettyXmlProperties.join_split.
  - destruct kept as [|l ls] eqn:E; [reflexivity|].
    rewrite Hsplit by discriminate. rewrite PrettyXmlProperties.filter_all; [reflexivity|].
    rewrite <- E. apply PrettyXmlProperties.filter_Forall.
Qed.

Example remove_blank_lines_example :
  PrettyXml.remove_blank_lines
    (String "<" (String "a" (String ">" (String "010" (String " " (String "009"
       (String "010" (String "010" (String "<" (String "b" (String ">" (String "010" ""))))))))))))
  = String "<" (String "a" (String ">" (String "010" (String "<" (String "b" (String ">" "")))))).
Proof. reflexivity. Qed.

(** ** The sheets of the workbook *)

Module SheetProperties.
Import openpyxl ExcelGenerator.









End SheetProperties.






(** ** More on the radial layout *)

Module LayoutFacts.
Import ImageMindMapGenerator RadialLayout.
Local Open Scope R_scope.

Lemma geometry_at_is_Some t : ∀ p g level,
  is_Some (geometry_at t g level p) ↔ is_Some (node_at t p).
Proof.
  intros p. revert t. induction p as [|i p IH]; intros t g level; cbn.
  - split; eauto.
  - destruct (children t !! i) as [c|]; [apply IH|]. split; intros [x H]; discriminate H.
Qed.

(** [int(x)] loses less than one. *)
Lemma py_int_bounds (x : R) : 0 <= x → IZR (py_int x) <= x < IZR (py_int x) + 1.
Proof.
  intros Hx. unfold py_int. destruct (Rle_dec 0 x) as [_|Hn]; [|contradiction].
  destruct (base_Int_part x). lra.
Qed.

Lemma values_of_lookup (positions : positions_dict) (key : list nat) (v : R * R) :
  positions !! key = Some v → v ∈ (map_to_list positions).*2.
Proof.
  intros H. apply list_elem_of_fmap. exists (key, v). split; [reflexivity|].
  now apply elem_of_map_to_list.
Qed.

(** The canvas is wider and higher than the extent of the positions plus
    the padding on both sides, up to the truncation. *)
Lemma calculate_size_extent (positions : positions_dict) (k1 k2 : list nat) (p1 p2 : R * R) :
  positions !! k1 = Some p1 → positions !! k2 = Some p2 →
  p1.1 - p2.1 + IZR (PADDING * 2) < IZR (_calculate_size positions).1 + 1
  ∧ p1.2 - p2.2 + IZR (PADDING * 2) < IZR (_calculate_size positions).2 + 1.
Proof.
  intros H1 H2. apply values_of_lookup in H1, H2.
  unfold _calculate_size, py_min, py_max.
  destruct ((map_to_list positions).*2) as [|p ps]; [now apply elem_of_nil in H1|].
  cbn [fst snd].
  assert (Hx1 : p1.1 ∈ p.1 :: ps.*1)
    by (change (p.1 :: ps.*1) with ((p :: ps).*1); apply list_elem_of_fmap; eauto).
  assert (Hx2 : p2.1 ∈ p.1 :: ps.*1)
    by (change (p.1 :: ps.*1) with ((p :: ps).*1); apply list_elem_of_fmap; eauto).
  assert (Hy1 : p1.2 ∈ p.2 :: ps.*2)
    by (change (p.2 :: ps.*2) with ((p :: ps).*2); apply list_elem_of_fmap; eauto).
  assert (Hy2 : p2.2 ∈ p.2 :: ps.*2)
    by (change (p.2 :: ps.*2) with ((p :: ps).*2); apply list_elem_of_fmap; eauto).
  destruct (ExampleLayout.fold_min_spec ps.*1 p.1) as [_ Hminx].
  destruct (ExampleLayout.fold_max_spec ps.*1 p.1) as [_ Hmaxx].
  destruct (ExampleLayout.fold_min_spec ps.*2 p.2) as [_ Hminy].
  destruct (ExampleLayout.fold_max_spec ps.*2 p.2) as [_ Hmaxy].
  pose proof (Hminx _ Hx2). pose proof (Hmaxx _ Hx1). pose proof (Hminx _ Hx1).
  pose proof (Hminy _ Hy2). pose proof (Hmaxy _ Hy1). pose proof (Hminy _ Hy1).
  change (IZR (PADDING * 2)) with 200 in *.
  set (wx := fold_left Rmax ps.*1 p.1 - fold_left Rmin ps.*1 p.1 + 200) in *.
  set (wy := fold_left Rmax ps.*2 p.2 - fold_left Rmin ps.*2 p.2 + 200) in *.
  assert (0 <= wx) by (unfold wx; lra). assert (0 <= wy) by (unfold wy; lra).
  destruct (py_int_bounds wx) as [_ Hwx]; [assumption|].
  destruct (py_int_bounds wy) as [_ Hwy]; [assumption|].
  pose proof (IZR_le _ _ (Z.le_max_l (py_int wx) MIN_WIDTH)).
  pose proof (IZR_le _ _ (Z.le_max_l (py_int wy) MIN_HEIGHT)).
  unfold wx, wy in *. split; lra.
Qed.

(** The sector of a child lies strictly inside its slice of the sector of
    its parent. *)
Lemma child_sector_in_slice g n level i :
  (1 ≤ n)%nat → sector_start g < sector_end g →
  let step := (sector_end g - sector_start g) / INR n in
  sector_start g + INR i * step < sector_start (child_geometry g n level i)
  ∧ sector_end (child_geometry g n level i) < sector_start g + (INR i + 1) * step
  ∧ sector_end (child_geometry g n level i) - sector_start (child_geometry g n level i)
    <= PI / 2.
Proof.
  intros Hn Hg step. cbn. unfold sibling_angle. fold step.
  assert (Hn0 : 0 < INR n) by (apply lt_0_INR; lia).
  assert (Hstep : 0 < step) by (apply Rdiv_lt_0_compat; lra).
  replace ((INR i + 0.5) * (sector_end g - sector_start g) / INR n)
    with ((INR i + 0.5) * step) by (unfold step; field; lra).
  pose proof (Rmin_l (step * 0.8) (PI / 2)) as Hw1.
  pose proof (Rmin_r (step * 0.8) (PI / 2)) as Hw2.
  assert (0 < Rmin (step * 0.8) (PI / 2))
    by (pose proof PI_RGT_0; apply Rmin_glb_lt; lra).
  repeat split; nra.
Qed.

End LayoutFacts.

(** X11. The layout holds a position for every node of the tree, under the
    identity of the node, and for nothing else. *)
Theorem layout_positions_every_node (root : MindMapNode) (p : list nat) :
  is_Some (ImageMindMapGenerator._calculate_layout root !! p) ↔ is_Some (node_at root p).
Proof.
  rewrite LayoutProperties.calculate_layout_geometry, fmap_is_Some.
  apply LayoutFacts.geometry_at_is_Some.
Qed.

(** X12. Every node other than the root is placed at distance
    [LEVEL_SPACING * level] from its parent, [level] being its depth. *)
Theorem layout_distance_to_parent (root : MindMapNode) (p : list nat) (i : nat)
    (node : MindMapNode) :
  node_at root (p ++ [i]) = Some node →
  ∃ px py x y : R,
    ImageMindMapGenerator._calculate_layout root !! p = Some (px, py)
    ∧ ImageMindMapGenerator._calculate_layout root !! (p ++ [i]) = Some (x, y)
    ∧ ((x - px) * (x - px) + (y - py) * (y - py)
       = (IZR ImageMindMapGenerator.LEVEL_SPACING * INR (S (length p)))
         * (IZR ImageMindMapGenerator.LEVEL_SPACING * INR (S (length p))))%R.
Proof.
  intros Hnode.
  assert (∃ parent, node_at root p = Some parent ∧ children parent !! i = Some node)
    as (parent & Hparent & Hchild).
  { clear -Hnode. revert root Hnode. induction p as [|j p IH]; intros root; cbn.
    - destruct (children root !! i) as [c|] eqn:E; [|discriminate].
      intros [= <-]. now exists root.
    - destruct (children root !! j) as [c|]; [apply IH | discriminate]. }
  destruct (LayoutProperties.geometry_at_node root p RadialLayout.root_geometry 1 parent Hparent)
    as [g Hg].
  destruct (LayoutProperties.geometry_at_snoc root p RadialLayout.root_geometry 1
              parent g i node Hparent Hg Hchild) as [_ Hgc].
  eexists _, _, _, _.
  split; [rewrite LayoutProperties.calculate_layout_geometry, Hg; reflexivity|].
  split; [rewrite LayoutProperties.calculate_layout_geometry, Hgc; reflexivity|].
  cbn [RadialLayout.child_geometry RadialLayout.gx RadialLayout.gy].
  set (a := RadialLayout.sibling_angle g (length (children parent)) i).
  set (r := (IZR ImageMindMapGenerator.LEVEL_SPACING * INR (1 + length p))%R).
  change (S (length p)) with (1 + length p)%nat. fold r.
  pose proof (sin2_cos2 a) as Hsc. unfold Rsqr in Hsc.
  replace ((RadialLayout.gx g + r * cos a - RadialLayout.gx g)
           * (RadialLayout.gx g + r * cos a - RadialLayout.gx g)
           + (RadialLayout.gy g + r * sin a - RadialLayout.gy g)
             * (RadialLayout.gy g + r * sin a - RadialLayout.gy g))%R
    with (r * r * (sin a * sin a + cos a * cos a))%R by ring.
  rewrite Hsc. ring.
Qed.

Lemma layout_distance_to_parent_witness :
  node_at example_tree ([1] ++ [0])%nat
  = Some (mkNode "n3" "B1" None default_colors default_font [])
  ∧ ∃ px py x y : R,
      ImageMindMapGenerator._calculate_layout example_tree !! [1%nat] = Some (px, py)
      ∧ ImageMindMapGenerator._calculate_layout example_tree !! ([1] ++ [0])%nat = Some (x, y)
      ∧ ((x - px) * (x - px) + (y - py) * (y - py)
         = (IZR ImageMindMapGenerator.LEVEL_SPACING * INR (S (length [1%nat])))
           * (IZR ImageMindMapGenerator.LEVEL_SPACING * INR (S (length [1%nat]))))%R.
Proof.
  split; [reflexivity|].
  apply (layout_distance_to_parent example_tree [1%nat] 0
           (mkNode "n3" "B1" None default_colors default_font [])).
  reflexivity.
Defined.

(** X13. The sectors in which the layout places the descendants of the
    children of a node lie side by side inside the sector of the node, in
    the order of the children: the sector of a child is strictly inside
    that of its parent, the sectors of two siblings do not meet, and none
    is wider than a quarter circle. *)
Theorem layout_sibling_sectors (root : MindMapNode) (p : list nat) (parent : MindMapNode)
    (i j : nat) (ci cj : MindMapNode) :
  node_at root p = Some parent →
  children parent !! i = Some ci →
  children parent !! j = Some cj →
  (i < j)%nat →
  ∃ g gi gj : RadialLayout.geometry,
    RadialLayout.geometry_at root RadialLayout.root_geometry 1 p = Some g
    ∧ RadialLayout.geometry_at root RadialLayout.root_geometry 1 (p ++ [i]) = Some gi
    ∧ RadialLayout.geometry_at root RadialLayout.root_geometry 1 (p ++ [j]) = Some gj
    ∧ ImageMindMapGenerator._calculate_layout root !! (p ++ [i])
      = Some (RadialLayout.position gi)
    ∧ ImageMindMapGenerator._calculate_layout root !! (p ++ [j])
      = Some (RadialLayout.position gj)
    ∧ (RadialLayout.sector_start g < RadialLayout.sector_start gi
       ∧ RadialLayout.sector_start gi < RadialLayout.sector_end gi
       ∧ RadialLayout.sector_end gi < RadialLayout.sector_start gj
       ∧ RadialLayout.sector_start gj < RadialLayout.sector_end gj
       ∧ RadialLayout.sector_end gj < RadialLayout.sector_end g
       ∧ RadialLayout.sector_end gi - RadialLayout.sector_start gi <= PI / 2
       ∧ RadialLayout.sector_end gj - RadialLayout.sector_start gj <= PI / 2)%R.
Proof.
  intros Hparent Hi Hj Hij.
  destruct (LayoutProperties.geometry_at_node root p RadialLayout.root_geometry 1 parent Hparent)
    as [g Hg].
  destruct (LayoutProperties.geometry_at_snoc root p RadialLayout.root_geometry 1
              parent g i ci Hparent Hg Hi) as [_ Hgi].
  destruct (LayoutProperties.geometry_at_snoc root p RadialLayout.root_geometry 1
              parent g j cj Hparent Hg Hj) as [_ Hgj].
  assert (Hg_pos : (RadialLayout.sector_start g < RadialLayout.sector_end g)%R)
    by (eapply LayoutProperties.geometry_at_sector;
        [apply LayoutProperties.root_sector_positive | exact Hg]).
  set (n := length (children parent)) in *.
  assert (Hjn : (j < n)%nat) by (apply lookup_lt_Some in Hj; exact Hj).
  assert (Hn : (1 ≤ n)%nat) by lia.
  exists g, (RadialLayout.child_geometry g n (1 + length p) i),
            (RadialLayout.child_geometry g n (1 + length p) j).
  split; [exact Hg|]. split; [exact Hgi|]. split; [exact Hgj|].
  split; [now rewrite LayoutProperties.calculate_layout_geometry, Hgi|].
  split; [now rewrite LayoutProperties.calculate_layout_geometry, Hgj|].
  destruct (LayoutFacts.child_sector_in_slice g n (1 + length p) i Hn Hg_pos)
    as (Hi1 & Hi2 & Hi3).
  destruct (LayoutFacts.child_sector_in_slice g n (1 + length p) j Hn Hg_pos)
    as (Hj1 & Hj2 & Hj3).
  pose proof (LayoutProperties.child_sector_positive g n (1 + length p) i Hn Hg_pos) as Hpi.
  pose proof (LayoutProperties.child_sector_positive g n (1 + length p) j Hn Hg_pos) as Hpj.
  cbv zeta in Hi1, Hi2, Hj1, Hj2.
  set (step := ((RadialLayout.sector_end g - RadialLayout.sector_start g) / INR n)%R) in *.
  assert (Hn0 : (0 < INR n)%R) by (apply lt_0_INR; lia).
  assert (Hstep : (0 < step)%R) by (apply Rdiv_lt_0_compat; lra).
  assert (Hij' : (INR i + 1 <= INR j)%R) by (rewrite <- S_INR; apply le_INR; lia).
  assert (Hjn' : (INR j + 1 <= INR n)%R) by (rewrite <- S_INR; apply le_INR; lia).
  assert (Hend : (RadialLayout.sector_start g + INR n * step = RadialLayout.sector_end g)%R)
    by (unfold step; field; lra).
  pose proof (pos_INR i).
  repeat split; try assumption; nra.
Qed.

Lemma layout_sibling_sectors_witness :
  node_at example_tree [] = Some example_tree
  ∧ children example_tree !! 0%nat = Some (mkNode "n1" "A" None default_colors default_font [])
  ∧ children example_tree !! 1%nat
    = Some (mkNode "n2" "B" None default_colors default_font
              [mkNode "n3" "B1" None default_colors default_font []])
  ∧ (0 < 1)%nat
  ∧ ∃ g gi gj : RadialLayout.geometry,
      RadialLayout.geometry_at example_tree RadialLayout.root_geometry 1 [] = Some g
      ∧ RadialLayout.geometry_at example_tree RadialLayout.root_geometry 1 ([] ++ [0%nat])
        = Some gi
      ∧ RadialLayout.geometry_at example_tree RadialLayout.root_geometry 1 ([] ++ [1%nat])
        = Some gj
      ∧ ImageMindMapGenerator._calculate_layout example_tree !! ([] ++ [0%nat])
        = Some (RadialLayout.position gi)
      ∧ ImageMindMapGenerator._calculate_layout example_tree !! ([] ++ [1%nat])
        = Some (RadialLayout.position gj)
      ∧ (RadialLayout.sector_start g < RadialLayout.sector_start gi
         ∧ RadialLayout.sector_start gi < RadialLayout.sector_end gi
         ∧ RadialLayout.sector_end gi < RadialLayout.sector_start gj
         ∧ RadialLayout.sector_start gj < RadialLayout.sector_end gj
         ∧ RadialLayout.sector_end gj < RadialLayout.sector_end g
         ∧ RadialLayout.sector_end gi - RadialLayout.sector_start gi <= PI / 2
         ∧ RadialLayout.sector_end gj - RadialLayout.sector_start gj <= PI / 2)%R.
Proof.
  split; [reflexivity|]. split; [reflexivity|]. split; [reflexivity|]. split; [lia|].
  apply (layout_sibling_sectors example_tree [] example_tree 0 1
           (mkNode "n1" "A" None default_colors default_font [])
           (mkNode "n2" "B" None default_colors default_font
              [mkNode "n3" "B1" None default_colors default_font []]));
    [reflexivity | reflexivity | reflexivity | lia].
Defined.

(** X14. The canvas is at least as wide and as high as the spread of the
    positions plus [PADDING] on both sides, up to the truncation of [int]:
    for any two positions of the dictionary, the difference of their
    abscissas plus twice the padding is below the width plus one, and
    likewise for the ordinates and the height. *)
Theorem canvas_covers_extent (positions : gmap (list nat) (R * R)) (k1 k2 : list nat)
    (p1 p2 : R * R) :
  positions !! k1 = Some p1 →
  positions !! k2 = Some p2 →
  (p1.1 - p2.1 + IZR (ImageMindMapGenerator.PADDING * 2)
   < IZR (ImageMindMapGenerator._calculate_size positions).1 + 1
   ∧ p1.2 - p2.2 + IZR (ImageMindMapGenerator.PADDING * 2)
     < IZR (ImageMindMapGenerator._calculate_size positions).2 + 1)%R.
Proof. apply LayoutFacts.calculate_size_extent. Qed.

Lemma canvas_covers_extent_witness :
  ImageMindMapGenerator._calculate_layout example_tree !! [0%nat] = Some (600, 580)%R
  ∧ ImageMindMapGenerator._calculate_layout example_tree !! [1%nat; 0%nat]
    = Some (600, -140)%R
  ∧ ((600, 580).1 - (600, -140).1 + IZR (ImageMindMapGenerator.PADDING * 2)
     < IZR (ImageMindMapGenerator._calculate_size
              (ImageMindMapGenerator._calculate_layout example_tree)).1 + 1
     ∧ (600, 580).2 - (600, -140).2 + IZR (ImageMindMapGenerator.PADDING * 2)
       < IZR (ImageMindMapGenerator._calculate_size
                (ImageMindMapGenerator._calculate_layout example_tree)).2 + 1)%R.
Proof.
  split; [apply ExampleLayout.example_layout|].
  split; [apply ExampleLayout.example_layout|].
  apply (canvas_covers_extent (ImageMindMapGenerator._calculate_layout example_tree)
           [0%nat] [1%nat; 0%nat] (600, 580)%R (600, -140)%R);
    apply ExampleLayout.example_layout.
Defined.

(** ** Drawing the connections *)

Module DrawingProperties.
Import ImageMindMapGenerator ImageFont ImageDraw ImageMindMapDrawing.
Local Open Scope R_scope.

Lemma for_each_singletons {A} (body : A → result (list call)) (h : A → call) (l : list A) :
  (∀ x, x ∈ l → body x = Ok [h x]) → for_each body l = Ok (h <$> l).
Proof.
  induction l as [|x l IH]; intros H; cbn; [reflexivity|].
  rewrite (H x) by left. rewrite IH; [reflexivity|]. intros y Hy. apply H. now right.
Qed.

(** The quadratic curve whose control point is the middle of the two ends
    is the straight line. *)
Lemma curve_points_straight (start stop : R * R) :
  curve_points start stop = twentieth start stop <$> seq 0 21.
Proof.
  destruct start as [x1 y1], stop as [x2 y2]. unfold curve_points, twentieth.
  apply list_fmap_ext. intros _ i _. cbn [fst snd]. f_equal; field.
Qed.

Lemma draw_curved_line_straight (start stop : R * R) (color : Z * Z * Z) (width : Z) :
  _draw_curved_line start stop color width
  = Ok ((λ i : nat, line (twentieth start stop i) (twentieth start stop (S i)) color width)
        <$> seq 0 20).
Proof.
  unfold _draw_curved_line. cbv zeta. rewrite curve_points_straight.
  rewrite length_fmap, length_seq. change (21 - 1)%nat with 20%nat.
  apply for_each_singletons. intros i Hi. apply elem_of_seq in Hi.
  unfold index. rewrite !list_lookup_fmap, !lookup_seq_lt by lia. cbn.
  now rewrite Nat.add_1_r.
Qed.

Lemma draw_curved_line_length (start stop : R * R) (color : Z * Z * Z) (width : Z)
    (curve : list call) :
  _draw_curved_line start stop color width = Ok curve → length curve = 20%nat.
Proof.
  rewrite draw_curved_line_straight. intros [= <-]. reflexivity.
Qed.

Lemma parse_color_returns (s : string) : ∃ rgb, _parse_color s = Ok rgb.
Proof.
  rewrite ParseColorProperties.parse_color_unfold.
  destruct (String.eqb s ""); [eauto|].
  destruct (int16 _); [|eauto]. destruct (int16 _); [|eauto]. destruct (int16 _); eauto.
Qed.

End DrawingProperties.

(** X15. The curve drawn between two points is made of twenty segments
    laid end to end, from the first point to the second, and all of them
    lie on the straight line between the two: the control point being the
    middle of the two ends, the curve does not bend. *)
Theorem curved_line_is_straight (start stop : R * R) (color : Z * Z * Z) (width : Z) :
  ImageMindMapDrawing._draw_curved_line start stop color width
  = Ok ((λ i : nat,
           ImageDraw.line (ImageMindMapDrawing.twentieth start stop i)
                          (ImageMindMapDrawing.twentieth start stop (S i)) color width)
        <$> seq 0 20)
  ∧ ImageMindMapDrawing.twentieth start stop 0 = start
  ∧ ImageMindMapDrawing.twentieth start stop 20 = stop.
Proof.
  split; [apply DrawingProperties.draw_curved_line_straight|].
  destruct start as [x1 y1], stop as [x2 y2]. unfold ImageMindMapDrawing.twentieth.
  cbn [fst snd]. split; f_equal; cbn [INR]; field.
Qed.

Module ConnectionProperties.
Import ImageMindMapGenerator ImageFont ImageDraw ImageMindMapDrawing DrawingProperties.

Lemma layout_has_node (root : MindMapNode) (p : list nat) :
  is_Some (_calculate_layout root !! p) ↔ is_Some (node_at root p).
Proof.
  rewrite LayoutProperties.calculate_layout_geometry, fmap_is_Some.
  apply LayoutFacts.geometry_at_is_Some.
Qed.

Lemma draw_connections_unfold positions node here :
  _draw_connections positions node here
  = match positions !! here with
    | None => Ok []
    | Some node_pos =>
        connections_loop (_draw_connections positions) positions here node_pos
          0%nat (children node)
    end.
Proof. destruct node; reflexivity. Qed.

Lemma ids_preorder_length (node : MindMapNode) : (1 ≤ length (ids_preorder node))%nat.
Proof. destruct node; cbn; lia. Qed.

(** What is asked of the function on a node, for the loop over its
    siblings. *)
Abbreviation connections_ok positions :=
  (λ node : MindMapNode, ∀ here : list nat,
     (∀ p, is_Some (node_at node p) → is_Some (positions !! (here ++ p))) →
     ∃ calls, _draw_connections positions node here = Ok calls
       ∧ length calls = (20 * (length (ids_preorder node) - 1))%nat
       ∧ ∀ c, c ∈ calls ↔ drawn_for_edge positions node here c).

Lemma connections_loop_spec positions here node_pos (cs : list MindMapNode) :
  Forall (connections_ok positions) cs →
  ∀ i,
  (∀ k child, cs !! k = Some child →
     ∀ p, is_Some (node_at child p) → is_Some (positions !! (here ++ [(i + k)%nat] ++ p))) →
  ∃ calls,
    connections_loop (_draw_connections positions) positions here node_pos i cs = Ok calls
    ∧ length calls = (20 * length (flat_map ids_preorder cs))%nat
    ∧ ∀ c, c ∈ calls ↔
        ∃ k child, cs !! k = Some child
          ∧ ((∃ child_pos color curve,
                positions !! (here ++ [(i + k)%nat]) = Some child_pos
                ∧ _parse_color (dict_get_default (colors child) "branch" "#666666") = Ok color
                ∧ _draw_curved_line node_pos child_pos color 2 = Ok curve
                ∧ c ∈ curve)
             ∨ drawn_for_edge positions child (here ++ [(i + k)%nat]) c).
Proof.
  induction 1 as [|child cs' HP _ IH]; intros i Hpos.
  - exists []. split; [reflexivity|]. split; [reflexivity|]. intros c. split.
    + intros H. now apply elem_of_nil in H.
    + intros (k & child & Hk & _). discriminate Hk.
  - cbn [connections_loop].
    assert (Hhere : is_Some (positions !! (here ++ [i]))).
    { pose proof (Hpos 0%nat child eq_refl [] (ex_intro _ child eq_refl)) as H.
      now rewrite Nat.add_0_r, app_nil_r in H. }
    destruct Hhere as [child_pos Hcp]. rewrite Hcp.
    destruct (parse_color_returns (dict_get_default (colors child) "branch" "#666666"))
      as [color Hcolor].
    rewrite Hcolor. cbv zeta.
    destruct (_draw_curved_line node_pos child_pos color 2) as [curve|e] eqn:Hcurve;
      [|now rewrite draw_curved_line_straight in Hcurve].
    destruct (HP (here ++ [i])) as (below & Hbelow & Hlen & Hin).
    { intros p Hp. rewrite <- app_assoc.
      pose proof (Hpos 0%nat child eq_refl p Hp) as H. now rewrite Nat.add_0_r in H. }
    rewrite Hbelow.
    destruct (IH (S i)) as (rest & Hrest & Hlenr & Hinr).
    { intros k c' Hk p Hp. pose proof (Hpos (S k) c' Hk p Hp) as H.
      now rewrite Nat.add_succ_r in H. }
    rewrite Hrest. eexists. split; [reflexivity|]. split.
    + rewrite !length_app, Hlen, Hlenr, (draw_curved_line_length _ _ _ _ _ Hcurve).
      cbn [flat_map]. rewrite length_app.
      pose proof (ids_preorder_length child). lia.
    + intros c. rewrite !elem_of_app, Hin, Hinr. split.
      * intros [Hc | [Hc | (k & c' & Hk & Hc)]].
        -- exists 0%nat, child. split; [reflexivity|]. left.
           exists child_pos, color, curve. now rewrite Nat.add_0_r.
        -- exists 0%nat, child. split; [reflexivity|]. right. now rewrite Nat.add_0_r.
        -- exists (S k), c'. split; [exact Hk|]. now rewrite Nat.add_succ_r.
      * intros (k & c' & Hk & Hc). destruct k as [|k].
        -- cbn in Hk. injection Hk as <-. rewrite Nat.add_0_r in Hc.
           destruct Hc as [(pc & col & cv & H1 & H2 & H3 & H4) | Hc].
           ++ left. rewrite Hcp in H1. injection H1 as <-.
              rewrite Hcolor in H2. injection H2 as <-.
              rewrite Hcurve in H3. injection H3 as <-. exact H4.
           ++ right. left. exact Hc.
        -- right. right. exists k, c'. split; [exact Hk|].
           now rewrite Nat.add_succ_r in Hc.
Qed.

Lemma draw_connections_spec positions node : connections_ok positions node.
Proof.
  induction node as [node IH] using MindMapNode_tree_ind. intros here Hpos.
  rewrite draw_connections_unfold.
  destruct (Hpos [] (ex_intro _ node eq_refl)) as [node_pos Hnp].
  rewrite app_nil_r in Hnp. rewrite Hnp.
  destruct (connections_loop_spec positions here node_pos (children node) IH 0%nat)
    as (calls & Hcalls & Hlen & Hin).
  { intros k child Hk p Hp. cbn [Nat.add]. apply (Hpos (k :: p)). cbn. now rewrite Hk. }
  exists calls. split; [exact Hcalls|]. split.
  { rewrite Hlen.
    replace (length (ids_preorder node))
      with (S (length (flat_map ids_preorder (children node))))
      by (destruct node; reflexivity).
    lia. }
  intros c. rewrite Hin. cbn [Nat.add]. split.
  - intros (k & child & Hk & [(pc & col & cv & H1 & H2 & H3 & H4) | Hc]).
    + exists [], k, child, node_pos, pc, col, cv. cbn. rewrite Hk, app_nil_r.
      repeat split; assumption.
    + destruct Hc as (p & i & ch & pp & pc & col & cv & H1 & H2 & H3 & H4 & H5 & H6).
      exists (k :: p), i, ch, pp, pc, col, cv. cbn. rewrite Hk.
      rewrite <- !app_assoc in H2, H3. cbn in H2, H3. repeat split; assumption.
  - intros (p & i & ch & pp & pc & col & cv & H1 & H2 & H3 & H4 & H5 & H6).
    destruct p as [|k p]; cbn in H1.
    + destruct (children node !! i) as [child|] eqn:E; [|discriminate].
      injection H1 as ->. exists i, ch. split; [exact E|]. left.
      exists pc, col, cv. rewrite app_nil_r in H2. rewrite Hnp in H2. injection H2 as <-.
      cbn in H3. repeat split; assumption.
    + destruct (children node !! k) as [child|] eqn:E; [|discriminate].
      exists k, child. split; [exact E|]. right.
      exists p, i, ch, pp, pc, col, cv. rewrite <- !app_assoc. cbn.
      cbn in H2, H3. repeat split; assumption.
Qed.

End ConnectionProperties.

(** X16. Over the layout computed for a tree, drawing the connections
    raises nothing and draws one curve for each edge of the tree and
    nothing else: twenty segments for each node but the root, every one of
    them part of the curve from the position of a node to the position of
    one of its children, in the branch colour of the child. *)
Theorem connections_follow_the_tree (root : MindMapNode) :
  ∃ calls : list ImageDraw.call,
    ImageMindMapDrawing._draw_connections (ImageMindMapGenerator._calculate_layout root) root []
    = Ok calls
    ∧ length calls = (20 * (length (ids_preorder root) - 1))%nat
    ∧ ∀ c, c ∈ calls
           ↔ ImageMindMapDrawing.drawn_for_edge
               (ImageMindMapGenerator._calculate_layout root) root [] c.
Proof.
  apply ConnectionProperties.draw_connections_spec.
  intros p Hp. now apply ConnectionProperties.layout_has_node.
Qed.

(** ** Fonts *)

Module FontProperties.
Import ImageMindMapGenerator ImageFont ImageDraw ImageMindMapDrawing.

Section Fonts.

Variable font_file : string → bool.

Lemma try_paths_first (before : list string) (path : string) (after : list string) (size : Z) :
  Forall (λ q, font_file q = false) before →
  font_file path = true →
  try_paths font_file (before ++ path :: after) size = Some (FreeTypeFont path size).
Proof.
  intros Hbefore Hpath. induction Hbefore as [|q before Hq _ IH]; cbn; unfold truetype.
  - now rewrite Hpath.
  - now rewrite Hq.
Qed.

Lemma try_paths_none (paths : list string) (size : Z) :
  Forall (λ q, font_file q = false) paths → try_paths font_file paths size = None.
Proof.
  induction 1 as [|q paths Hq _ IH]; cbn; unfold truetype; [reflexivity|]. now rewrite Hq.
Qed.

Lemma try_paths_size (paths : list string) (size : Z) (font : Font) :
  try_paths font_file paths size = Some font → ∃ path, font = FreeTypeFont path size.
Proof.
  induction paths as [|q paths IH]; cbn; unfold truetype; [discriminate|].
  destruct (font_file q); [|exact IH]. intros [= <-]. eauto.
Qed.

Lemma get_font_fresh (size : Z) (bold : bool) :
  (_get_font font_file ∅ size bold).2
  = match try_paths font_file FONT_PATHS size with
    | Some font => font
    | None => load_default
    end.
Proof. unfold _get_font. now rewrite lookup_empty. Qed.

Lemma get_font_sound (font_cache : gmap (Z * bool) Font) (size : Z) (bold : bool) :
  cache_sound font_file font_cache →
  (_get_font font_file font_cache size bold).2 = (_get_font font_file ∅ size false).2
  ∧ cache_sound font_file (_get_font font_file font_cache size bold).1
  ∧ (_get_font font_file font_cache size bold).1 !! (size, bold)
    = Some (_get_font font_file font_cache size bold).2.
Proof.
  intros Hsound. rewrite get_font_fresh. unfold _get_font.
  destruct (font_cache !! (size, bold)) as [font|] eqn:Hkey; cbn [fst snd].
  - split; [|split; [exact Hsound | exact Hkey]].
    rewrite (Hsound _ _ _ Hkey). apply get_font_fresh.
  - split; [reflexivity|]. split; [|apply lookup_insert_eq].
    intros size' bold' font. destruct (decide ((size, bold) = (size', bold'))) as [[= <- <-]|Hne].
    + rewrite lookup_insert_eq. intros [= <-]. now rewrite get_font_fresh.
    + rewrite lookup_insert_ne by exact Hne. apply Hsound.
Qed.

Lemma get_font_size (font_cache : gmap (Z * bool) Font) (size : Z) (bold : bool) :
  cache_sound font_file font_cache →
  (_get_font font_file font_cache size bold).2 = load_default
  ∨ ∃ path, (_get_font font_file font_cache size bold).2 = FreeTypeFont path size.
Proof.
  intros Hsound. destruct (get_font_sound font_cache size bold Hsound) as [-> _].
  rewrite get_font_fresh.
  destruct (try_paths font_file FONT_PATHS size) as [font|] eqn:E; [right | now left].
  exact (try_paths_size _ _ _ E).
Qed.

Lemma cache_sound_empty : cache_sound font_file ∅.
Proof. intros size bold font H. now rewrite lookup_empty in H. Qed.

End Fonts.

End FontProperties.

(** X17. The fonts of a generator do not depend on [bold] nor on what was
    asked before.  Whenever the cache holds only fonts it has loaded itself
    (as the empty cache of a new generator does), a request returns the
    font a new generator returns for the same size in the regular face,
    leaves the cache in the same condition and holds the font under the
    key of the request.  That font is the face of the first path of
    [FONT_PATHS] that can be read, at the size asked, and the built-in
    font when none of them can. *)
Theorem font_cache_ignores_bold (font_file : string → bool)
    (font_cache : gmap (Z * bool) ImageFont.Font) (size : Z) (bold : bool) :
  ImageMindMapDrawing.cache_sound font_file font_cache →
  let answer := ImageMindMapDrawing._get_font font_file font_cache size bold in
  answer.2 = (ImageMindMapDrawing._get_font font_file ∅ size false).2
  ∧ ImageMindMapDrawing.cache_sound font_file answer.1
  ∧ answer.1 !! (size, bold) = Some answer.2
  ∧ (∀ before path after,
       ImageMindMapDrawing.FONT_PATHS = before ++ path :: after →
       Forall (λ q, font_file q = false) before →
       font_file path = true →
       answer.2 = ImageFont.FreeTypeFont path size)
  ∧ (Forall (λ q, font_file q = false) ImageMindMapDrawing.FONT_PATHS →
     answer.2 = ImageFont.load_default).
Proof.
  intros Hsound answer.
  destruct (FontProperties.get_font_sound font_file font_cache size bold Hsound)
    as (Hfont & Hcache & Hkey).
  fold answer in Hfont, Hcache, Hkey.
  split; [exact Hfont|]. split; [exact Hcache|]. split; [exact Hkey|].
  rewrite Hfont, FontProperties.get_font_fresh. split.
  - intros before path after -> Hbefore Hpath.
    now rewrite (FontProperties.try_paths_first font_file before path after size Hbefore Hpath).
  - intros Hnone. now rewrite (FontProperties.try_paths_none font_file _ size Hnone).
Qed.

Lemma font_cache_ignores_bold_witness :
  ImageMindMapDrawing.cache_sound ImageMindMapDrawing.linux_fonts ∅
  ∧ let answer :=
      ImageMindMapDrawing._get_font ImageMindMapDrawing.linux_fonts ∅ 20 true in
    answer.2 = (ImageMindMapDrawing._get_font ImageMindMapDrawing.linux_fonts ∅ 20 false).2
    ∧ ImageMindMapDrawing.cache_sound ImageMindMapDrawing.linux_fonts answer.1
    ∧ answer.1 !! (20%Z, true) = Some answer.2
    ∧ (∀ before path after,
         ImageMindMapDrawing.FONT_PATHS = before ++ path :: after →
         Forall (λ q, ImageMindMapDrawing.linux_fonts q = false) before →
         ImageMindMapDrawing.linux_fonts path = true →
         answer.2 = ImageFont.FreeTypeFont path 20)
    ∧ (Forall (λ q, ImageMindMapDrawing.linux_fonts q = false) ImageMindMapDrawing.FONT_PATHS →
       answer.2 = ImageFont.load_default).
Proof.
  split; [apply FontProperties.cache_sound_empty|].
  apply (font_cache_ignores_bold ImageMindMapDrawing.linux_fonts ∅ 20 true).
  apply FontProperties.cache_sound_empty.
Defined.

(** ** Drawing the nodes and the whole image *)

Module RenderingProperties.
Import ImageMindMapGenerator ImageFont ImageDraw ImageMindMapDrawing.
Import DrawingProperties ConnectionProperties FontProperties.

Section Rendering.

Variable font_file : string → bool.
Variable textbbox : string → Font → R * R * R * R.

Abbreviation labels nodes := ((λ n : MindMapNode, substring 0 50 (name n)) <$> nodes).

Lemma draw_nodes_unfold positions node here level font_cache :
  _draw_nodes font_file textbbox positions node here level font_cache
  = match positions !! here with
    | None => (font_cache, Ok [])
    | Some (x, y) =>
        match _parse_color (dict_get_default (colors node) "background" "#ffffff") with
        | Raise e => (font_cache, Raise e)
        | Ok bg_color =>
        match _parse_color (dict_get_default (colors node) "name" "#000000") with
        | Raise e => (font_cache, Raise e)
        | Ok text_color =>
        match _parse_color (dict_get_default (colors node) "branch" "#666666") with
        | Raise e => (font_cache, Raise e)
        | Ok border_color =>
        match clamp_font_size (dict_get_default (font node) "size" (SInt 14)) with
        | Raise e => (font_cache, Raise e)
        | Ok font_size =>
        let '(font_cache, font) := _get_font font_file font_cache font_size false in
        let text_ := substring 0 50 (name node) in
        let '(b0, b1, b2, b3) := textbbox text_ font in
        let text_width := (b2 - b0)%R in
        let text_height := (b3 - b1)%R in
        let box_width := (text_width + IZR (NODE_PADDING * 2))%R in
        let box_height := (text_height + IZR NODE_PADDING)%R in
        let box :=
          _draw_rounded_rect (x - box_width / 2) (y - box_height / 2)
            (x + box_width / 2) (y + box_height / 2) 8 bg_color border_color in
        let label := text (x - text_width / 2, y - text_height / 2)%R text_ text_color font in
        match nodes_loop (_draw_nodes font_file textbbox positions) here level 0%nat
                (children node) font_cache with
        | (font_cache, Raise e) => (font_cache, Raise e)
        | (font_cache, Ok below) => (font_cache, Ok (box ++ label :: below))
        end
        end end end end
    end.
Proof. destruct node; reflexivity. Qed.

Lemma nodes_preorder_unfold (node : MindMapNode) :
  nodes_preorder node = node :: flat_map nodes_preorder (children node).
Proof. destruct node; reflexivity. Qed.

Lemma clamp_font_size_cases (node : MindMapNode) :
  (font_size_ok node = true
   ∧ ∃ size, clamp_font_size (dict_get_default (font node) "size" (SInt 14)) = Ok size
             ∧ (10 ≤ size ≤ 24)%Z)
  ∨ (font_size_ok node = false
     ∧ clamp_font_size (dict_get_default (font node) "size" (SInt 14)) = Raise TypeError).
Proof.
  unfold font_size_ok.
  destruct (dict_get_default (font node) "size" (SInt 14)) as [|b|z|s]; cbn.
  - now right.
  - left. split; [reflexivity|]. exists 10%Z. split; [reflexivity | lia].
  - left. split; [reflexivity|]. eexists. split; [reflexivity | lia].
  - now right.
Qed.

Abbreviation nodes_ok positions :=
  (λ node : MindMapNode, ∀ (here : list nat) (level : nat) (font_cache : gmap (Z * bool) Font),
     (∀ p, is_Some (node_at node p) → is_Some (positions !! (here ++ p))) →
     nodes_drawn font_file font_cache
       (_draw_nodes font_file textbbox positions node here level font_cache)
       (nodes_preorder node)).

Lemma nodes_loop_spec positions here level (cs : list MindMapNode) :
  Forall (nodes_ok positions) cs →
  ∀ i font_cache,
  (∀ k child, cs !! k = Some child →
     ∀ p, is_Some (node_at child p) → is_Some (positions !! (here ++ [(i + k)%nat] ++ p))) →
  nodes_drawn font_file font_cache
    (nodes_loop (_draw_nodes font_file textbbox positions) here level i cs font_cache)
    (flat_map nodes_preorder cs).
Proof.
  induction 1 as [|child cs' HP _ IH]; intros i font_cache Hpos.
  - split; [auto|]. cbn. exists []. repeat split; auto.
  - cbn [nodes_loop flat_map]. unfold nodes_drawn. rewrite forallb_app.
    destruct (HP (here ++ [i]) (level + 1)%nat font_cache) as [Hs1 H1].
    { intros p Hp. rewrite <- app_assoc.
      pose proof (Hpos 0%nat child eq_refl p Hp) as H. now rewrite Nat.add_0_r in H. }
    destruct (_draw_nodes font_file textbbox positions child (here ++ [i]) (level + 1)
                font_cache) as [cache1 r1].
    cbn [fst snd] in Hs1, H1.
    destruct (forallb font_size_ok (nodes_preorder child)); cbn [andb].
    + destruct H1 as (calls & -> & Htexts & Hlen & Hsized).
      destruct (IH (S i) cache1) as [Hs2 H2].
      { intros k c' Hk p Hp. pose proof (Hpos (S k) c' Hk p Hp) as H.
        now rewrite Nat.add_succ_r in H. }
      destruct (nodes_loop _ here level (S i) cs' cache1) as [cache2 r2].
      cbn [fst snd] in Hs2, H2.
      destruct (forallb font_size_ok (flat_map nodes_preorder cs')).
      * destruct H2 as (rest & -> & Htexts' & Hlen' & Hsized'). cbn [fst snd].
        split; [auto|]. exists (calls ++ rest). split; [reflexivity|].
        split; [now rewrite omap_app, fmap_app, Htexts, Htexts'|].
        split; [rewrite !length_app, Hlen, Hlen'; lia|].
        intros Hc. apply Forall_app. auto.
      * rewrite H2. cbn [fst snd]. split; [auto | reflexivity].
    + rewrite H1. cbn [fst snd]. split; [auto | reflexivity].
Qed.

Lemma draw_nodes_spec positions node : nodes_ok positions node.
Proof.
  induction node as [node IH] using MindMapNode_tree_ind. intros here level font_cache Hpos.
  rewrite draw_nodes_unfold.
  destruct (Hpos [] (ex_intro _ node eq_refl)) as [[x y] Hnp].
  rewrite app_nil_r in Hnp. rewrite Hnp.
  destruct (parse_color_returns (dict_get_default (colors node) "background" "#ffffff"))
    as [bg_color ->].
  destruct (parse_color_returns (dict_get_default (colors node) "name" "#000000"))
    as [text_color ->].
  destruct (parse_color_returns (dict_get_default (colors node) "branch" "#666666"))
    as [border_color ->].
  unfold nodes_drawn. rewrite nodes_preorder_unfold. cbn [forallb].
  destruct (clamp_font_size_cases node) as [(Hok & size & -> & Hrange) | (Hok & ->)];
    rewrite Hok; cbn [andb]; [|split; [auto | reflexivity]].
  pose proof (get_font_sound font_file font_cache size false) as Hget.
  pose proof (get_font_size font_file font_cache size false) as Hsize.
  destruct (_get_font font_file font_cache size false) as [cache1 face].
  cbn [fst snd] in Hget, Hsize.
  destruct (textbbox (substring 0 50 (name node)) face) as [[[b0 b1] b2] b3].
  cbv zeta.
  destruct (nodes_loop_spec positions here level (children node) IH 0%nat cache1)
    as [Hs H].
  { intros k child Hk p Hp. cbn [Nat.add]. apply (Hpos (k :: p)). cbn. now rewrite Hk. }
  destruct (nodes_loop _ here level 0 (children node) cache1) as [cache2 r2].
  cbn [fst snd] in Hs, H.
  destruct (forallb font_size_ok (flat_map nodes_preorder (children node))).
  - destruct H as (below & -> & Htexts & Hlen & Hsized). cbn [fst snd].
    split; [intros Hc; apply Hs, Hget, Hc|].
    eexists. split; [reflexivity|]. split; [|split].
    + rewrite omap_app. cbn. now rewrite Htexts.
    + rewrite length_app. cbn [length _draw_rounded_rect]. rewrite Hlen. lia.
    + intros Hc. apply Forall_app. split; [repeat constructor|].
      constructor; [|apply Hsized, Hget, Hc].
      destruct (Hsize Hc) as [-> | [path ->]]; [exact I | exact Hrange].
  - rewrite H. cbn [fst snd]. split; [intros Hc; apply Hs, Hget, Hc | reflexivity].
Qed.

Lemma omap_nothing {A B} (f : A → option B) (l : list A) :
  (∀ x, x ∈ l → f x = None) → omap f l = [].
Proof.
  induction l as [|x l IH]; intros H; cbn; [reflexivity|].
  rewrite (H x) by left. apply IH. intros y Hy. apply H. now right.
Qed.

Lemma connection_is_line positions node here (c : call) :
  drawn_for_edge positions node here c → ∃ a b color width, c = line a b color width.
Proof.
  intros (p & i & ch & pp & pc & col & cv & _ & _ & _ & _ & Hcurve & Hc).
  pose proof (draw_curved_line_straight pp pc col 2) as Hstraight.
  rewrite Hcurve in Hstraight.
  assert (Hcv : cv = (λ i : nat, line (twentieth pp pc i) (twentieth pp pc (S i)) col 2)
                     <$> seq 0 20) by congruence.
  rewrite Hcv in Hc. apply list_elem_of_fmap in Hc as (k & -> & _). eauto.
Qed.

Lemma ids_nodes_preorder (node : MindMapNode) :
  length (ids_preorder node) = length (nodes_preorder node).
Proof.
  induction node as [node IH] using MindMapNode_tree_ind.
  rewrite nodes_preorder_unfold.
  replace (ids_preorder node) with (id node :: flat_map ids_preorder (children node))
    by (destruct node; reflexivity).
  cbn [length]. f_equal.
  induction IH as [|c cs Hc _ IHcs]; cbn; [reflexivity|].
  now rewrite !length_app, Hc, IHcs.
Qed.

Lemma generate_spec root title theme font_cache :
  let answer := generate font_file textbbox root title theme font_cache in
  (cache_sound font_file font_cache → cache_sound font_file answer.1)
  ∧ if forallb font_size_ok (nodes_preorder root)
    then ∃ image, answer.2 = Ok image
           ∧ image_size image = _calculate_size (_calculate_layout root)
           ∧ _parse_color (theme_background theme) = Ok (image_color image)
           ∧ omap written (image_calls image)
             = labels (nodes_preorder root) ++ [title; "Generated by MILO"]
           ∧ length (image_calls image)
             = (20 * (length (nodes_preorder root) - 1)
                + 15 * length (nodes_preorder root) + 2)%nat
           ∧ (cache_sound font_file font_cache →
              Forall (text_size_within 10 24) (image_calls image))
    else answer.2 = Raise TypeError.
Proof.
  unfold generate. cbv zeta.
  destruct (_calculate_size (_calculate_layout root)) as [width height].
  destruct (parse_color_returns (theme_background theme)) as [bg_color ->].
  destruct (draw_connections_spec (_calculate_layout root) root [])
    as (connections & -> & Hlen_c & Hin_c).
  { intros p Hp. now apply layout_has_node. }
  destruct (draw_nodes_spec (_calculate_layout root) root [] 0%nat font_cache) as [Hs1 H1].
  { intros p Hp. now apply layout_has_node. }
  destruct (_draw_nodes font_file textbbox (_calculate_layout root) root [] 0 font_cache)
    as [cache1 r1].
  cbn [fst snd] in Hs1, H1.
  destruct (forallb font_size_ok (nodes_preorder root));
    [|rewrite H1; split; [exact Hs1 | reflexivity]].
  destruct H1 as (nodes & -> & Htexts & Hlen_n & Hsized).
  unfold _draw_title, _draw_watermark.
  pose proof (get_font_sound font_file cache1 20 true) as Hget2.
  pose proof (get_font_size font_file cache1 20 true) as Hsize2.
  destruct (_get_font font_file cache1 20 true) as [cache2 face2].
  cbn [fst snd] in Hget2, Hsize2.
  destruct (parse_color_returns "#333333") as [title_color ->].
  destruct (textbbox title face2) as [[[t0 t1] t2] t3].
  pose proof (get_font_sound font_file cache2 12 false) as Hget3.
  pose proof (get_font_size font_file cache2 12 false) as Hsize3.
  destruct (_get_font font_file cache2 12 false) as [cache3 face3].
  cbn [fst snd] in Hget3, Hsize3.
  destruct (textbbox "Generated by MILO" face3) as [[[w0 w1] w2] w3].
  cbn [fst snd].
  split; [intros Hc; apply Hget3, Hget2, Hs1, Hc|].
  eexists. split; [reflexivity|]. cbn [image_size image_color image_calls].
  split; [reflexivity|]. split; [reflexivity|].
  assert (Hlines : ∀ c, c ∈ connections → ∃ a b color width, c = line a b color width).
  { intros c Hc. apply Hin_c in Hc. exact (connection_is_line _ _ _ _ Hc). }
  split; [|split].
  - rewrite !omap_app, Htexts.
    rewrite (omap_nothing written connections); [reflexivity|].
    intros c Hc. destruct (Hlines c Hc) as (a & b & col & w & ->). reflexivity.
  - rewrite !length_app, Hlen_c, Hlen_n, ids_nodes_preorder. cbn [length]. lia.
  - intros Hc. rewrite !Forall_app. split; [|split; [|split]].
    + apply Forall_forall. intros c Hcin.
      destruct (Hlines c Hcin) as (a & b & col & w & ->). exact I.
    + apply Hsized, Hc.
    + constructor; [|constructor]. cbn.
      destruct (Hsize2 (Hs1 Hc)) as [-> | [path ->]]; [exact I | lia].
    + constructor; [|constructor]. cbn.
      destruct (Hsize3 (proj1 (proj2 (Hget2 (Hs1 Hc))))) as [-> | [path ->]]; [exact I | lia].
Qed.

Lemma unstyled_font_size_ok (root : MindMapNode) :
  unstyled root → forallb font_size_ok (nodes_preorder root) = true.
Proof.
  induction root as [node IH] using MindMapNode_tree_ind.
  rewrite unstyled_unfold, nodes_preorder_unfold. intros (_ & Hfont & Hchildren).
  cbn [forallb]. apply andb_true_intro. split.
  - unfold font_size_ok. now rewrite Hfont.
  - induction IH as [|c cs Hc _ IHcs]; cbn; [reflexivity|].
    apply Forall_cons in Hchildren as [Hu Hus].
    rewrite forallb_app. apply andb_true_intro. auto.
Qed.

End Rendering.

End RenderingProperties.

(** X18. The image generator fails on the font sizes of the nodes and on
    nothing else: it returns an image exactly when the [size] of the font
    of every node is an integer or a boolean, or is missing, and raises
    [TypeError] exactly when the font size of some node is [None] or a
    string. *)
Theorem image_fails_on_font_sizes (font_file : string → bool)
    (textbbox : string → ImageFont.Font → R * R * R * R)
    (root : MindMapNode) (title : string) (theme : MindMapTheme)
    (font_cache : gmap (Z * bool) ImageFont.Font) :
  let answer :=
    (ImageMindMapDrawing.generate font_file textbbox root title theme font_cache).2 in
  (is_ok answer
   ↔ forallb ImageMindMapDrawing.font_size_ok (ImageMindMapDrawing.nodes_preorder root) = true)
  ∧ (answer = Raise TypeError
     ↔ forallb ImageMindMapDrawing.font_size_ok (ImageMindMapDrawing.nodes_preorder root)
       = false).
Proof.
  intros answer.
  destruct (RenderingProperties.generate_spec font_file textbbox root title theme font_cache)
    as [_ H].
  fold answer in H.
  destruct (forallb ImageMindMapDrawing.font_size_ok (ImageMindMapDrawing.nodes_preorder root)).
  - destruct H as (image & Himage & _). split; split; try reflexivity.
    + intros _. now exists image.
    + rewrite Himage. discriminate.
    + discriminate.
  - split; split; try reflexivity.
    + intros [image Himage]. rewrite H in Himage. discriminate.
    + discriminate.
    + intros _. exact H.
Qed.

(** X19. When the font sizes allow it, the image has the size computed
    from the layout and the background colour of the theme, and what is
    written on it is, in this order: the name of every node of the tree in
    pre-order, cut to its first 50 characters, then the title, then
    [Generated by MILO].  The image is made of twenty segments for every
    node but the root, fifteen calls for every node, and these two
    texts. *)
Theorem image_texts (font_file : string → bool)
    (textbbox : string → ImageFont.Font → R * R * R * R)
    (root : MindMapNode) (title : string) (theme : MindMapTheme)
    (font_cache : gmap (Z * bool) ImageFont.Font) :
  forallb ImageMindMapDrawing.font_size_ok (ImageMindMapDrawing.nodes_preorder root) = true →
  ∃ image : ImageMindMapDrawing.Image,
    (ImageMindMapDrawing.generate font_file textbbox root title theme font_cache).2 = Ok image
    ∧ ImageMindMapDrawing.image_size image
      = ImageMindMapGenerator._calculate_size (ImageMindMapGenerator._calculate_layout root)
    ∧ ImageMindMapGenerator._parse_color (theme_background theme)
      = Ok (ImageMindMapDrawing.image_color image)
    ∧ omap ImageMindMapDrawing.written (ImageMindMapDrawing.image_calls image)
      = ((λ n : MindMapNode, substring 0 50 (name n))
         <$> ImageMindMapDrawing.nodes_preorder root)
        ++ [title; "Generated by MILO"]
    ∧ length (ImageMindMapDrawing.image_calls image)
      = (20 * (length (ImageMindMapDrawing.nodes_preorder root) - 1)
         + 15 * length (ImageMindMapDrawing.nodes_preorder root) + 2)%nat.
Proof.
  intros Hok.
  destruct (RenderingProperties.generate_spec font_file textbbox root title theme font_cache)
    as [_ H].
  rewrite Hok in H. destruct H as (image & H1 & H2 & H3 & H4 & H5 & _).
  exists image. auto.
Qed.

Lemma image_texts_witness :
  forallb ImageMindMapDrawing.font_size_ok (ImageMindMapDrawing.nodes_preorder example_tree)
  = true
  ∧ ∃ image : ImageMindMapDrawing.Image,
      (ImageMindMapDrawing.generate ImageMindMapDrawing.linux_fonts
         (λ _ _, (0, 0, 0, 0)%R) example_tree "Topic" (mkTheme [] "#ffffff" "#000000") ∅).2
      = Ok image
      ∧ ImageMindMapDrawing.image_size image
        = ImageMindMapGenerator._calculate_size
            (ImageMindMapGenerator._calculate_layout example_tree)
      ∧ ImageMindMapGenerator._parse_color
          (theme_background (mkTheme [] "#ffffff" "#000000"))
        = Ok (ImageMindMapDrawing.image_color image)
      ∧ omap ImageMindMapDrawing.written (ImageMindMapDrawing.image_calls image)
        = ((λ n : MindMapNode, substring 0 50 (name n))
           <$> ImageMindMapDrawing.nodes_preorder example_tree)
          ++ ["Topic"; "Generated by MILO"]
      ∧ length (ImageMindMapDrawing.image_calls image)
        = (20 * (length (ImageMindMapDrawing.nodes_preorder example_tree) - 1)
           + 15 * length (ImageMindMapDrawing.nodes_preorder example_tree) + 2)%nat.
Proof.
  split; [reflexivity|].
  apply (image_texts ImageMindMapDrawing.linux_fonts (λ _ _, (0, 0, 0, 0)%R)
           example_tree "Topic" (mkTheme [] "#ffffff" "#000000") ∅).
  reflexivity.
Defined.

(** X20. Whatever sizes the nodes ask for, every text of the image that is
    set in a face read from a file is set at a size between 10 and 24,
    provided the cache holds only fonts the generator has loaded itself;
    and the cache is left in that condition. *)
Theorem image_text_sizes (font_file : string → bool)
    (textbbox : string → ImageFont.Font → R * R * R * R)
    (root : MindMapNode) (title : string) (theme : MindMapTheme)
    (font_cache : gmap (Z * bool) ImageFont.Font) :
  ImageMindMapDrawing.cache_sound font_file font_cache →
  forallb ImageMindMapDrawing.font_size_ok (ImageMindMapDrawing.nodes_preorder root) = true →
  ∃ image : ImageMindMapDrawing.Image,
    (ImageMindMapDrawing.generate font_file textbbox root title theme font_cache).2 = Ok image
    ∧ Forall (ImageMindMapDrawing.text_size_within 10 24)
             (ImageMindMapDrawing.image_calls image)
    ∧ ImageMindMapDrawing.cache_sound font_file
        (ImageMindMapDrawing.generate font_file textbbox root title theme font_cache).1.
Proof.
  intros Hsound Hok.
  destruct (RenderingProperties.generate_spec font_file textbbox root title theme font_cache)
    as [Hs H].
  rewrite Hok in H. destruct H as (image & H1 & _ & _ & _ & _ & H6).
  exists image. auto.
Qed.

Lemma image_text_sizes_witness :
  ImageMindMapDrawing.cache_sound ImageMindMapDrawing.linux_fonts ∅
  ∧ forallb ImageMindMapDrawing.font_size_ok (ImageMindMapDrawing.nodes_preorder example_tree)
    = true
  ∧ ∃ image : ImageMindMapDrawing.Image,
      (ImageMindMapDrawing.generate ImageMindMapDrawing.linux_fonts
         (λ _ _, (0, 0, 0, 0)%R) example_tree "Topic" (mkTheme [] "#ffffff" "#000000") ∅).2
      = Ok image
      ∧ Forall (ImageMindMapDrawing.text_size_within 10 24)
               (ImageMindMapDrawing.image_calls image)
      ∧ ImageMindMapDrawing.cache_sound ImageMindMapDrawing.linux_fonts
          (ImageMindMapDrawing.generate ImageMindMapDrawing.linux_fonts
             (λ _ _, (0, 0, 0, 0)%R) example_tree "Topic"
             (mkTheme [] "#ffffff" "#000000") ∅).1.
Proof.
  split; [apply FontProperties.cache_sound_empty|]. split; [reflexivity|].
  apply (image_text_sizes ImageMindMapDrawing.linux_fonts (λ _ _, (0, 0, 0, 0)%R)
           example_tree "Topic" (mkTheme [] "#ffffff" "#000000") ∅);
    [apply FontProperties.cache_sound_empty | reflexivity].
Defined.

(** X21. Every tree the builder of the facade returns can be drawn: its
    nodes carry the default font, so the image generator returns an
    image. *)
Theorem built_tree_is_drawn (uuid4 : nat → string) (font_file : string → bool)
    (textbbox : string → ImageFont.Font → R * R * R * R)
    (structure : pyval) (drawn drawn' : nat) (root : MindMapNode)
    (title : string) (theme : MindMapTheme) (font_cache : gmap (Z * bool) ImageFont.Font) :
  MindMapService._build_simple_node_tree uuid4 structure drawn = Ok (root, drawn') →
  is_ok (ImageMindMapDrawing.generate font_file textbbox root title theme font_cache).2.
Proof.
  intros Hbuild.
  destruct (build_fresh uuid4 structure drawn root drawn' Hbuild) as (_ & _ & Hunstyled).
  destruct (RenderingProperties.generate_spec font_file textbbox root title theme font_cache)
    as [_ H].
  rewrite (RenderingProperties.unstyled_font_size_ok root Hunstyled) in H.
  destruct H as (image & Himage & _). now exists image.
Qed.

Lemma built_tree_is_drawn_witness :
  MindMapService._build_simple_node_tree (λ _, "u") example_record 0
  = Ok (mkNode "u" "Topic" None default_colors default_font
          [ mkNode "u" "A" None default_colors default_font [];
            mkNode "u" "B" None default_colors default_font
              [ mkNode "u" "B1" None default_colors default_font [] ] ], 4)
  ∧ is_ok (ImageMindMapDrawing.generate ImageMindMapDrawing.linux_fonts
             (λ _ _, (0, 0, 0, 0)%R)
             (mkNode "u" "Topic" None default_colors default_font
                [ mkNode "u" "A" None default_colors default_font [];
                  mkNode "u" "B" None default_colors default_font
                    [ mkNode "u" "B1" None default_colors default_font [] ] ])
             "Topic" (mkTheme [] "#ffffff" "#000000") ∅).2.
Proof.
  split; [reflexivity|].
  apply (built_tree_is_drawn (λ _, "u") ImageMindMapDrawing.linux_fonts
           (λ _ _, (0, 0, 0, 0)%R) example_record 0 4).
  reflexivity.
Defined.

(** ** The handler of the bot *)

Module BotProperties.
Import bot.

Section Handler.

Variable uuid4 : nat → string.
Variable created : string.
Variable markdown_generate : MindMapNode → string → option MindMapTheme → result BytesIO.
Variable upper : string → string.
Variable exception_text : exn → string.

Abbreviation facade := (MindMapService.generate_from_structure uuid4 created markdown_generate).
Abbreviation handle := (handle_message uuid4 created markdown_generate upper exception_text).

(** The facade returns a buffer on its Markdown path only. *)
Lemma facade_returns (structure : pyval) (title format : string) (buffer : BytesIO) :
  (facade structure title format).2 = Ok buffer →
  format = "markdown"
  ∧ ∃ root drawn,
      MindMapService._build_simple_node_tree uuid4 structure 0 = Ok (root, drawn)
      ∧ markdown_generate root title None = Ok buffer.
Proof.
  unfold MindMapService.generate_from_structure.
  destruct (MindMapService._build_simple_node_tree uuid4 structure 0) as [[root drawn]|e];
    [|discriminate].
  destruct (String.eqb_spec format "markdown") as [-> | _]; cbn [snd]; [|discriminate].
  intros H. split; [reflexivity|]. now exists root, drawn.
Qed.

Lemma facade_raises (structure : pyval) (title format : string) :
  format ≠ "markdown" →
  ∃ e, (facade structure title format).2 = Raise e
       ∧ (is_ok (MindMapService._build_simple_node_tree uuid4 structure 0) →
          e = AttributeError)
       ∧ (∀ e', MindMapService._build_simple_node_tree uuid4 structure 0 = Raise e' → e = e').
Proof.
  intros Hne. unfold MindMapService.generate_from_structure.
  destruct (MindMapService._build_simple_node_tree uuid4 structure 0) as [[root drawn]|e].
  - destruct (String.eqb_spec format "markdown") as [-> | _]; [congruence|].
    exists AttributeError. split; [reflexivity|]. split; [reflexivity | discriminate].
  - exists e. split; [reflexivity|]. split; [intros [x Hx]; discriminate Hx|].
    now intros e' [= <-].
Qed.

Lemma handle_document (generated_ : generated) (document : BytesIO)
    (filename caption parse_mode : string) :
  reply_document document filename caption parse_mode ∈ handle generated_ →
  ∃ title structure root drawn,
    generated_ = mindmap title structure "markdown"
    ∧ MindMapService._build_simple_node_tree uuid4 structure 0 = Ok (root, drawn)
    ∧ markdown_generate root title None = Ok document
    ∧ filename = (title ++ ".md")%string.
Proof.
  unfold handle_message. destruct generated_ as [title structure format | text | error].
  - destruct ((facade structure title format).2) as [buffer|e] eqn:Hfacade.
    + rewrite !elem_of_cons, elem_of_nil.
      intros [H | [H | [H | []]]]; try discriminate H.
      injection H as <- -> _ _.
      destruct (facade_returns _ _ _ _ Hfacade) as (-> & root & drawn & Hbuild & Hgen).
      now exists title, structure, root, drawn.
    + rewrite !elem_of_cons, elem_of_nil. intros [H | [H | [H | []]]]; discriminate H.
  - rewrite !elem_of_cons, elem_of_nil. intros [H | [H | [H | []]]]; discriminate H.
  - rewrite !elem_of_cons, elem_of_nil. intros [H | [H | [H | []]]]; discriminate H.
Qed.

Lemma handle_not_markdown (title : string) (structure : pyval) (format : string) :
  format ≠ "markdown" →
  ∃ e,
    handle (mindmap title structure format)
    = [ reply_text thinking; delete thinking;
        reply_text ("❌ Đã xảy ra lỗi: " ++ exception_text e)%string ]
    ∧ (is_ok (MindMapService._build_simple_node_tree uuid4 structure 0) → e = AttributeError)
    ∧ (∀ e', MindMapService._build_simple_node_tree uuid4 structure 0 = Raise e' → e = e').
Proof.
  intros Hne. destruct (facade_raises structure title format Hne) as (e & Hfacade & He).
  exists e. split; [|exact He]. unfold handle_message. now rewrite Hfacade.
Qed.

End Handler.

End BotProperties.

(** X22. The only documents the bot sends are Markdown files: whenever
    the handler sends a document, the mind map was asked for in the format
    [markdown], the document is what the Markdown serializer returned
    for the tree built from the record, and the file is named by the title
    followed by [.md].  The extensions [.json] and [.xlsx] are never
    used. *)
Theorem bot_documents_are_markdown (uuid4 : nat → string) (created : string)
    (markdown_generate : MindMapNode → string → option MindMapTheme → result BytesIO)
    (upper : string → string) (exception_text : exn → string)
    (generated_ : bot.generated) (document : BytesIO) (filename caption parse_mode : string) :
  bot.reply_document document filename caption parse_mode
    ∈ bot.handle_message uuid4 created markdown_generate upper exception_text generated_ →
  ∃ title structure root drawn,
    generated_ = bot.mindmap title structure "markdown"
    ∧ MindMapService._build_simple_node_tree uuid4 structure 0 = Ok (root, drawn)
    ∧ markdown_generate root title None = Ok document
    ∧ filename = (title ++ ".md")%string.
Proof. apply BotProperties.handle_document. Qed.

Lemma bot_documents_are_markdown_witness :
  bot.reply_document (text_bytes "# T") "T.md"
      ("✅ Mind map **" ++ "T" ++ "** đã được tạo thành công!"
       ++ bot.newline ++ bot.newline ++ "📄 Format: " ++ "MARKDOWN")%string "Markdown"
    ∈ bot.handle_message (λ _, "u") "2026-01-01T00:00:00+07:00"
        (λ _ title _, Ok (text_bytes ("# " ++ title)%string)) (λ _, "MARKDOWN") (λ _, "error")
        (bot.mindmap "T" (PDict []) "markdown")
  ∧ ∃ title structure root drawn,
      bot.mindmap "T" (PDict []) "markdown" = bot.mindmap title structure "markdown"
      ∧ MindMapService._build_simple_node_tree (λ _, "u") structure 0 = Ok (root, drawn)
      ∧ (λ (_ : MindMapNode) (title : string) (_ : option MindMapTheme),
           Ok (text_bytes ("# " ++ title)%string)) root title None
        = Ok (text_bytes "# T")
      ∧ "T.md" = (title ++ ".md")%string.
Proof.
  assert (H : bot.reply_document (text_bytes "# T") "T.md"
      ("✅ Mind map **" ++ "T" ++ "** đã được tạo thành công!"
       ++ bot.newline ++ bot.newline ++ "📄 Format: " ++ "MARKDOWN")%string "Markdown"
    ∈ bot.handle_message (λ _, "u") "2026-01-01T00:00:00+07:00"
        (λ _ title _, Ok (text_bytes ("# " ++ title)%string)) (λ _, "MARKDOWN") (λ _, "error")
        (bot.mindmap "T" (PDict []) "markdown")).
  { right. left. }
  split; [exact H|].
  apply (bot_documents_are_markdown (λ _, "u") "2026-01-01T00:00:00+07:00"
           (λ _ title _, Ok (text_bytes ("# " ++ title)%string)) (λ _, "MARKDOWN")
           (λ _, "error") _ _ _ _ _ H).
Defined.

(** X23. A mind map asked for in any format other than [markdown] is never
    delivered: the handler sends the waiting message, deletes it and
    answers with the error message of an exception, which is the
    [AttributeError] of the JSON serializer whenever the record can be
    built into a tree, and the exception of the builder otherwise. *)
Theorem bot_other_formats_fail (uuid4 : nat → string) (created : string)
    (markdown_generate : MindMapNode → string → option MindMapTheme → result BytesIO)
    (upper : string → string) (exception_text : exn → string)
    (title : string) (structure : pyval) (format : string) :
  format ≠ "markdown" →
  ∃ e : exn,
    bot.handle_message uuid4 created markdown_generate upper exception_text
      (bot.mindmap title structure format)
    = [ bot.reply_text bot.thinking; bot.delete bot.thinking;
        bot.reply_text ("❌ Đã xảy ra lỗi: " ++ exception_text e)%string ]
    ∧ (is_ok (MindMapService._build_simple_node_tree uuid4 structure 0) → e = AttributeError)
    ∧ (∀ e', MindMapService._build_simple_node_tree uuid4 structure 0 = Raise e' → e = e').
Proof. apply BotProperties.handle_not_markdown. Qed.

Lemma bot_other_formats_fail_witness :
  "json" ≠ "markdown"
  ∧ ∃ e : exn,
      bot.handle_message (λ _, "u") "2026-01-01T00:00:00+07:00"
        (λ _ _ _, Ok (text_bytes "")) (λ s, s) (λ _, "error")
        (bot.mindmap "Topic" example_record "json")
      = [ bot.reply_text bot.thinking; bot.delete bot.thinking;
          bot.reply_text ("❌ Đã xảy ra lỗi: " ++ (λ _ : exn, "error") e)%string ]
      ∧ (is_ok (MindMapService._build_simple_node_tree (λ _, "u") example_record 0) →
         e = AttributeError)
      ∧ (∀ e', MindMapService._build_simple_node_tree (λ _, "u") example_record 0 = Raise e' →
               e = e').
Proof.
  split; [discriminate|].
  apply (bot_other_formats_fail (λ _, "u") "2026-01-01T00:00:00+07:00"
           (λ _ _ _, Ok (text_bytes "")) (λ s, s) (λ _, "error") "Topic" example_record "json").
  discriminate.
Defined.
